(** * simple_ai_chat.py: the query interpretation engine, embedded in Rocq

    The development follows [src/simple_ai_chat.py]: keyword classification
    of a question ([detect_question_type]), extraction of the columns a
    question names ([analyze_and_answer], [handle_intelligent_fallback]),
    the per-intent handlers, and [generate_response], which copies and
    combines the caller's tables before dispatching.  The Streamlit widget
    [simple_ai_chat], which only displays the answers, is left out.

    Modelling conventions.
    - A Python [str] is a [string] of bytes; case folding, whitespace and the
      regular-expression classes [\w] and [\d] are the ASCII ones.
    - A pandas DataFrame is a record of row labels and named columns; a
      column carries its dtype and its cells.  Column labels are taken to be
      distinct and row labels to be integers; row labels may repeat.
    - Python objects live in a store; a DataFrame argument is a reference
      into it, so that a handler writing into its argument is visible to
      whoever holds the same reference.  A computation returns a value or
      raises an exception.
    - A number is a rational.  The statistics ([describe], [mean], [min],
      [max] written with [:.2f]) and the conversion of an integer column to
      float64 are computed in binary64: every operation is rounded to the
      nearest binary64 number, ties to even ([F64]); the order in which
      numpy adds up an array is an interface ([NumpySum]).  Numbers beyond
      the binary64 range (infinities) are left out.  Percentages and
      thresholds are taken on the exact values.  Fixed-point formatting
      ([:.1f], [:.2f]) writes the decimal nearest to the value it is given.
      The text of a bare number, the parsing of dates and the text of
      timestamps come from pandas and are an interface ([PandasText]) of
      which nothing is assumed. *)

From Stdlib Require Import QArith Qabs Lqa Lia ZArith String Ascii DecimalString.
From Stdlib Require Import Permutation.
From stdpp Require Import gmap strings list.

Local Open Scope string_scope.

(** ** Strings *)

Module Str.

(** ASCII [c.lower()]. *)
Definition lower_char (c : ascii) : ascii :=
  let n := nat_of_ascii c in
  if (65 <=? n)%nat && (n <=? 90)%nat then ascii_of_nat (n + 32) else c.

(** [s.lower()]. *)
Fixpoint lower (s : string) : string :=
  match s with
  | EmptyString => EmptyString
  | String c s' => String (lower_char c) (lower s')
  end.

(** [c.isspace()] on ASCII: tab, LF, VT, FF, CR, FS, GS, RS, US, space. *)
Definition is_space (c : ascii) : bool :=
  let n := nat_of_ascii c in
  ((9 <=? n)%nat && (n <=? 13)%nat) || ((28 <=? n)%nat && (n <=? 32)%nat).

Fixpoint lstrip (s : string) : string :=
  match s with
  | EmptyString => EmptyString
  | String c s' => if is_space c then lstrip s' else s
  end.

(** Right strip: a character is kept when something non-blank follows. *)
Fixpoint rstrip (s : string) : string :=
  match s with
  | EmptyString => EmptyString
  | String c s' =>
      match rstrip s' with
      | EmptyString => if is_space c then EmptyString else String c EmptyString
      | r => String c r
      end
  end.

(** [s.strip()]. *)
Definition strip (s : string) : string := rstrip (lstrip s).

(** [s.startswith(w)]. *)
Fixpoint starts_with (w s : string) : bool :=
  match w, s with
  | EmptyString, _ => true
  | String a w', String b s' => Ascii.eqb a b && starts_with w' s'
  | String _ _, EmptyString => false
  end.

(** [w in s]: [w] occurs in [s] at some position. *)
Fixpoint contains (w s : string) : bool :=
  starts_with w s ||
  match s with
  | EmptyString => false
  | String _ s' => contains w s'
  end.

(** The regular-expression class [\w] (ASCII letters, digits, underscore). *)
Definition is_word_char (c : ascii) : bool :=
  let n := nat_of_ascii c in
  ((48 <=? n)%nat && (n <=? 57)%nat) || ((65 <=? n)%nat && (n <=? 90)%nat)
  || (n =? 95)%nat || ((97 <=? n)%nat && (n <=? 122)%nat).

(** The class [\d]. *)
Definition is_digit (c : ascii) : bool :=
  let n := nat_of_ascii c in (48 <=? n)%nat && (n <=? 57)%nat.

Definition is_word (o : option ascii) : bool :=
  match o with Some c => is_word_char c | None => false end.

(** [\b] holds between two neighbours exactly when one of them is a word
    character and the other is not; outside the string counts as not. *)
Definition boundary (before after : option ascii) : bool :=
  xorb (is_word before) (is_word after).

Definition head_char (s : string) : option ascii :=
  match s with EmptyString => None | String c _ => Some c end.

(** Consume the literal [w] at the start of [s]; gives the last character
    before the end of the match and what follows the match. *)
Fixpoint match_literal (prev : option ascii) (w s : string)
  : option (option ascii * string) :=
  match w, s with
  | EmptyString, _ => Some (prev, s)
  | String a w', String b s' =>
      if Ascii.eqb a b then match_literal (Some b) w' s' else None
  | String _ _, EmptyString => None
  end.

(** Does [\b w \b] match at the start of [s], [prev] being the character
    just before. *)
Definition word_match_here (prev : option ascii) (w s : string) : bool :=
  boundary prev (head_char s) &&
  match match_literal prev w s with
  | Some (last, rest) => boundary last (head_char rest)
  | None => false
  end.

Fixpoint word_search_from (prev : option ascii) (w s : string) : bool :=
  word_match_here prev w s ||
  match s with
  | EmptyString => false
  | String c s' => word_search_from (Some c) w s'
  end.

(** [re.search(r"\b" + re.escape(w) + r"\b", s)] finds a match. *)
Definition word_search (w s : string) : bool := word_search_from None w s.

(** [sep.join(l)]. *)
Fixpoint join (sep : string) (l : list string) : string :=
  match l with
  | [] => EmptyString
  | [x] => x
  | x :: rest => x +:+ sep +:+ join sep rest
  end.

(** Longest prefix of characters satisfying [p], and the rest. *)
Fixpoint span (p : ascii -> bool) (s : string) : string * string :=
  match s with
  | EmptyString => (EmptyString, EmptyString)
  | String c s' =>
      if p c then let '(a, b) := span p s' in (String c a, b)
      else (EmptyString, s)
  end.

(** [re.findall(r"\b\w+\b", s)]: the maximal runs of word characters.
    [acc] holds the run being read, reversed. *)
Fixpoint words_aux (acc : list ascii) (s : string) : list string :=
  let flush := match acc with
               | [] => []
               | _ => [string_of_list_ascii (rev acc)]
               end in
  match s with
  | EmptyString => flush
  | String c s' =>
      if is_word_char c then words_aux (c :: acc) s'
      else flush ++ words_aux [] s'
  end.

Definition words (s : string) : list string := words_aux [] s.

(** The line feed. *)
Definition nl : string := String (ascii_of_nat 10) EmptyString.

(** Concatenation of the pieces of a text, in order. *)
Definition cat (l : list string) : string := fold_right String.append "" l.

(** Number of occurrences of the character [c]. *)
Fixpoint count_char (c : ascii) (s : string) : nat :=
  match s with
  | EmptyString => 0
  | String a s' => (if Ascii.eqb a c then 1 else 0) + count_char c s'
  end.

(** [len(s.split(sep))] for a one-character separator. *)
Definition split_len (c : ascii) (s : string) : nat := S (count_char c s).

(** [str.title()] of a lower-case word without separators. *)
Definition title (s : string) : string :=
  match s with
  | EmptyString => EmptyString
  | String c s' =>
      let n := nat_of_ascii c in
      String (if (97 <=? n)%nat && (n <=? 122)%nat
              then ascii_of_nat (n - 32) else c) s'
  end.

End Str.

(** ** Intent classification *)

(** The ten intents, the strings [detect_question_type] returns. *)
Inductive intent :=
| Count | Statistics | Search | Filter | Comparison
| Trend | Value | ListAll | Summary | General.

Definition intent_name (i : intent) : string :=
  match i with
  | Count => "count" | Statistics => "statistics" | Search => "search"
  | Filter => "filter" | Comparison => "comparison" | Trend => "trend"
  | Value => "value" | ListAll => "list" | Summary => "summary"
  | General => "general"
  end.

Definition count_words : list string :=
  ["how many"; "count"; "total"; "number of"; "quantity"].
Definition stats_words : list string :=
  ["average"; "mean"; "median"; "min"; "max"; "sum"; "statistics"; "stats";
   "avg"].
Definition search_words : list string :=
  ["find"; "search"; "show"; "display"; "get"].
Definition filter_words : list string :=
  ["where"; "which"; "what"; "who"; "when"; "with"; "having"].
Definition compare_words : list string :=
  ["compare"; "difference"; "vs"; "versus"; "more than"; "less than";
   "greater"; "smaller"].
Definition trend_words : list string :=
  ["trend"; "over time"; "recent"; "latest"; "oldest"; "newest"; "earliest";
   "last"].
Definition value_words : list string :=
  ["value"; "what is"; "tell me"; "give me"].
Definition list_words : list string := ["list"; "all"; "every"; "each"].
Definition summary_words : list string :=
  ["summary"; "overview"; "tell me about"; "describe"].

(** [any(word in user_input for word in ws)]. *)
Definition any_in (ws : list string) (user_input : string) : bool :=
  existsb (fun word => Str.contains word user_input) ws.

(** [detect_question_type]; the table and the column list are arguments the
    source never reads. *)
Definition detect_question_type (user_input : string) : intent :=
  if any_in count_words user_input then Count
  else if any_in stats_words user_input then Statistics
  else if any_in search_words user_input then Search
  else if any_in filter_words user_input then Filter
  else if any_in compare_words user_input then Comparison
  else if any_in trend_words user_input then Trend
  else if any_in value_words user_input then Value
  else if any_in list_words user_input then ListAll
  else if any_in summary_words user_input then Summary
  else General.

(** ** Column extraction *)

(** The dict comprehension [{col.lower().strip(): col for col in columns}]:
    a later column with the same key replaces the value and keeps the place
    of the first. *)
Fixpoint dict_set (k v : string) (d : list (string * string))
  : list (string * string) :=
  match d with
  | [] => [(k, v)]
  | (k', v') :: d' =>
      if String.eqb k' k then (k', v) :: d' else (k', v') :: dict_set k v d'
  end.

Definition col_map (columns : list string) : list (string * string) :=
  fold_left (fun d col => dict_set (Str.strip (Str.lower col)) col d)
            columns [].

(** The whole-word extractor of [analyze_and_answer]. *)
Definition mentioned_columns (user_input : string) (columns : list string)
  : list string :=
  map snd (List.filter (fun kv => Str.word_search (fst kv) user_input)
                       (col_map columns)).

(** The substring extractor of [handle_intelligent_fallback]. *)
Definition fallback_mentioned (user_input : string) (columns : list string)
  : list string :=
  List.filter
    (fun col => Str.contains (Str.lower col) (Str.lower user_input)) columns.

(** ** Numbers and their text *)

Module Fmt.

(** Decimal text of a natural number, as [f"{n}"] for a Python int. *)
Definition of_nat (n : nat) : string :=
  NilEmpty.string_of_uint (Nat.to_uint n).

Definition of_Z_nonneg (z : Z) : string :=
  NilEmpty.string_of_uint (N.to_uint (Z.to_N z)).

(** Left padding with zeros up to [width] characters. *)
Definition zero_pad (width : nat) (s : string) : string :=
  string_of_list_ascii (repeat "0"%char (width - String.length s)) +:+ s.

(** Nearest integer to the non-negative fraction [n / d], ties to even. *)
Definition round_half_even (n : Z) (d : Z) : Z :=
  let fl := (n / d)%Z in
  let r2 := (2 * (n mod d))%Z in
  if (r2 <? d)%Z then fl
  else if (d <? r2)%Z then (fl + 1)%Z
  else if Z.even fl then fl else (fl + 1)%Z.

(** Sign, digits before and digits after the point of a value scaled by
    [10 ^ digits] and already rounded to [r]. *)
Definition render (negative : bool) (digits : nat) (r : Z) : string :=
  let scale := (10 ^ Z.of_nat digits)%Z in
  (if negative then "-" else "") +:+ of_Z_nonneg (r / scale) +:+
  match digits with
  | O => ""
  | _ => "." +:+ zero_pad digits (of_Z_nonneg (r mod scale))
  end.

(** [|q| * 10 ^ digits] rounded to an integer: the digits that
    [f"{q:.<digits>f}"] prints. *)
Definition rounded (digits : nat) (q : Q) : Z :=
  round_half_even (Z.abs (Qnum q) * 10 ^ Z.of_nat digits) (Z.pos (Qden q)).

(** [f"{q:.<digits>f}"] on the exact value of [q]. *)
Definition fixed (digits : nat) (q : Q) : string :=
  render (Qnum q <? 0)%Z digits (rounded digits q).

(** The number that [fixed digits q] writes. *)
Definition printed (digits : nat) (q : Q) : Q :=
  Qmake (if (Qnum q <? 0)%Z then - rounded digits q else rounded digits q)
        (Z.to_pos (10 ^ Z.of_nat digits)).

(** [f"{x:.2f}"] where [x] is missing ([nan]). *)
Definition fixed_opt (digits : nat) (o : option Q) : string :=
  match o with Some q => fixed digits q | None => "nan" end.

Definition digit_value (c : ascii) : Z := Z.of_nat (nat_of_ascii c - 48).

Fixpoint digits_value (acc : Z) (s : string) : Z :=
  match s with
  | EmptyString => acc
  | String c s' => digits_value (10 * acc + digit_value c)%Z s'
  end.

(** The first match of [re.findall(r"\d+\.?\d*", s)], as the number
    [float] reads in it. *)
Fixpoint first_number (s : string) : option Q :=
  match s with
  | EmptyString => None
  | String c s' =>
      if Str.is_digit c then
        let '(whole, rest) := Str.span Str.is_digit s in
        let frac :=
          match rest with
          | String "."%char rest' => fst (Str.span Str.is_digit rest')
          | _ => EmptyString
          end in
        Some (Qmake (digits_value (digits_value 0 whole) frac)
                    (Z.to_pos (10 ^ Z.of_nat (String.length frac))))
      else first_number s'
  end.

End Fmt.

(** ** Binary64 numbers *)

Module F64.

(** A finite binary64 number is a whole number of units of [2 ^ -1074]
    that can be written [m * 2 ^ j] with [m] of at most 53 bits. *)
Definition unit : positive := 2 ^ 1074.

(** The exponent [j] at which the fraction [n / d >= 0], counted in units,
    is rounded: the integer part of the quotient by [2 ^ j] has 53 bits,
    and [j] is 0 for the numbers below [2 ^ 53] units. *)
Definition exponent (n d : Z) : Z :=
  let fl := (n / d)%Z in
  if (fl <? 2 ^ 53)%Z then 0%Z else (Z.log2 fl - 52)%Z.

(** The binary64 number nearest to [n / d >= 0], in units, ties going to
    the even significand. *)
Definition nearest (n d : Z) : Z :=
  let j := exponent n d in
  (Fmt.round_half_even n (d * 2 ^ j) * 2 ^ j)%Z.

(** [q] rounded to binary64, in units. *)
Definition units (q : Q) : Z :=
  let k := nearest (Z.abs (Qnum q) * Z.pos unit) (Z.pos (Qden q)) in
  if (Qnum q <? 0)%Z then (- k)%Z else k.

(** [float(q)]: the binary64 number nearest to [q]. *)
Definition round (q : Q) : Q := Qred (units q # unit).

(** [q] is a binary64 number. *)
Definition finite (q : Q) : Prop := (round q == q)%Q.

(** The arithmetic of binary64 numbers. *)
Definition add (x y : Q) : Q := round (x + y).
Definition sub (x y : Q) : Q := round (x - y).
Definition mul (x y : Q) : Q := round (x * y).
Definition div (x y : Q) : Q := round (x / y).

(** [np.sqrt(v)] for [v >= 0]: the binary64 number nearest to the square
    root.  In units the root is that of [n / d] below; [f] is the integer
    part of the root divided by [2 ^ j], and the comparison places the root
    with respect to [f + 1/2]. *)
Definition sqrt (v : Q) : Q :=
  let n := (Qnum v * Z.pos unit * Z.pos unit)%Z in
  let d := Z.pos (Qden v) in
  let fl := Z.sqrt (n / d) in
  let j := if (fl <? 2 ^ 53)%Z then 0%Z else (Z.log2 fl - 52)%Z in
  let f := Z.sqrt (n / (d * 4 ^ j)) in
  let r := match (4 * n ?= d * 4 ^ j * ((2 * f + 1) * (2 * f + 1)))%Z with
           | Lt => f
           | Gt => (f + 1)%Z
           | Eq => if Z.even f then f else (f + 1)%Z
           end in
  Qred (r * 2 ^ j # unit).

End F64.

(** A way of adding up binary64 numbers: which sums are formed, each being
    rounded. *)
Inductive summation :=
| Zero
| Term (x : Q)
| Plus (a b : summation).

Fixpoint terms (t : summation) : list Q :=
  match t with
  | Zero => []
  | Term x => [x]
  | Plus a b => (terms a ++ terms b)%list
  end.

Fixpoint total (t : summation) : Q :=
  match t with
  | Zero => 0%Q
  | Term x => x
  | Plus a b => F64.add (total a) (total b)
  end.

(** [a.sum()] of a float64 array, as numpy computes it.  numpy adds an
    array of fewer than eight numbers in order, starting from zero; it adds
    a longer one in blocks and by halves, and of that only this is kept:
    every number of the array is added once. *)
Class NumpySum := {
  np_sum : list Q -> Q;
  np_sum_short :
    forall l, (length l < 8)%nat -> np_sum l = fold_left F64.add l 0%Q;
  np_sum_order :
    forall l, exists t, Permutation (terms t) l /\ np_sum l = total t
}.

(** ** Tables *)

(** The three missing values pandas tells apart when printing. *)
Inductive null_kind := NaN | NoneObj | NaT.

(** A cell: missing, a number, a text, or a timestamp (nanoseconds). *)
Inductive cell :=
| Null (k : null_kind)
| Num (q : Q)
| Str (s : string)
| Time (t : Z).

Inductive dtype := DObject | DInt64 | DFloat64 | DDatetime.

Record column := { col_dtype : dtype; col_values : list cell }.

(** A DataFrame: row labels and the named columns, in their order. *)
Record DataFrame := {
  df_index : list nat;
  df_columns : list (string * column)
}.

(** What pandas contributes to the text and to date handling. *)
Class PandasText := {
  show_num : Q -> string;          (* str(x) of a number *)
  parse_date : string -> option (option Z);
                                   (* to_datetime of a text: None when it
                                      fails, Some None when it reads NaT *)
  num_date : Q -> option Z;        (* to_datetime of a number *)
  show_timestamp : Z -> string;    (* str(ts) *)
  month_of : Z -> Z;               (* ts.to_period("M"), as an ordinal *)
  show_period : Z -> string        (* str(period) *)
}.

Module Pd.

(** [pd.notna(v)]. *)
Definition notna (c : cell) : bool :=
  match c with Null _ => false | _ => true end.

Definition isna (c : cell) : bool := negb (notna c).

(** Equality of cells as grouping and de-duplication see it. *)
Definition cell_eqb (a b : cell) : bool :=
  match a, b with
  | Null _, Null _ => true
  | Num p, Num q => Qeq_bool p q
  | Str s, Str t => String.eqb s t
  | Time s, Time t => Z.eqb s t
  | _, _ => false
  end.

(** [str(v)]. *)
Definition cell_str `{PandasText} (c : cell) : string :=
  match c with
  | Null NaN => "nan"
  | Null NoneObj => "None"
  | Null NaT => "NaT"
  | Num q => show_num q
  | Str s => s
  | Time t => show_timestamp t
  end.

(** [len(df)]. *)
Definition len (df : DataFrame) : nat := length (df_index df).

(** [list(df.columns)]. *)
Definition columns (df : DataFrame) : list string := map fst (df_columns df).

(** [df.empty]: some axis has length zero. *)
Definition empty (df : DataFrame) : bool :=
  match df_index df, df_columns df with
  | [], _ | _, [] => true
  | _, _ => false
  end.

Fixpoint assoc {A} (k : string) (l : list (string * A)) : option A :=
  match l with
  | [] => None
  | (k', v) :: l' => if String.eqb k' k then Some v else assoc k l'
  end.

(** [col in df.columns]. *)
Definition has_column (df : DataFrame) (col : string) : bool :=
  match assoc col (df_columns df) with Some _ => true | None => false end.

(** [df[col]]; the handlers only ask for columns the frame has. *)
Definition get (df : DataFrame) (col : string) : column :=
  match assoc col (df_columns df) with
  | Some c => c
  | None => {| col_dtype := DObject; col_values := [] |}
  end.

Definition values (df : DataFrame) (col : string) : list cell :=
  col_values (get df col).

Definition dtype_of (df : DataFrame) (col : string) : dtype :=
  col_dtype (get df col).

Fixpoint assoc_set {A} (k : string) (v : A) (l : list (string * A))
  : list (string * A) :=
  match l with
  | [] => [(k, v)]
  | (k', v') :: l' =>
      if String.eqb k' k then (k', v) :: l' else (k', v') :: assoc_set k v l'
  end.

(** The frame after [df[col] = c]. *)
Definition set_column (df : DataFrame) (col : string) (c : column)
  : DataFrame :=
  {| df_index := df_index df;
     df_columns := assoc_set col c (df_columns df) |}.

(** [s.dropna()]. *)
Definition dropna (l : list cell) : list cell := List.filter notna l.

(** [s.notna().sum()]. *)
Definition count_notna (l : list cell) : nat := length (dropna l).

(** Distinct values in order of first appearance. *)
Fixpoint unique (l : list cell) : list cell :=
  match l with
  | [] => []
  | x :: l' => x :: List.filter (fun y => negb (cell_eqb x y)) (unique l')
  end.

(** [s.nunique()]: missing values are not counted. *)
Definition nunique (l : list cell) : nat := length (unique (dropna l)).

(** One more occurrence of [v] in a tally kept in order of first
    appearance. *)
Fixpoint bump (v : cell) (acc : list (cell * nat)) : list (cell * nat) :=
  match acc with
  | [] => [(v, 1)]
  | (k, n) :: acc' =>
      if cell_eqb k v then (k, S n) :: acc' else (k, n) :: bump v acc'
  end.

Definition tally (l : list cell) : list (cell * nat) :=
  fold_left (fun acc v => bump v acc) l [].

(** Insertion in front of the first entry that is not more frequent. *)
Fixpoint insert_desc (x : cell * nat) (l : list (cell * nat))
  : list (cell * nat) :=
  match l with
  | [] => [x]
  | y :: l' => if (snd y <=? snd x)%nat then x :: l else y :: insert_desc x l'
  end.

Definition sort_desc (l : list (cell * nat)) : list (cell * nat) :=
  fold_right insert_desc [] l.

(** [s.value_counts()]: occurrences of each non-missing value, the most
    frequent first, equally frequent values in order of first appearance. *)
Definition value_counts (l : list cell) : list (cell * nat) :=
  sort_desc (tally (dropna l)).

(** [x.head(n)] and [x.tail(n)]. *)
Definition head {A} (n : nat) (l : list A) : list A := firstn n l.
Definition tail {A} (n : nat) (l : list A) : list A :=
  skipn (length l - n) l.

(** [df.select_dtypes(include=[np.number]).columns.tolist()]. *)
Definition is_number_dtype (d : dtype) : bool :=
  match d with DInt64 | DFloat64 => true | _ => false end.

Definition numeric_cols (df : DataFrame) : list string :=
  map fst (List.filter (fun nc => is_number_dtype (col_dtype (snd nc)))
                       (df_columns df)).

(** The numbers among the cells. *)
Fixpoint nums (l : list cell) : list Q :=
  match l with
  | [] => []
  | Num q :: l' => q :: nums l'
  | _ :: l' => nums l'
  end.

Definition qsum (l : list Q) : Q := fold_right Qplus 0%Q l.

Definition qmin (a b : Q) : Q := if Qle_bool a b then a else b.
Definition qmax (a b : Q) : Q := if Qle_bool a b then b else a.

(** [s.min()] and [s.max()] skip missing values and are missing
    themselves when nothing is left. *)
Definition min_of (l : list Q) : option Q :=
  match l with [] => None | x :: l' => Some (fold_left qmin l' x) end.
Definition max_of (l : list Q) : option Q :=
  match l with [] => None | x :: l' => Some (fold_left qmax l' x) end.

(** The numbers of a column as float64 values ([astype("float64")]). *)
Definition floats (l : list cell) : list Q := map F64.round (nums l).

(** The float64 array that a sum skipping missing values adds up: a
    missing entry counts as zero. *)
Definition addends (l : list cell) : list Q :=
  map (fun c => match c with Num q => F64.round q | _ => 0%Q end) l.

(** [s.mean()]: the sum of the array divided by the number of entries that
    are not missing, both in binary64. *)
Definition mean_of `{NumpySum} (l : list cell) : option Q :=
  match count_notna l with
  | O => None
  | n => Some (F64.div (np_sum (addends l)) (inject_Z (Z.of_nat n)))
  end.

Fixpoint insert_asc (x : Q) (l : list Q) : list Q :=
  match l with
  | [] => [x]
  | y :: l' => if Qle_bool x y then x :: l else y :: insert_asc x l'
  end.

Definition sort_asc (l : list Q) : list Q := fold_right insert_asc [] l.

(** The 50% quantile of float64 values with linear interpolation: the
    middle value of an odd number of values; of an even number, with [lo]
    and [hi] the two middle values, [hi - (hi - lo) * 0.5] in binary64. *)
Definition median_of (l : list Q) : option Q :=
  let s := sort_asc l in
  let n := length s in
  match n with
  | O => None
  | _ =>
      let lo := nth ((n - 1) / 2) s 0%Q in
      let hi := nth (n / 2) s 0%Q in
      Some (if Nat.even n
            then F64.sub hi (F64.mul (F64.sub hi lo) (1 # 2))
            else lo)
  end.

(** [s.std()] of float64 values: the square root of the sum of the squared
    deviations from the mean over one less than their number; undefined
    for fewer than two values. *)
Definition std_of `{NumpySum} (l : list Q) : option Q :=
  let n := length l in
  if (2 <=? n)%nat then
    let avg := F64.div (np_sum l) (inject_Z (Z.of_nat n)) in
    let sqr := map (fun x => let d := F64.sub avg x in F64.mul d d) l in
    Some (F64.sqrt (F64.div (np_sum sqr) (inject_Z (Z.of_nat (n - 1)))))
  else None.

(** The entries of [s.describe()] the statistics handler prints; all of
    them are float64 values. *)
Record description := {
  d_count : nat;
  d_mean : option Q;
  d_median : option Q;
  d_min : option Q;
  d_max : option Q;
  d_std : option Q
}.

Definition describe `{NumpySum} (col_data : list cell) : description :=
  let xs := floats col_data in
  {| d_count := count_notna col_data;
     d_mean := mean_of col_data;
     d_median := median_of xs;
     d_min := min_of xs;
     d_max := max_of xs;
     d_std := std_of xs |}.

(** The rows of a frame: each label with the cells of the row, in column
    order. *)
Definition rows (df : DataFrame) : list (nat * list cell) :=
  imap (fun i label =>
          (label, map (fun nc => nth i (col_values (snd nc)) (Null NaN))
                      (df_columns df)))
       (df_index df).

(** [row.get(col, "N/A")] for a row of a frame with columns [names]. *)
Fixpoint row_get (names : list string) (cells : list cell) (col : string)
  : cell :=
  match names, cells with
  | n :: names', c :: cells' =>
      if String.eqb n col then c else row_get names' cells' col
  | _, _ => Str "N/A"
  end.

End Pd.

(** ** The store of DataFrame objects *)

(** The exceptions of pandas that the handlers can meet. *)
Inductive exn := IndexError | IndexingError.

(** What a computation comes to: a value, or an exception. *)
Inductive outcome (A : Type) :=
| Returns (a : A)
| Raises (e : exn).
Arguments Returns {A} a.
Arguments Raises {A} e.

(** Objects are named by references; [M A] is a computation that may read
    and write the store and returns an [A] or raises. *)
Abbreviation ref := nat.
Abbreviation store := (gmap nat DataFrame).

Definition M (A : Type) : Type := store -> outcome A * store.

Definition ret {A} (a : A) : M A := fun s => (Returns a, s).

(** What has been written stays written when an exception leaves. *)
Definition bind {A B} (m : M A) (k : A -> M B) : M B :=
  fun s => match m s with
           | (Returns a, s') => k a s'
           | (Raises e, s') => (Raises e, s')
           end.

(** A computation that only computes. *)
Definition lift {A} (o : outcome A) : M A := fun s => (o, s).

Notation "'let*' x := m 'in' k" := (bind m (fun x => k))
  (at level 10, x name, m at level 100, k at level 200).

(** The frame a reference points to. *)
Definition deref (s : store) (r : ref) : DataFrame :=
  default {| df_index := []; df_columns := [] |} (s !! r).

Definition read (r : ref) : M DataFrame := fun s => (Returns (deref s r), s).

(** In-place update of the object behind [r]. *)
Definition write (r : ref) (df : DataFrame) : M unit :=
  fun s => (Returns tt, <[r := df]> s).

(** A new object. *)
Definition alloc (df : DataFrame) : M ref :=
  fun s => let r := fresh (dom s) in (Returns r, <[r := df]> s).

(** [df.copy()]: a new object with the same contents. *)
Definition copy (r : ref) : M ref := let* df := read r in alloc df.

(** ** Handlers *)

Definition status_values : list string :=
  ["critical"; "high"; "medium"; "low"; "open"; "closed"; "resolved";
   "pending"; "active"; "inactive"].

(** [(count / total) * 100]. *)
Definition pct (count total : nat) : Q :=
  (inject_Z (Z.of_nat count) / inject_Z (Z.of_nat total) * 100)%Q.

(** A DataFrame derived from [df] by selecting or reordering rows keeps the
    columns of [df]; it is represented by its labelled rows. *)
Abbreviation row := (nat * list cell)%type.

Import Str (nl).

Section Handlers.
Context `{PandasText} `{NumpySum}.

(** [col] is an object column with at most [cap] distinct values. *)
Definition is_categorical (df : DataFrame) (cap : nat) (col : string) : bool :=
  match Pd.dtype_of df col with
  | DObject => (Pd.nunique (Pd.values df col) <=? cap)%nat
  | _ => false
  end.

(** The pairs [f"{col}: {val}"] of a row for the given columns, leaving out
    missing and blank values. *)
Definition key_info (names : list string) (cells : list cell)
    (cols : list string) : list string :=
  flat_map
    (fun col =>
       let val := Pd.row_get names cells col in
       if Pd.notna val &&
          negb (String.eqb (Str.strip (Pd.cell_str val)) "")
       then [col +:+ ": " +:+ Pd.cell_str val] else [])
    cols.

(** A value-count breakdown: each value with its count and
    [pct = (count / total) * 100]. *)
Definition breakdown (total : nat) (value_counts : list (cell * nat))
  : list (cell * nat * Q) :=
  map (fun vc => (fst vc, snd vc, pct (snd vc) total)) value_counts.

(** The line [f"<bullet>{val}<sep>{count} ({pct:.1f}%)\n"] of one value. *)
Definition breakdown_line (bullet sep : string) (item : cell * nat * Q)
  : string :=
  bullet +:+ Pd.cell_str (fst (fst item)) +:+ sep +:+
  Fmt.of_nat (snd (fst item)) +:+ " (" +:+ Fmt.fixed 1 (snd item) +:+ "%)" +:+
  nl.

Definition breakdown_lines (bullet sep : string) (total : nat)
    (value_counts : list (cell * nat)) : string :=
  Str.cat (map (breakdown_line bullet sep) (breakdown total value_counts)).

(** *** Count *)

(** The block of one mentioned column. *)
Definition count_mentioned (user_input : string) (df : DataFrame)
    (col : string) : string :=
  if negb (Pd.has_column df col) then ""
  else if Str.contains "unique" user_input
          || Str.contains "different" user_input then
    "📊 **Unique " +:+ col +:+ " values:** " +:+
    Fmt.of_nat (Pd.nunique (Pd.values df col)) +:+ nl +:+ nl
  else
    let non_null_data := Pd.dropna (Pd.values df col) in
    if (0 <? length non_null_data)%nat then
      let value_counts := Pd.value_counts non_null_data in
      if (length value_counts <=? 20)%nat then
        "📊 **Count by " +:+ col +:+ ":**" +:+ nl +:+ nl +:+
        breakdown_lines "- **" ":** " (Pd.len df) value_counts +:+ nl
      else ""
    else "".

(** The test [astype(str).str.lower().str.strip() == val] on a cell that
    is not missing. *)
Definition cell_is (val : string) (c : cell) : bool :=
  Pd.notna c && String.eqb (Str.strip (Str.lower (Pd.cell_str c))) val.

Definition count_value (df : DataFrame) (col val : string) : nat :=
  length (List.filter (cell_is val) (Pd.values df col)).

(** The block of one column named in the question: the first status value
    of the question that the column holds. *)
Definition count_column_value (user_input : string) (df : DataFrame)
    (col : string) : string :=
  if Str.word_search (Str.lower col) user_input then
    match List.find
            (fun val => Str.word_search val user_input &&
                        Pd.has_column df col &&
                        (0 <? count_value df col val)%nat)
            status_values with
    | Some val =>
        "📊 **" +:+ col +:+ " = '" +:+ Str.title val +:+ "':** " +:+
        Fmt.of_nat (count_value df col val) +:+ nl +:+ nl
    | None => ""
    end
  else "".

(** Stable sort of column names, most non-missing values first. *)
Fixpoint insert_by_notna (df : DataFrame) (x : string) (l : list string)
  : list string :=
  match l with
  | [] => [x]
  | y :: l' =>
      if (Pd.count_notna (Pd.values df y)
          <=? Pd.count_notna (Pd.values df x))%nat
      then x :: l else y :: insert_by_notna df x l'
  end.

Definition sort_by_notna (df : DataFrame) (l : list string) : list string :=
  fold_right (insert_by_notna df) [] l.

(** The distribution block of the general count. *)
Definition count_distribution (df : DataFrame) (col : string) : string :=
  let non_null_data := Pd.dropna (Pd.values df col) in
  if (0 <? length non_null_data)%nat then
    let value_counts := Pd.head 10 (Pd.value_counts non_null_data) in
    if (0 <? length value_counts)%nat then
      "**" +:+ col +:+ " Distribution:**" +:+ nl +:+
      breakdown_lines "- " ": " (Pd.len df) value_counts +:+ nl
    else ""
  else "".

Definition count_response (user_input : string) (df : DataFrame)
    (columns mentioned_cols data_sources : list string) : string :=
  let total_records := Pd.len df in
  let response :=
    Str.cat (map (count_mentioned user_input df) mentioned_cols) +:+
    Str.cat (map (count_column_value user_input df) columns) in
  let response :=
    if String.eqb response "" then
      let categorical_cols :=
        sort_by_notna df (List.filter (is_categorical df 20) columns) in
      "📊 **Total Records:** " +:+ Fmt.of_nat total_records +:+ nl +:+ nl +:+
      Str.cat (map (count_distribution df) (Pd.head 7 categorical_cols))
    else response in
  let response :=
    if (1 <? length data_sources)%nat then
      response +:+ nl +:+ "*Data from: " +:+ Str.join ", " data_sources +:+
      "*" +:+ nl
    else response in
  if String.eqb response "" then
    "Found " +:+ Fmt.of_nat total_records +:+ " records in total."
  else response.

(** *** Statistics *)

Definition stats_block (df : DataFrame) (col : string) : string :=
  let col_data := Pd.dropna (Pd.values df col) in
  if (0 <? length col_data)%nat then
    let stats := Pd.describe col_data in
    "**" +:+ col +:+ " Statistics:**" +:+ nl +:+
    "- Count: " +:+ Fmt.of_nat (Pd.d_count stats) +:+ nl +:+
    "- Mean: " +:+ Fmt.fixed_opt 2 (Pd.d_mean stats) +:+ nl +:+
    "- Median: " +:+ Fmt.fixed_opt 2 (Pd.d_median stats) +:+ nl +:+
    "- Min: " +:+ Fmt.fixed_opt 2 (Pd.d_min stats) +:+ nl +:+
    "- Max: " +:+ Fmt.fixed_opt 2 (Pd.d_max stats) +:+ nl +:+
    match Pd.d_std stats with
    | Some std => "- Std Dev: " +:+ Fmt.fixed 2 std +:+ nl
    | None => ""
    end +:+ nl
  else "".

Definition stats_distribution (df : DataFrame) (col : string) : string :=
  let non_null_data := Pd.dropna (Pd.values df col) in
  if (0 <? length non_null_data)%nat then
    "**" +:+ col +:+ " Distribution:**" +:+ nl +:+
    breakdown_lines "- " ": " (Pd.len df)
      (Pd.head 5 (Pd.value_counts non_null_data)) +:+ nl
  else "".

(** The columns the statistics handler analyses. *)
Definition analyzed_cols (df : DataFrame) (mentioned_cols : list string)
  : list string :=
  let numeric_cols := Pd.numeric_cols df in
  let analyzed :=
    List.filter (fun col => existsb (String.eqb col) numeric_cols)
                mentioned_cols in
  match analyzed with
  | [] => Pd.head 5 numeric_cols
  | _ => analyzed
  end.

Definition statistics_response (user_input : string) (df : DataFrame)
    (columns mentioned_cols : list string) : string :=
  "📈 **Statistical Analysis:**" +:+ nl +:+ nl +:+
  match analyzed_cols df mentioned_cols with
  | [] =>
      "No numeric columns found for statistical analysis." +:+ nl +:+
      Str.cat (map (stats_distribution df)
                   (Pd.head 3 (List.filter (is_categorical df 20) columns)))
  | cols => Str.cat (map (stats_block df) cols)
  end.

(** *** Search *)

Definition stop_words : list string :=
  ["the"; "a"; "an"; "and"; "or"; "but"; "in"; "on"; "at"; "to"; "for";
   "of"; "with"; "by"; "from"; "is"; "are"; "was"; "were"; "be"; "been";
   "being"; "have"; "has"; "had"; "do"; "does"; "did"; "will"; "would";
   "should"; "could"; "may"; "might"; "must"; "can"; "find"; "show";
   "search"; "get"; "display"].

Definition search_terms (user_input : string) : list string :=
  List.filter
    (fun term => negb (existsb (String.eqb term) stop_words) &&
                 (2 <? String.length term)%nat)
    (Str.words (Str.lower user_input)).

(** One entry of the mask
    [astype(str).str.lower().str.contains("|".join(terms))]: the terms are
    runs of word characters, so the pattern is a choice of literals. *)
Definition cell_matches (terms : list string) (c : cell) : bool :=
  existsb (fun term => Str.contains term (Str.lower (Pd.cell_str c))) terms.

(** [df[mask]] for a mask given in row order. *)
Definition rows_where (df : DataFrame) (mask : list bool) : list row :=
  map snd (List.filter fst (combine mask (Pd.rows df))).

Definition row_eqb (a b : list cell) : bool :=
  (length a =? length b)%nat &&
  forallb (fun ab => Pd.cell_eqb (fst ab) (snd ab)) (combine a b).

(** [drop_duplicates()]: the first of equal rows stays, with its label. *)
Fixpoint drop_duplicates (l : list row) : list row :=
  match l with
  | [] => []
  | r :: l' =>
      r :: List.filter (fun r' => negb (row_eqb (snd r) (snd r')))
                       (drop_duplicates l')
  end.

(** [pd.concat(..., ignore_index=True)] of the selections: labels are the
    positions in the result. *)
Definition relabel (l : list (list cell)) : list row :=
  imap (fun i cells => (i, cells)) l.

Definition search_matches (terms : list string) (df : DataFrame)
    (columns : list string) : list row :=
  let text_columns :=
    List.filter (fun col => match Pd.dtype_of df col with
                            | DObject => true | _ => false end) columns in
  drop_duplicates
    (relabel
       (flat_map
          (fun col =>
             map snd (rows_where df (map (cell_matches terms)
                                         (Pd.values df col))))
          text_columns)).

Definition search_response (user_input : string) (df : DataFrame)
    (columns : list string) : string :=
  let terms := search_terms user_input in
  match terms with
  | [] =>
      "Please provide specific search terms. For example: 'Find incidents with high severity'"
  | _ =>
      let matches := search_matches terms df columns in
      match matches with
      | [] =>
          "❌ No records found matching: " +:+ Str.join ", " terms +:+ nl +:+
          nl +:+
          "Try different search terms or ask about specific columns or values."
      | _ =>
          "🔍 **Found " +:+ Fmt.of_nat (length matches) +:+
          " matching records:**" +:+ nl +:+ nl +:+
          Str.cat
            (map (fun r : row =>
                    "**Record " +:+ Fmt.of_nat (fst r + 1) +:+ ":**" +:+ nl +:+
                    Str.join " - "
                      (Pd.head 3 (key_info (Pd.columns df) (snd r)
                                           (Pd.head 5 columns))) +:+
                    nl +:+ nl)
                 (Pd.head 10 matches)) +:+
          (if (10 <? length matches)%nat then
             "... and " +:+ Fmt.of_nat (length matches - 10) +:+
             " more results." +:+ nl
           else "")
      end
  end.

(** *** Filter *)

(** A constraint the filter handler has applied. *)
Inductive applied :=
| IsValue (col val : string)
| Above (col : string) (threshold : Q)
| Below (col : string) (threshold : Q).

(** The entry of [filters_applied]. *)
Definition applied_text (a : applied) : string :=
  match a with
  | IsValue col val => col +:+ " = " +:+ val
  | Above col t => col +:+ " > " +:+ show_num t
  | Below col t => col +:+ " < " +:+ show_num t
  end.

Definition cell_above (t : Q) (c : cell) : bool :=
  match c with Num q => negb (Qle_bool q t) | _ => false end.

Definition cell_below (t : Q) (c : cell) : bool :=
  match c with Num q => negb (Qle_bool t q) | _ => false end.

(** The mask of a constraint over the rows of [df]. *)
Definition applied_mask (df : DataFrame) (a : applied) : list bool :=
  match a with
  | IsValue col val => map (cell_is val) (Pd.values df col)
  | Above col t => map (cell_above t) (Pd.values df col)
  | Below col t => map (cell_below t) (Pd.values df col)
  end.

(** [mask.any()]. *)
Definition any (mask : list bool) : bool := existsb id mask.

(** [filtered_df[mask]] for a boolean Series [mask] over the rows of the
    full frame, whose labels are [index].  While the labels of
    [filtered_df] are those of the full frame the mask is used by position.
    Otherwise it is aligned: for each row of [filtered_df] the entries of
    the mask under the label of the row are taken, all of them when the
    label repeats ([get_indexer_for], [take]); a label the mask does not
    have raises.  The aligned mask is then used by position: all true, it
    keeps [filtered_df]; else the rows at the positions of its true entries
    are taken, and a position past the last row raises. *)
Definition select (index : list nat) (mask : list bool)
    (filtered_df : list row) : outcome (list row) :=
  if decide (map fst filtered_df = index) then
    Returns (map snd (List.filter fst (combine mask filtered_df)))
  else if existsb (fun r : row => negb (existsb (Nat.eqb (fst r)) index))
                  filtered_df then
    Raises IndexingError
  else
    let key :=
      flat_map
        (fun r : row =>
           map snd (List.filter (fun lm : nat * bool => (fst lm =? fst r)%nat)
                                (combine index mask)))
        filtered_df in
    if forallb id key then Returns filtered_df
    else
      let indexer := map fst (List.filter snd (imap pair key)) in
      if forallb (fun i => (i <? length filtered_df)%nat) indexer then
        Returns (flat_map (fun i => match nth_error filtered_df i with
                                    | Some r => [r]
                                    | None => []
                                    end)
                          indexer)
      else Raises IndexError.

(** The mentioned-column loop: per column, the first status value of the
    question that some row of the column holds. *)
Definition value_filter (user_input : string) (df : DataFrame)
    (col : string) : option applied :=
  if Str.word_search (Str.lower col) user_input then
    match List.find
            (fun val => Str.word_search val user_input &&
                        Pd.has_column df col &&
                        any (applied_mask df (IsValue col val)))
            status_values with
    | Some val => Some (IsValue col val)
    | None => None
    end
  else None.

(** The body of the numeric loop for one column; [None] when the loop goes
    on to the next column. *)
Definition numeric_filter (user_input : string) (df : DataFrame)
    (col : string) : option applied :=
  if Str.word_search (Str.lower col) user_input then
    if Str.contains "greater than" user_input
       || Str.contains "more than" user_input
       || Str.contains ">" user_input then
      match Fmt.first_number user_input with
      | Some threshold =>
          if any (applied_mask df (Above col threshold))
          then Some (Above col threshold) else None
      | None => None
      end
    else if Str.contains "less than" user_input
            || Str.contains "smaller than" user_input
            || Str.contains "<" user_input then
      match Fmt.first_number user_input with
      | Some threshold =>
          if any (applied_mask df (Below col threshold))
          then Some (Below col threshold) else None
      | None => None
      end
    else None
  else None.

(** The numeric loop stops at the first column that applies a filter. *)
Fixpoint numeric_filters (user_input : string) (df : DataFrame)
    (numeric_cols : list string) : list applied :=
  match numeric_cols with
  | [] => []
  | col :: rest =>
      match numeric_filter user_input df col with
      | Some a => [a]
      | None => numeric_filters user_input df rest
      end
  end.

(** [filters_applied], in the order the filters are applied. *)
Definition filters_applied (user_input : string) (df : DataFrame)
    (columns : list string) : list applied :=
  flat_map (fun col => match value_filter user_input df col with
                       | Some a => [a] | None => [] end) columns
  ++ numeric_filters user_input df (Pd.numeric_cols df).

(** [filtered_df] after the filters; the first selection that raises ends
    the handler. *)
Definition filtered_rows (df : DataFrame) (filters : list applied)
  : outcome (list row) :=
  fold_left (fun filtered a =>
               match filtered with
               | Returns l => select (df_index df) (applied_mask df a) l
               | Raises e => Raises e
               end)
            filters (Returns (Pd.rows df)).

(** The answer of the filter handler for the rows left. *)
Definition filtered_text (filters : list applied) (df : DataFrame)
    (columns : list string) (filtered_df : list row) : string :=
  "🔍 **Filtered Results (" +:+ Fmt.of_nat (length filtered_df) +:+
  " records):**" +:+ nl +:+ nl +:+
  "Filters applied: " +:+ Str.join ", " (map applied_text filters) +:+
  nl +:+ nl +:+
  Str.cat
    (map (fun r : row =>
            "**Record " +:+ Fmt.of_nat (fst r + 1) +:+ ":** " +:+
            Str.join " | "
              (Pd.head 3 (key_info (Pd.columns df) (snd r)
                                   (Pd.head 4 columns))) +:+ nl)
         (Pd.head 10 filtered_df)) +:+
  (if (10 <? length filtered_df)%nat then
     nl +:+ "... and " +:+ Fmt.of_nat (length filtered_df - 10) +:+
     " more records." +:+ nl
   else "").

Definition filter_response (user_input : string) (df : DataFrame)
    (columns : list string) : outcome string :=
  let filters := filters_applied user_input df columns in
  match filters with
  | [] => Returns (search_response user_input df columns)
  | _ =>
      match filtered_rows df filters with
      | Returns filtered_df =>
          Returns (filtered_text filters df columns filtered_df)
      | Raises e => Raises e
      end
  end.

(** *** Comparison *)

Definition comparison_block (df : DataFrame) (col : string) : string :=
  let non_null_data := Pd.dropna (Pd.values df col) in
  if (0 <? length non_null_data)%nat then
    "**" +:+ col +:+ " Comparison:**" +:+ nl +:+
    breakdown_lines "- **" ":** " (Pd.len df)
      (Pd.value_counts non_null_data) +:+ nl
  else "".

(** The line [Min=..., Max=..., Avg=...] of a numeric column; [:.2f]
    writes a number as a float64 value. *)
Definition min_max_avg (df : DataFrame) (col : string) : string :=
  let vals := Pd.values df col in
  let xs := Pd.floats vals in
  "- **" +:+ col +:+ ":** Min=" +:+ Fmt.fixed_opt 2 (Pd.min_of xs) +:+
  ", Max=" +:+ Fmt.fixed_opt 2 (Pd.max_of xs) +:+
  ", Avg=" +:+ Fmt.fixed_opt 2 (Pd.mean_of vals) +:+ nl.

(** The columns the comparison handler breaks down. *)
Definition compared_cols (df : DataFrame) (columns mentioned_cols : list string)
  : list string :=
  let categorical_cols := List.filter (is_categorical df 20) columns in
  match mentioned_cols with
  | [] => categorical_cols
  | _ => List.filter (fun col => existsb (String.eqb col) categorical_cols)
                     mentioned_cols
  end.

Definition comparison_response (user_input : string) (df : DataFrame)
    (columns mentioned_cols : list string) : string :=
  "📊 **Comparison Analysis:**" +:+ nl +:+ nl +:+
  match compared_cols df columns mentioned_cols with
  | [] =>
      match Pd.numeric_cols df with
      | [] => ""
      | numeric_cols =>
          "**Numeric Column Comparisons:**" +:+ nl +:+
          Str.cat (map (min_max_avg df) (Pd.head 3 numeric_cols)) +:+ nl
      end
  | categorical_cols =>
      Str.cat (map (comparison_block df) (Pd.head 3 categorical_cols))
  end.

(** *** Trend *)

Definition date_keywords : list string :=
  ["date"; "time"; "timestamp"; "created"; "updated"].

(** [pd.to_datetime] on one cell; [None] when it raises. *)
Definition to_datetime (c : cell) : option cell :=
  match c with
  | Null _ => Some (Null NaT)
  | Time t => Some (Time t)
  | Str s =>
      match parse_date s with
      | Some (Some t) => Some (Time t)
      | Some None => Some (Null NaT)
      | None => None
      end
  | Num q =>
      match num_date q with
      | Some t => Some (Time t)
      | None => None
      end
  end.

(** [pd.to_datetime(s, errors="coerce")]: a datetime column, with [NaT]
    where a cell does not convert. *)
Definition to_datetime_coerce (c : column) : column :=
  {| col_dtype := DDatetime;
     col_values := map (fun v => default (Null NaT) (to_datetime v))
                       (col_values c) |}.

(** The columns taken for dates: by name, or else those whose first ten
    cells convert without error. *)
Definition date_cols (df : DataFrame) (columns : list string) : list string :=
  match List.filter
          (fun col => existsb (fun keyword =>
                                 Str.contains keyword (Str.lower col))
                              date_keywords)
          columns with
  | [] =>
      List.filter
        (fun col => forallb (fun v => bool_decide (is_Some (to_datetime v)))
                            (Pd.head 10 (Pd.values df col)))
        columns
  | by_name => by_name
  end.

Definition time_of (c : cell) : option Z :=
  match c with Time t => Some t | _ => None end.

(** Order of [sort_values(..., na_position="last")] on the keys. *)
Definition key_le (a b : option Z) : bool :=
  match a, b with
  | Some x, Some y => (x <=? y)%Z
  | Some _, None => true
  | None, Some _ => false
  | None, None => true
  end.

Fixpoint insert_by_key (key : row -> option Z) (x : row) (l : list row)
  : list row :=
  match l with
  | [] => [x]
  | y :: l' =>
      if key_le (key x) (key y) then x :: l else y :: insert_by_key key x l'
  end.

(** [df.sort_values(date_col, na_position="last")]; rows with equal dates
    keep their order. *)
Definition sort_values (df : DataFrame) (date_col : string) : list row :=
  fold_right
    (insert_by_key
       (fun r => time_of (Pd.row_get (Pd.columns df) (snd r) date_col)))
    [] (Pd.rows df).

Fixpoint times (l : list cell) : list Z :=
  match l with
  | [] => []
  | Time t :: l' => t :: times l'
  | _ :: l' => times l'
  end.

(** Text of [s.min()] and [s.max()] of a datetime column. *)
Definition show_extreme (pick : Z -> Z -> Z) (ts : list Z) : string :=
  match ts with
  | [] => "NaT"
  | t :: ts' => show_timestamp (fold_left pick ts' t)
  end.

Fixpoint bump_period (p : Z) (acc : list (Z * nat)) : list (Z * nat) :=
  match acc with
  | [] => [(p, 1)]
  | (k, n) :: acc' =>
      if (p <? k)%Z then (p, 1) :: acc
      else if (p =? k)%Z then (k, S n) :: acc'
      else (k, n) :: bump_period p acc'
  end.

(** [value_counts().sort_index()] of the monthly periods. *)
Definition period_counts (ts : list Z) : list (Z * nat) :=
  fold_left (fun acc t => bump_period (month_of t) acc) ts [].

Definition trend_rows (df : DataFrame) (columns : list string)
    (l : list row) : string :=
  Str.cat
    (map (fun r : row =>
            "- " +:+
            Str.join " | " (Pd.head 3 (key_info (Pd.columns df) (snd r)
                                                (Pd.head 4 columns))) +:+ nl)
         l).

(** The answer once the date column of [df] has been converted. *)
Definition trend_text (user_input : string) (df : DataFrame)
    (columns : list string) (date_col : string) : string :=
  let df_sorted := sort_values df date_col in
  "📈 **Trend Analysis:**" +:+ nl +:+ nl +:+
  if Str.contains "recent" user_input || Str.contains "latest" user_input
     || Str.contains "newest" user_input then
    "**Most Recent Records:**" +:+ nl +:+ nl +:+
    trend_rows df columns (Pd.tail 10 df_sorted)
  else if Str.contains "oldest" user_input
          || Str.contains "earliest" user_input then
    "**Oldest Records:**" +:+ nl +:+ nl +:+
    trend_rows df columns (Pd.head 10 df_sorted)
  else
    let ts := times (Pd.values df date_col) in
    "**Date Range:** " +:+ show_extreme Z.min ts +:+ " to " +:+
    show_extreme Z.max ts +:+ nl +:+ nl +:+
    "**Total Records:** " +:+ Fmt.of_nat (Pd.len df) +:+ nl +:+
    "**Records per Period:**" +:+ nl +:+
    Str.cat (map (fun pc : Z * nat =>
                    "- " +:+ show_period (fst pc) +:+ ": " +:+
                    Fmt.of_nat (snd pc) +:+ " records" +:+ nl)
                 (Pd.tail 6 (period_counts ts))).

(** *** Value lookup *)

Definition value_block (user_input : string) (df : DataFrame) (col : string)
  : string :=
  if Str.word_search (Str.lower col) user_input then
    let unique_vals := Pd.unique (Pd.dropna (Pd.values df col)) in
    if (0 <? length unique_vals)%nat then
      if (length unique_vals <=? 20)%nat then
        "**" +:+ col +:+ " values:**" +:+ nl +:+
        Str.cat (map (fun val => "- " +:+ Pd.cell_str val +:+ nl)
                     (Pd.head 15 unique_vals)) +:+
        (if (15 <? length unique_vals)%nat then
           "... and " +:+ Fmt.of_nat (length unique_vals - 15) +:+ " more"
           +:+ nl
         else "") +:+ nl
      else
        "**" +:+ col +:+ ":** " +:+ Fmt.of_nat (length unique_vals) +:+
        " unique values" +:+ nl +:+
        "Sample values: " +:+
        Str.join ", " (map Pd.cell_str (Pd.head 10 unique_vals)) +:+ nl +:+ nl
    else ""
  else "".

Definition value_response (user_input : string) (df : DataFrame)
    (columns : list string) : string :=
  let response :=
    "📋 **Value Query Results:**" +:+ nl +:+ nl +:+
    Str.cat (map (value_block user_input df) columns) in
  if Str.contains "value" (Str.lower response)
     && (Str.split_len (ascii_of_nat 10) response <? 5)%nat
  then search_response user_input df columns
  else response.

(** *** List *)

Definition list_response (df : DataFrame) (columns : list string) : string :=
  let display_limit := 20%nat in
  "📋 **All Records (" +:+ Fmt.of_nat (Pd.len df) +:+ " total):**" +:+ nl +:+
  nl +:+
  Str.cat
    (map (fun r : row =>
            "**Record " +:+ Fmt.of_nat (fst r + 1) +:+ ":** " +:+
            Str.join " | " (Pd.head 3 (key_info (Pd.columns df) (snd r)
                                                (Pd.head 4 columns))) +:+ nl)
         (Pd.head display_limit (Pd.rows df))) +:+
  (if (display_limit <? Pd.len df)%nat then
     nl +:+ "... and " +:+ Fmt.of_nat (Pd.len df - display_limit) +:+
     " more records." +:+ nl
   else "").

(** *** Summary *)

(** [str(dtype)]. *)
Definition dtype_name (d : dtype) : string :=
  match d with
  | DObject => "object"
  | DInt64 => "int64"
  | DFloat64 => "float64"
  | DDatetime => "datetime64[ns]"
  end.

Definition summary_column (df : DataFrame) (data_sources : list string)
    (col : string) : string :=
  let vals := Pd.values df col in
  let pct_null := pct (length (List.filter Pd.isna vals)) (Pd.len df) in
  let source_hint :=
    if negb (Qle_bool pct_null 50) && (1 <? length data_sources)%nat
    then " (mostly from unmatching data)" else "" in
  "- **" +:+ col +:+ ":** " +:+ dtype_name (Pd.dtype_of df col) +:+ ", " +:+
  Fmt.of_nat (Pd.count_notna vals) +:+ " non-null, " +:+
  Fmt.of_nat (Pd.nunique vals) +:+ " unique values" +:+ source_hint +:+ nl.

(** The text [k(v), k(v), ...] of the most frequent values. *)
Definition top_values (n : nat) (vals : list cell) : string :=
  Str.join ", "
    (map (fun kv : cell * nat =>
            Pd.cell_str (fst kv) +:+ "(" +:+ Fmt.of_nat (snd kv) +:+ ")")
         (Pd.head n (Pd.value_counts vals))).

Definition summary_response (df : DataFrame)
    (columns data_sources : list string) : string :=
  "📋 **Comprehensive Data Summary:**" +:+ nl +:+ nl +:+
  "- **Total Records:** " +:+ Fmt.of_nat (Pd.len df) +:+ nl +:+
  "- **Total Columns:** " +:+ Fmt.of_nat (length columns) +:+ nl +:+
  (if (1 <? length data_sources)%nat then
     "- **Data Sources:** " +:+ Str.join ", " data_sources +:+ nl
   else "") +:+
  nl +:+ "**Column Information:**" +:+ nl +:+
  Str.cat (map (summary_column df data_sources) (Pd.head 20 columns)) +:+
  (if (20 <? length columns)%nat then
     nl +:+ "... and " +:+ Fmt.of_nat (length columns - 20) +:+
     " more columns." +:+ nl
   else "") +:+
  match Pd.numeric_cols df with
  | [] => ""
  | numeric_cols =>
      nl +:+ "**Numeric Column Statistics:**" +:+ nl +:+
      Str.cat (map (min_max_avg df) (Pd.head 5 numeric_cols))
  end +:+
  match List.filter (is_categorical df 10) columns with
  | [] => ""
  | categorical_cols =>
      nl +:+ "**Categorical Distributions:**" +:+ nl +:+
      Str.cat (map (fun col =>
                      "- **" +:+ col +:+ ":** " +:+
                      top_values 3 (Pd.values df col) +:+ nl)
                   (Pd.head 3 categorical_cols))
  end.

(** *** General fallback *)

(** Text of [s.min()] or [s.max()] printed bare. *)
Definition show_opt (o : option Q) : string :=
  match o with Some q => show_num q | None => "nan" end.

Definition fallback_block (df : DataFrame) (col : string) : string :=
  if Pd.has_column df col then
    let vals := Pd.values df col in
    "**" +:+ col +:+ ":**" +:+ nl +:+
    "- Unique values: " +:+ Fmt.of_nat (Pd.nunique vals) +:+ nl +:+
    "- Non-null records: " +:+ Fmt.of_nat (Pd.count_notna vals) +:+ nl +:+
    (if Pd.is_number_dtype (Pd.dtype_of df col) then
       "- Min: " +:+ show_opt (Pd.min_of (Pd.nums vals)) +:+
       ", Max: " +:+ show_opt (Pd.max_of (Pd.nums vals)) +:+
       ", Avg: " +:+ Fmt.fixed_opt 2 (Pd.mean_of vals) +:+ nl
     else
       "- Top values: " +:+ top_values 5 vals +:+ nl) +:+
    nl
  else "".

Definition fallback_response (user_input : string) (df : DataFrame)
    (columns data_sources : list string) : string :=
  match fallback_mentioned user_input columns with
  | [] =>
      "💡 **I can help you with:**" +:+ nl +:+ nl +:+
      "• **Counts:** 'How many records are there?'" +:+ nl +:+
      "• **Statistics:** 'What's the average of [column]?'" +:+ nl +:+
      "• **Search:** 'Find records with [value]'" +:+ nl +:+
      "• **Filters:** 'Show records where [column] = [value]'" +:+ nl +:+
      "• **Comparisons:** 'Compare [column] values'" +:+ nl +:+
      "• **Trends:** 'Show me recent records'" +:+ nl +:+
      "• **Lists:** 'List all [column] values'" +:+ nl +:+
      "• **Summaries:** 'Give me an overview'" +:+ nl +:+ nl +:+
      "**Available columns:** " +:+ Str.join ", " (Pd.head 10 columns) +:+
      (if (10 <? length columns)%nat then
         " ... and " +:+ Fmt.of_nat (length columns - 10) +:+ " more"
       else "") +:+
      nl +:+ nl +:+ "**Total records:** " +:+ Fmt.of_nat (Pd.len df) +:+
      (if (1 <? length data_sources)%nat then
         nl +:+ "**Data sources:** " +:+ Str.join ", " data_sources
       else "")
  | mentioned_cols =>
      "📊 **Information about mentioned columns:**" +:+ nl +:+ nl +:+
      Str.cat (map (fallback_block df) (Pd.head 5 mentioned_cols))
  end.

End Handlers.

(** *** The handlers as the source has them

    A handler receives the reference [df] to its table.  All but one only
    read it. *)

Section Dispatch.
Context `{PandasText} `{NumpySum}.

Definition handle_comprehensive_count (user_input : string) (df : ref)
    (columns mentioned_cols : list string) (role_hint : option string)
    (data_sources : list string) : M string :=
  let* t := read df in
  ret (count_response user_input t columns mentioned_cols data_sources).

Definition handle_comprehensive_statistics (user_input : string) (df : ref)
    (columns mentioned_cols : list string) (role_hint : option string)
  : M string :=
  let* t := read df in
  ret (statistics_response user_input t columns mentioned_cols).

Definition handle_comprehensive_search (user_input : string) (df : ref)
    (columns mentioned_cols : list string) (role_hint : option string)
  : M string :=
  let* t := read df in
  ret (search_response user_input t columns).

Definition handle_comprehensive_filter (user_input : string) (df : ref)
    (columns mentioned_cols : list string) (role_hint : option string)
  : M string :=
  let* t := read df in
  match filters_applied user_input t columns with
  | [] =>
      handle_comprehensive_search user_input df columns mentioned_cols
                                  role_hint
  | _ => lift (filter_response user_input t columns)
  end.

Definition handle_comprehensive_comparison (user_input : string) (df : ref)
    (columns mentioned_cols : list string) (role_hint : option string)
  : M string :=
  let* t := read df in
  ret (comparison_response user_input t columns mentioned_cols).

(** The trend handler assigns the converted date column to [df] itself. *)
Definition handle_comprehensive_trend (user_input : string) (df : ref)
    (columns mentioned_cols : list string) (role_hint : option string)
  : M string :=
  let* t := read df in
  match date_cols t columns with
  | [] => ret "No date/time columns found for trend analysis."
  | date_col :: _ =>
      let* _ := write df (Pd.set_column t date_col
                            (to_datetime_coerce (Pd.get t date_col))) in
      let* t' := read df in
      ret (trend_text user_input t' columns date_col)
  end.

Definition handle_value_query (user_input : string) (df : ref)
    (columns mentioned_cols : list string) (role_hint : option string)
  : M string :=
  let* t := read df in
  ret (value_response user_input t columns).

Definition handle_list_query (user_input : string) (df : ref)
    (columns mentioned_cols : list string) (role_hint : option string)
  : M string :=
  let* t := read df in
  ret (list_response t columns).

Definition handle_comprehensive_summary (df : ref) (columns : list string)
    (role_hint : option string) (data_sources : list string) : M string :=
  let* t := read df in
  ret (summary_response t columns data_sources).

Definition handle_intelligent_fallback (user_input : string) (df : ref)
    (columns : list string) (role_hint : option string)
    (data_sources : list string) : M string :=
  let* t := read df in
  ret (fallback_response user_input t columns data_sources).

(** The handler [analyze_and_answer] selects for an intent. *)
Definition handler (question_type : intent) (user_input : string) (df : ref)
    (columns mentioned_cols : list string) (role_hint : option string)
    (data_sources : list string) : M string :=
  match question_type with
  | Count =>
      handle_comprehensive_count user_input df columns mentioned_cols
                                 role_hint data_sources
  | Statistics =>
      handle_comprehensive_statistics user_input df columns mentioned_cols
                                      role_hint
  | Search =>
      handle_comprehensive_search user_input df columns mentioned_cols
                                  role_hint
  | Filter =>
      handle_comprehensive_filter user_input df columns mentioned_cols
                                  role_hint
  | Comparison =>
      handle_comprehensive_comparison user_input df columns mentioned_cols
                                      role_hint
  | Trend =>
      handle_comprehensive_trend user_input df columns mentioned_cols
                                 role_hint
  | Value =>
      handle_value_query user_input df columns mentioned_cols role_hint
  | ListAll =>
      handle_list_query user_input df columns mentioned_cols role_hint
  | Summary =>
      handle_comprehensive_summary df columns role_hint data_sources
  | General =>
      handle_intelligent_fallback user_input df columns role_hint
                                  data_sources
  end.

Definition analyze_and_answer (user_input : string) (df : ref)
    (columns : list string) (role_hint : option string)
    (data_sources : list string) : M string :=
  let mentioned_cols := mentioned_columns user_input columns in
  let question_type := detect_question_type user_input in
  handler question_type user_input df columns mentioned_cols role_hint
          data_sources.

End Dispatch.

(** ** Combining the sources *)

Definition no_data_message : string :=
  "I don't have access to any data right now. Please make sure data is loaded in the dashboard.".

(** The columns of a source that [generate_response] records: those of a
    table that is given and not empty. *)
Definition tracked (source : option DataFrame) : list string :=
  match source with
  | Some t => if Pd.empty t then [] else Pd.columns t
  | None => []
  end.

(** The provenance dict [column_info] built next to the copies. *)
Definition column_info (context_df unmatching_df : option DataFrame)
  : gmap string string :=
  fold_left
    (fun info col =>
       match info !! col with
       | None => <[col := "unmatching uploaded data"]> info
       | Some _ => <[col := "both sources"]> info
       end)
    (tracked unmatching_df)
    (fold_left (fun info col => <[col := "main database"]> info)
               (tracked context_df) ∅).

(** Result dtype of a column that two frames both have. *)
Definition join_dtype (a b : dtype) : dtype :=
  match a, b with
  | DObject, DObject => DObject
  | DInt64, DInt64 => DInt64
  | DFloat64, DFloat64 | DInt64, DFloat64 | DFloat64, DInt64 => DFloat64
  | DDatetime, DDatetime => DDatetime
  | _, _ => DObject
  end.

(** Result dtype of a column one of the frames lacks, and the missing
    value that fills its rows. *)
Definition widen_dtype (d : dtype) : dtype :=
  match d with DInt64 => DFloat64 | _ => d end.

Definition fill_of (d : dtype) : cell :=
  match d with DDatetime => Null NaT | _ => Null NaN end.

(** A cell of a column of dtype [from] in the column of dtype [to] it
    becomes part of: an integer turns into the nearest float64 value. *)
Definition astype (from to : dtype) (c : cell) : cell :=
  match from, to, c with
  | DInt64, DFloat64, Num q => Num (F64.round q)
  | _, _, _ => c
  end.

(** [pd.concat([a, b], ignore_index=True, sort=False)]: rows of [a] then
    rows of [b], over the columns of [a] followed by the new ones of [b],
    each part of a column converted to the dtype of the whole. *)
Definition pd_concat (a b : DataFrame) : DataFrame :=
  let names : list string :=
    (Pd.columns a ++ List.filter (fun n => negb (Pd.has_column a n))
                                 (Pd.columns b))%list in
  {| df_index := seq 0 (Pd.len a + Pd.len b);
     df_columns :=
       map (fun n =>
              match Pd.assoc n (df_columns a), Pd.assoc n (df_columns b) with
              | Some ca, Some cb =>
                  let d := join_dtype (col_dtype ca) (col_dtype cb) in
                  (n, {| col_dtype := d;
                         col_values :=
                           (map (astype (col_dtype ca) d) (col_values ca) ++
                            map (astype (col_dtype cb) d) (col_values cb))%list
                      |})
              | Some ca, None =>
                  let d := widen_dtype (col_dtype ca) in
                  (n, {| col_dtype := d;
                         col_values :=
                           (map (astype (col_dtype ca) d) (col_values ca) ++
                            repeat (fill_of (col_dtype ca)) (Pd.len b))%list |})
              | None, Some cb =>
                  let d := widen_dtype (col_dtype cb) in
                  (n, {| col_dtype := d;
                         col_values :=
                           (repeat (fill_of (col_dtype cb)) (Pd.len a) ++
                            map (astype (col_dtype cb) d) (col_values cb))%list
                      |})
              | None, None => (n, {| col_dtype := DObject; col_values := [] |})
              end)
           names |}.

(** [s.fillna("")]. *)
Definition fillna_empty (c : column) : column :=
  {| col_dtype := col_dtype c;
     col_values := map (fun v => if Pd.notna v then v else Str "")
                       (col_values c) |}.

(** The loop that assigns [fillna("")] to every object column of the
    combined frame. *)
Fixpoint fill_object_columns (combined_df : ref) (cols : list string)
  : M unit :=
  match cols with
  | [] => ret tt
  | col :: rest =>
      let* t := read combined_df in
      let* _ :=
        match Pd.dtype_of t col with
        | DObject =>
            write combined_df (Pd.set_column t col
                                 (fillna_empty (Pd.get t col)))
        | _ => ret tt
        end in
      fill_object_columns combined_df rest
  end.

(** One source: when it is given and not empty, a copy of it and its
    label. *)
Definition take_source (source : option ref) (label : string)
  : M (list ref * list string) :=
  match source with
  | None => ret ([], [])
  | Some r =>
      let* t := read r in
      if Pd.empty t then ret ([], [])
      else let* c := copy r in ret ([c], [label])
  end.

(** The first part of [generate_response]: the combined frame and the
    source labels, or nothing when there is no data. *)
Definition combine_sources (context_df unmatching_df : option ref)
  : M (option (ref * list string)) :=
  let* main := take_source context_df "main database" in
  let* extra := take_source unmatching_df "unmatching uploaded data" in
  let all_data := (fst main ++ fst extra)%list in
  let data_sources := (snd main ++ snd extra)%list in
  match all_data with
  | [] => ret None
  | [only] => ret (Some (only, data_sources))
  | first :: second :: _ =>
      let* a := read first in
      let* b := read second in
      let* combined_df := alloc (pd_concat a b) in
      let* t := read combined_df in
      let* _ := fill_object_columns combined_df (Pd.columns t) in
      ret (Some (combined_df, data_sources))
  end.

Definition generate_response `{PandasText} `{NumpySum} (user_input : string)
    (context_df : option ref) (role_hint : option string)
    (unmatching_df : option ref) : M string :=
  let* combined := combine_sources context_df unmatching_df in
  match combined with
  | None => ret no_data_message
  | Some (combined_df, data_sources) =>
      let user_input_lower := Str.strip (Str.lower user_input) in
      let* t := read combined_df in
      let available_columns := Pd.columns t in
      analyze_and_answer user_input_lower combined_df available_columns
                         role_hint data_sources
  end.

(** ** Well-formed frames and sample data *)

(** [w] occurs in [s]. *)
Definition occurs_in (w s : string) : Prop :=
  exists before after, s = before +:+ w +:+ after.

(** Every column is as long as the frame (the invariant of a table). *)
Definition well_formed (df : DataFrame) : Prop :=
  Forall (fun nc => length (col_values (snd nc)) = length (df_index df))
         (df_columns df).

(** The cells of a numeric column: numbers and missing values. *)
Definition numeric_cell (c : cell) : bool :=
  match c with Null _ | Num _ => true | _ => false end.

(** A source that is absent, or is an empty frame. *)
Definition unusable (s : store) (source : option ref) : Prop :=
  match source with
  | None => True
  | Some r => exists t, s !! r = Some t /\ Pd.empty t = true
  end.

(** The rows whose position, counted from [i], satisfies [P]. *)
Fixpoint keep_from (P : nat -> bool) (i : nat) (l : list row) : list row :=
  match l with
  | [] => []
  | r :: l' => if P i then r :: keep_from P (S i) l' else keep_from P (S i) l'
  end.

(** The rows of [df] at the positions where all of [filters] hold. *)
Definition satisfying `{PandasText} (df : DataFrame) (filters : list applied)
  : list row :=
  keep_from
    (fun i => forallb (fun a => nth i (applied_mask df a) false) filters)
    0 (Pd.rows df).

(** The percentages of the full value-count breakdown of a column, as the
    count and comparison handlers compute them. *)
Definition percentages (df : DataFrame) (col : string) : list Q :=
  map snd (breakdown (Pd.len df)
                     (Pd.value_counts (Pd.dropna (Pd.values df col)))).

(** An instance to run the handlers on examples: numbers print with one
    decimal, no text reads as a date, a number is a count of nanoseconds,
    and the texts of timestamps and periods are their ordinals. *)
Definition sample_text : PandasText :=
  {| show_num := Fmt.fixed 1;
     parse_date := fun _ => None;
     num_date := fun q => Some (Qnum q / Z.pos (Qden q))%Z;
     show_timestamp := fun t => Fmt.fixed 0 (inject_Z t);
     month_of := fun t => (t / 2592000000000000)%Z;
     show_period := fun p => Fmt.fixed 0 (inject_Z p) |}.

(** Adding in order, from zero: what numpy does with fewer than eight
    numbers, here for every length. *)
Definition in_order : NumpySum.
Proof.
  refine {| np_sum := fun l => fold_left F64.add l 0%Q |}.
  - intros l _. reflexivity.
  - intros l.
    assert (G : forall (l : list Q) (t : summation),
               exists t', Permutation (terms t') (terms t ++ l) /\
                          fold_left F64.add l (total t) = total t').
    { clear l. induction l as [|x l IH]; intros t.
      - exists t. rewrite app_nil_r. split; reflexivity.
      - destruct (IH (Plus t (Term x))) as (t' & P & E).
        exists t'. split; [|exact E].
        simpl in P. rewrite <- app_assoc in P. exact P. }
    destruct (G l Zero) as (t' & P & E). exists t'. split; assumption.
Defined.

(** A whole number. *)
Definition whole (q : Q) : bool := (Qnum q mod Z.pos (Qden q) =? 0)%Z.

(** Whole numbers whose absolute values add up to at most [2 ^ 53]: every
    sum of some of them is a binary64 number. *)
Definition exactly_summable (l : list Q) : Prop :=
  forallb whole l = true /\ (Pd.qsum (map Qabs l) <= inject_Z (2 ^ 53))%Q.

(** [{"id": [1, 2, 3], "amount": [10, 20, NaN]}]. *)
Definition amounts : DataFrame :=
  {| df_index := [0; 1; 2];
     df_columns :=
       [("id", {| col_dtype := DInt64;
                  col_values := [Num 1; Num 2; Num 3] |});
        ("amount", {| col_dtype := DFloat64;
                      col_values := [Num 10; Num 20; Null NaN] |})] |}.

(** [{"status": ["open", NaN]}]. *)
Definition half_missing : DataFrame :=
  {| df_index := [0; 1];
     df_columns :=
       [("status", {| col_dtype := DObject;
                      col_values := [Str "open"; Null NaN] |})] |}.

(** [{"severity": ["high", "low"], "status": ["closed", "open"]}]. *)
Definition tickets : DataFrame :=
  {| df_index := [0; 1];
     df_columns :=
       [("severity", {| col_dtype := DObject;
                        col_values := [Str "high"; Str "low"] |});
        ("status", {| col_dtype := DObject;
                      col_values := [Str "closed"; Str "open"] |})] |}.

(** [{"date": ["soon"]}]: an object column with a date-like name. *)
Definition dated : DataFrame :=
  {| df_index := [0];
     df_columns :=
       [("date", {| col_dtype := DObject; col_values := [Str "soon"] |})] |}.

(** [{"amount": [0.045, 0.045, 0.045]}]: each entry is the float64 value
    nearest to 0.045. *)
Definition cents : DataFrame :=
  {| df_index := [0; 1; 2];
     df_columns :=
       [("amount", {| col_dtype := DFloat64;
                      col_values := [Num (F64.round (45 # 1000));
                                     Num (F64.round (45 # 1000));
                                     Num (F64.round (45 # 1000))] |})] |}.

(** The frame [tickets] with both rows labelled 5. *)
Definition relabelled : DataFrame :=
  {| df_index := [5; 5]; df_columns := df_columns tickets |}.

(** A datetime column whose second entry is missing. *)
Definition events : DataFrame :=
  {| df_index := [0; 1; 2];
     df_columns :=
       [("date", {| col_dtype := DDatetime;
                    col_values := [Time 5; Null NaT; Time 3] |});
        ("name", {| col_dtype := DObject;
                    col_values := [Str "b"; Str "c"; Str "a"] |})] |}.

(** A frame with columns and no rows. *)
Definition no_rows : DataFrame :=
  {| df_index := [];
     df_columns := [("id", {| col_dtype := DInt64; col_values := [] |})] |}.

(** A row of [df], given by its cells, is a hit of a search: in one of the
    text columns among [columns] its cell contains one of the terms. *)
Definition hit `{PandasText} (terms : list string) (df : DataFrame)
    (columns : list string) (cells : list cell) : Prop :=
  exists col i label c,
    In col columns /\ Pd.dtype_of df col = DObject /\
    nth_error (Pd.rows df) i = Some (label, cells) /\
    nth_error (Pd.values df col) i = Some c /\
    cell_matches terms c = true.

(** What a tally of the cells [seen] holds: each key is a cell seen, with
    the number of cells seen that are equal to it; keys are pairwise
    different; and every cell seen is equal to a key. *)
Definition tally_of (acc : list (cell * nat)) (seen : list cell) : Prop :=
  (forall k n, In (k, n) acc ->
               In k seen /\
               n = length (List.filter (Pd.cell_eqb k) seen)) /\
  ForallOrdPairs (fun a b : cell * nat =>
                    Pd.cell_eqb (fst a) (fst b) = false) acc /\
  (forall c, In c seen ->
             exists k n, In (k, n) acc /\ Pd.cell_eqb k c = true).

(** The last character of [s], or [prev] when [s] is empty: the character
    that stands just before what follows [s]. *)
Fixpoint char_before (prev : option ascii) (s : string) : option ascii :=
  match s with
  | EmptyString => prev
  | String c s' => char_before (Some c) s'
  end.

(** [w] occurs in [s] as a whole word: with no word character just before
    it and none just after. *)
Definition occurs_as_word (w s : string) : Prop :=
  exists before after,
    s = before +:+ w +:+ after /\
    Str.is_word (char_before None before) = false /\
    Str.is_word (Str.head_char after) = false.

(** * Properties *)

(** ** Substrings and the classifier *)

Lemma starts_with_app (w rest : string) : Str.starts_with w (w +:+ rest) = true.
Proof.
  induction w as [|a w IH]; simpl; [reflexivity|].
  rewrite Ascii.eqb_refl. exact IH.
Qed.

Lemma starts_with_inv (w s : string) :
  Str.starts_with w s = true -> exists rest, s = w +:+ rest.
Proof.
  revert s. induction w as [|a w IH]; intros s Hs.
  - exists s. reflexivity.
  - destruct s as [|b s]; simpl in Hs; [discriminate|].
    apply andb_prop in Hs as [Hab Hs].
    apply Ascii.eqb_eq in Hab. subst b.
    destruct (IH _ Hs) as [rest ->]. exists rest. reflexivity.
Qed.

Lemma contains_unfold (w s : string) :
  Str.contains w s =
  Str.starts_with w s ||
  match s with EmptyString => false | String _ s' => Str.contains w s' end.
Proof. destruct s; reflexivity. Qed.

Lemma contains_occurs_in (w s : string) :
  Str.contains w s = true <-> occurs_in w s.
Proof.
  split.
  - induction s as [|c s IH]; simpl; intros Hc.
    + rewrite orb_false_r in Hc. apply starts_with_inv in Hc as [rest ->].
      exists "", rest. reflexivity.
    + apply orb_prop in Hc as [Hc|Hc].
      * apply starts_with_inv in Hc as [rest ->]. exists "", rest. reflexivity.
      * destruct (IH Hc) as (before & after & ->).
        exists (String c before), after. reflexivity.
  - intros (before & after & ->).
    induction before as [|c before IH].
    + change ("" +:+ w +:+ after) with (w +:+ after).
      rewrite contains_unfold, starts_with_app. reflexivity.
    + change (String c before +:+ w +:+ after)
        with (String c (before +:+ w +:+ after)).
      rewrite contains_unfold, IH. apply orb_true_r.
Qed.

(** C1. Whenever the query contains one of the count keywords, whatever
    else it contains, [detect_question_type] answers "count". *)
Theorem count_keyword_wins (user_input word : string) :
  In word count_words ->
  occurs_in word user_input ->
  detect_question_type user_input = Count /\
  intent_name (detect_question_type user_input) = "count".
Proof.
  intros Hin Hsub.
  assert (Hany : any_in count_words user_input = true).
  { unfold any_in. apply existsb_exists. exists word. split; [exact Hin|].
    apply contains_occurs_in. exact Hsub. }
  unfold detect_question_type. rewrite Hany. split; reflexivity.
Qed.

Lemma count_keyword_wins_witness :
  detect_question_type "show the total average where status is open" = Count /\
  intent_name
    (detect_question_type "show the total average where status is open")
  = "count".
Proof.
  apply (count_keyword_wins _ "total").
  - simpl. tauto.
  - exists "show the ", " average where status is open". reflexivity.
Defined.

(** ** The two column extractors *)

(** Every entry of [col_map] maps the normalised name of a column to that
    column. *)
Lemma dict_set_keys (P : string * string -> Prop) k v d :
  Forall P d -> P (k, v) -> Forall P (dict_set k v d).
Proof.
  intros Hd Hkv. induction Hd as [|[k' v'] d Hx Hd IH]; simpl.
  - constructor; [exact Hkv | constructor].
  - destruct (String.eqb k' k) eqn:E.
    + apply String.eqb_eq in E. subst k'. constructor; assumption.
    + constructor; assumption.
Qed.

Lemma col_map_keys (columns : list string) :
  Forall (fun kv => fst kv = Str.strip (Str.lower (snd kv)))
         (col_map columns).
Proof.
  unfold col_map.
  assert (G : forall d,
             Forall (fun kv => fst kv = Str.strip (Str.lower (snd kv))) d ->
             Forall (fun kv => fst kv = Str.strip (Str.lower (snd kv)))
                    (fold_left
                       (fun d col => dict_set (Str.strip (Str.lower col)) col d)
                       columns d)).
  { induction columns as [|c columns IH]; intros d Hd; simpl; [exact Hd|].
    apply IH. apply dict_set_keys; [exact Hd | reflexivity]. }
  apply G. constructor.
Qed.

(** A column is mentioned only when its normalised name is found as a whole
    word. *)
Lemma mentioned_columns_word (user_input col : string) columns :
  In col (mentioned_columns user_input columns) ->
  Str.word_search (Str.strip (Str.lower col)) user_input = true.
Proof.
  unfold mentioned_columns. intros Hin.
  apply in_map_iff in Hin as ([k v] & Hv & Hin). simpl in Hv. subst v.
  apply filter_In in Hin as [Hin Hw]. simpl in Hw.
  pose proof (col_map_keys columns) as Hk.
  rewrite Forall_forall in Hk. apply list_elem_of_In in Hin.
  specialize (Hk _ Hin). simpl in Hk. subst k. exact Hw.
Qed.

(** C5. For a table with a column named "status", the query "statuss" does
    not put "status" in the reference set of the whole-word extractor,
    while the substring extractor of the general fallback, the handler this
    query is sent to, does. *)
Theorem whole_word_extractor_no_leak (columns : list string) :
  In "status" columns ->
  ~ In "status" (mentioned_columns "statuss" columns) /\
  In "status" (fallback_mentioned "statuss" columns) /\
  detect_question_type "statuss" = General.
Proof.
  intros Hin. split; [|split].
  - intros Hm. apply mentioned_columns_word in Hm.
    vm_compute in Hm. discriminate.
  - unfold fallback_mentioned. apply filter_In. split; [exact Hin|].
    vm_compute. reflexivity.
  - vm_compute. reflexivity.
Qed.

Lemma whole_word_extractor_no_leak_witness :
  ~ In "status" (mentioned_columns "statuss" ["id"; "status"]) /\
  In "status" (fallback_mentioned "statuss" ["id"; "status"]) /\
  detect_question_type "statuss" = General.
Proof.
  apply whole_word_extractor_no_leak. simpl. tauto.
Defined.

(** ** Reads, writes and allocations *)

Ltac run := unfold bind, ret, lift, read, write, alloc, copy; simpl.

Lemma fresh_is_new (s : store) : s !! fresh (dom s) = None.
Proof. apply not_elem_of_dom. apply is_fresh. Qed.

Lemma alloc_keeps (s : store) (df t : DataFrame) (r : ref) :
  s !! r = Some t -> <[fresh (dom s) := df]> s !! r = Some t.
Proof.
  intros Hr. rewrite lookup_insert_ne; [exact Hr|].
  intros E. rewrite <- E, fresh_is_new in Hr. discriminate.
Qed.

Lemma deref_at (s : store) (r : ref) (t : DataFrame) :
  s !! r = Some t -> deref s r = t.
Proof. intros E. unfold deref. rewrite E. reflexivity. Qed.

Section Frames.
Context `{PandasText} `{NumpySum}.

(** What a handler does to the store: the trend handler assigns the
    converted date column to its table, the others write nothing. *)
Lemma handler_store question_type user_input df columns mentioned_cols
    role_hint data_sources (s : store) :
  snd (handler question_type user_input df columns mentioned_cols role_hint
               data_sources s) =
  match question_type with
  | Trend =>
      let t := deref s df in
      match date_cols t columns with
      | [] => s
      | date_col :: _ =>
          <[df := Pd.set_column t date_col
                    (to_datetime_coerce (Pd.get t date_col))]> s
      end
  | _ => s
  end.
Proof.
  destruct question_type; try reflexivity.
  - (* filter *)
    unfold handler, handle_comprehensive_filter, handle_comprehensive_search.
    run. destruct (filters_applied _ _ _); reflexivity.
  - (* trend *)
    unfold handler, handle_comprehensive_trend. run.
    destruct (date_cols _ _); reflexivity.
Qed.

(** A handler writes at most the object it is given. *)
Lemma handler_writes_only_df question_type user_input df columns
    mentioned_cols role_hint data_sources (s : store) (r : ref) :
  r <> df ->
  snd (handler question_type user_input df columns mentioned_cols role_hint
               data_sources s) !! r = s !! r.
Proof.
  intros Hr. rewrite handler_store.
  destruct question_type; try reflexivity.
  cbv zeta. destruct (date_cols _ _); [reflexivity|].
  apply lookup_insert_ne. congruence.
Qed.

End Frames.

Lemma assoc_set_other {A} (k k' : string) (v : A) l :
  k' <> k -> Pd.assoc k' (Pd.assoc_set k v l) = Pd.assoc k' l.
Proof.
  intros Hk. induction l as [|[k0 v0] l IH]; simpl.
  - destruct (String.eqb k k') eqn:E; [|reflexivity].
    apply String.eqb_eq in E. congruence.
  - destruct (String.eqb k0 k) eqn:E; simpl.
    + apply String.eqb_eq in E. subst k0.
      destruct (String.eqb k k') eqn:E'; [|reflexivity].
      apply String.eqb_eq in E'. congruence.
    + rewrite IH. reflexivity.
Qed.

Lemma assoc_set_same {A} (k : string) (v : A) (l : list (string * A)) :
  Pd.assoc k (Pd.assoc_set k v l) = Some v.
Proof.
  induction l as [|[k' v'] l IH]; simpl.
  - rewrite String.eqb_refl. reflexivity.
  - destruct (String.eqb k' k) eqn:E; simpl; rewrite E; [reflexivity | exact IH].
Qed.

Lemma get_set_same (t : DataFrame) (k : string) (c : column) :
  Pd.get (Pd.set_column t k c) k = c.
Proof. unfold Pd.get, Pd.set_column. simpl. rewrite assoc_set_same. reflexivity. Qed.

(** C2, as the code has it. Every handler other than the trend handler
    leaves the store, and so the table it is given, as it was.  The trend
    handler writes to its table alone: nothing when it finds no date
    column, and else it assigns to the first date column its conversion to
    datetime: the column then is a datetime column whose entries are those
    of the old one converted, an entry that does not convert becoming
    [NaT]; the row labels and every other column stay as they were. *)
Theorem handlers_frame `{PandasText} `{NumpySum} question_type user_input
    (df : ref) columns mentioned_cols role_hint data_sources (s : store)
    (t : DataFrame) :
  s !! df = Some t ->
  exists t',
    snd (handler question_type user_input df columns mentioned_cols
                 role_hint data_sources s) = <[df := t']> s /\
    (question_type <> Trend -> t' = t) /\
    (date_cols t columns = [] -> t' = t) /\
    df_index t' = df_index t /\
    (forall date_col rest,
        question_type = Trend ->
        date_cols t columns = date_col :: rest ->
        t' = Pd.set_column t date_col
               (to_datetime_coerce (Pd.get t date_col)) /\
        Pd.dtype_of t' date_col = DDatetime /\
        Pd.values t' date_col
        = map (fun v => default (Null NaT) (to_datetime v))
              (Pd.values t date_col) /\
        (forall col, col <> date_col ->
                     Pd.assoc col (df_columns t')
                     = Pd.assoc col (df_columns t))).
Proof.
  intros Ht. rewrite handler_store. rewrite (deref_at _ _ _ Ht).
  assert (Hid : forall qt : intent,
             qt <> Trend \/ date_cols t columns = [] ->
             exists t', s = <[df := t']> s /\ (qt <> Trend -> t' = t) /\
                        (date_cols t columns = [] -> t' = t) /\
                        df_index t' = df_index t /\
                        (forall date_col rest,
                            qt = Trend ->
                            date_cols t columns = date_col :: rest ->
                            t' = Pd.set_column t date_col
                                   (to_datetime_coerce (Pd.get t date_col))
                            /\ Pd.dtype_of t' date_col = DDatetime
                            /\ Pd.values t' date_col
                               = map (fun v => default (Null NaT)
                                                       (to_datetime v))
                                     (Pd.values t date_col)
                            /\ (forall col, col <> date_col ->
                                            Pd.assoc col (df_columns t')
                                            = Pd.assoc col (df_columns t)))).
  { intros qt Hqt. exists t. rewrite insert_id by exact Ht.
    repeat split; auto; destruct Hqt; congruence. }
  destruct question_type; try (apply Hid; left; discriminate).
  cbv zeta.
  destruct (date_cols t columns) as [|date_col rest] eqn:Hd;
    [apply (Hid Trend); right; reflexivity|].
  eexists. split; [reflexivity|]. split; [congruence|]. split; [discriminate|].
  split; [reflexivity|].
  intros d r _ E. injection E as <- <-.
  assert (Hget : Pd.get (Pd.set_column t date_col
                           (to_datetime_coerce (Pd.get t date_col))) date_col
                 = to_datetime_coerce (Pd.get t date_col)).
  { apply get_set_same. }
  split; [reflexivity|].
  split; [unfold Pd.dtype_of; rewrite Hget; reflexivity|].
  split; [unfold Pd.values; rewrite Hget; reflexivity|].
  intros col Hcol. simpl. apply assoc_set_other. exact Hcol.
Qed.

Lemma handlers_frame_witness :
  exists t',
    snd (@handler sample_text in_order Trend "latest" 0 ["date"] [] None []
           {[0 := dated]})
    = <[0 := t']> {[0 := dated]} /\
    (Trend <> Trend -> t' = dated) /\
    (@date_cols sample_text dated ["date"] = [] -> t' = dated) /\
    df_index t' = df_index dated /\
    (forall date_col rest,
        Trend = Trend ->
        @date_cols sample_text dated ["date"] = date_col :: rest ->
        t' = Pd.set_column dated date_col
               (@to_datetime_coerce sample_text (Pd.get dated date_col)) /\
        Pd.dtype_of t' date_col = DDatetime /\
        Pd.values t' date_col
        = map (fun v => default (Null NaT) (@to_datetime sample_text v))
              (Pd.values dated date_col) /\
        (forall col, col <> date_col ->
                     Pd.assoc col (df_columns t')
                     = Pd.assoc col (df_columns dated))).
Proof.
  apply (@handlers_frame sample_text in_order). reflexivity.
Defined.

(** C2 fails as stated: given the table [{"date": ["soon"]}] and the query
    "trend", the trend handler leaves its table with a datetime column
    holding [NaT] where the object column held "soon". *)
Lemma trend_handler_writes_its_table :
  snd (@handle_comprehensive_trend sample_text "trend" 0 ["date"] [] None
         {[0 := dated]}) !! 0
  = Some {| df_index := [0];
            df_columns := [("date", {| col_dtype := DDatetime;
                                       col_values := [Null NaT] |})] |}
  /\ snd (@handle_comprehensive_trend sample_text "trend" 0 ["date"] [] None
            {[0 := dated]}) !! 0
     <> ({[0 := dated]} : store) !! 0.
Proof.
  split.
  - vm_compute. reflexivity.
  - vm_compute. intros E. discriminate E.
Qed.

(** ** Combining the sources *)

(** An absent or empty source contributes nothing and touches nothing. *)
Lemma take_source_unusable (s : store) source label :
  unusable s source -> take_source source label s = (Returns ([], []), s).
Proof.
  destruct source as [r|]; simpl; [|reflexivity].
  intros (t & Ht & He). run. rewrite (deref_at _ _ _ Ht), He. reflexivity.
Qed.

(** A usable source is copied into a new object. *)
Lemma take_source_usable (s : store) r t label :
  s !! r = Some t -> Pd.empty t = false ->
  take_source (Some r) label s
  = (Returns ([fresh (dom s)], [label]), <[fresh (dom s) := t]> s).
Proof.
  intros Ht He. simpl. run. rewrite (deref_at _ _ _ Ht), He. simpl.
  rewrite (deref_at _ _ _ Ht). reflexivity.
Qed.

Lemma unusable_alloc (s : store) (df : DataFrame) source :
  unusable s source -> unusable (<[fresh (dom s) := df]> s) source.
Proof.
  destruct source as [r|]; simpl; [|auto].
  intros (t & Ht & He). exists t. split; [|exact He].
  apply alloc_keeps. exact Ht.
Qed.

(** In every case the step returns: the objects alive before are kept as
    they were, and a reference that is handed back is new. *)
Lemma take_source_frame (s : store) source label :
  exists refs labels s',
    take_source source label s = (Returns (refs, labels), s') /\
    (forall r t, s !! r = Some t -> s' !! r = Some t) /\
    (forall c, In c refs -> s !! c = None /\ is_Some (s' !! c)).
Proof.
  destruct source as [r|]; simpl; run.
  - destruct (Pd.empty _); simpl.
    + eexists _, _, _. split; [reflexivity|].
      split; [auto | intros c []].
    + eexists _, _, _. split; [reflexivity|]. split.
      * intros r' t' Hr'. apply alloc_keeps. exact Hr'.
      * intros c [<-|[]]. split; [apply fresh_is_new|].
        rewrite lookup_insert_eq. eauto.
  - eexists _, _, _. split; [reflexivity|]. split; [auto | intros c []].
Qed.

(** The loop over the object columns returns, and writes to the combined
    frame only. *)
Lemma fill_object_columns_returns combined_df cols (s : store) :
  fst (fill_object_columns combined_df cols s) = Returns tt.
Proof.
  revert s. induction cols as [|col cols IH]; intros s; simpl; [reflexivity|].
  run. destruct (Pd.dtype_of _ _); simpl; apply IH.
Qed.

Lemma fill_object_columns_frame combined_df cols (s : store) (r : ref) :
  r <> combined_df ->
  snd (fill_object_columns combined_df cols s) !! r = s !! r.
Proof.
  intros Hr. revert s.
  induction cols as [|col cols IH]; intros s; simpl; [reflexivity|].
  run. destruct (Pd.dtype_of _ _); simpl; rewrite IH; try reflexivity.
  apply lookup_insert_ne. congruence.
Qed.

Lemma combine_sources_frame (s : store) context_df unmatching_df :
  exists result s',
    combine_sources context_df unmatching_df s = (Returns result, s') /\
    (forall r t, s !! r = Some t -> s' !! r = Some t) /\
    match result with
    | Some (combined_df, _) => s !! combined_df = None
    | None => True
    end.
Proof.
  unfold combine_sources. unfold bind at 1.
  destruct (take_source_frame s context_df "main database")
    as (refs1 & ds1 & s1 & -> & K1 & N1).
  unfold bind at 1.
  destruct (take_source_frame s1 unmatching_df "unmatching uploaded data")
    as (refs2 & ds2 & s2 & -> & K2 & N2).
  cbn [fst snd].
  assert (New : forall c, In c (refs1 ++ refs2)%list -> s !! c = None).
  { intros c Hc. apply in_app_or in Hc as [Hc|Hc].
    - apply N1. exact Hc.
    - destruct (N2 c Hc) as [Hnone _].
      destruct (s !! c) as [t|] eqn:E; [|reflexivity].
      apply K1 in E. congruence. }
  destruct (refs1 ++ refs2)%list as [|first [|second rest]] eqn:Hall.
  - run. eexists _, _. split; [reflexivity|].
    split; [|exact I]. intros r t Hr. apply K2, K1, Hr.
  - run. eexists _, _. split; [reflexivity|].
    split; [intros r t Hr; apply K2, K1, Hr|].
    apply New. left. reflexivity.
  - run.
    set (a := deref s2 first). set (b := deref s2 second).
    set (c := fresh (dom s2)). set (s3 := <[c := pd_concat a b]> s2).
    assert (Hc2 : s2 !! c = None) by apply fresh_is_new.
    assert (Hc : s !! c = None).
    { destruct (s !! c) as [t|] eqn:E; [|reflexivity].
      apply K1, K2 in E. congruence. }
    pose proof (fill_object_columns_returns c (Pd.columns (deref s3 c)) s3)
      as Hret.
    destruct (fill_object_columns c _ s3) as [u s4] eqn:Hfill.
    simpl in Hret. subst u.
    eexists _, _. split; [reflexivity|].
    split; [|exact Hc].
    intros r t Hr.
    assert (Hrc : r <> c) by congruence.
    pose proof (fill_object_columns_frame c (Pd.columns (deref s3 c)) s3 r Hrc)
      as Hf.
    rewrite Hfill in Hf. simpl in Hf. rewrite Hf.
    unfold s3. rewrite lookup_insert_ne by congruence.
    apply K2, K1, Hr.
Qed.

(** With the primary source alone usable, the combined frame is its copy
    and the question goes to [analyze_and_answer] in lower case and
    stripped. *)
Lemma combine_sources_single (s : store) (r : ref) (t : DataFrame)
    (unmatching_df : option ref) :
  s !! r = Some t -> Pd.empty t = false -> unusable s unmatching_df ->
  combine_sources (Some r) unmatching_df s
  = (Returns (Some (fresh (dom s), ["main database"])),
     <[fresh (dom s) := t]> s).
Proof.
  intros Ht He Hu. unfold combine_sources, bind.
  rewrite (take_source_usable _ _ _ _ Ht He).
  rewrite (take_source_unusable _ _ _ (unusable_alloc _ t _ Hu)).
  reflexivity.
Qed.

Lemma generate_response_single `{PandasText} `{NumpySum}
    (user_input : string) (r : ref) (t : DataFrame)
    (unmatching_df : option ref) (role_hint : option string) (s : store) :
  s !! r = Some t -> Pd.empty t = false -> unusable s unmatching_df ->
  generate_response user_input (Some r) role_hint unmatching_df s
  = analyze_and_answer (Str.strip (Str.lower user_input)) (fresh (dom s))
      (Pd.columns t) role_hint ["main database"] (<[fresh (dom s) := t]> s).
Proof.
  intros Ht He Hu. unfold generate_response. unfold bind at 1.
  rewrite (combine_sources_single s r t unmatching_df Ht He Hu).
  unfold bind, read. rewrite (deref_at _ _ t) by apply lookup_insert_eq.
  reflexivity.
Qed.

(** C4. With the primary table empty or absent and the secondary one absent
    or empty, [generate_response] returns the no-data message: no handler
    runs and the store is left as it was. *)
Theorem no_data_available `{PandasText} `{NumpySum} (user_input : string)
    (context_df unmatching_df : option ref) (role_hint : option string)
    (s : store) :
  unusable s context_df ->
  unusable s unmatching_df ->
  generate_response user_input context_df role_hint unmatching_df s
  = (Returns no_data_message, s).
Proof.
  intros H1 H2. unfold generate_response, combine_sources, bind.
  rewrite (take_source_unusable _ _ _ H1).
  rewrite (take_source_unusable _ _ _ H2). reflexivity.
Qed.

Lemma no_data_available_witness :
  @generate_response sample_text in_order "how many records" (Some 0) None
                     None {[0 := no_rows]}
  = (Returns no_data_message, {[0 := no_rows]}).
Proof.
  apply (@no_data_available sample_text in_order).
  - exists no_rows. split; reflexivity.
  - exact I.
Defined.

(** C8. When the primary table is not empty and the secondary one is absent
    or empty, the combined table is a new object holding exactly the
    primary table, and the only source label is that of the primary. *)
Theorem combiner_identity (s : store) (primary : ref) (t : DataFrame)
    (unmatching_df : option ref) :
  s !! primary = Some t ->
  Pd.empty t = false ->
  unusable s unmatching_df ->
  exists combined_df s',
    combine_sources (Some primary) unmatching_df s
    = (Returns (Some (combined_df, ["main database"])), s') /\
    s !! combined_df = None /\
    s' !! combined_df = Some t /\
    s' !! primary = Some t.
Proof.
  intros Ht He Hu. exists (fresh (dom s)), (<[fresh (dom s) := t]> s).
  split; [|split; [|split]].
  - unfold combine_sources, bind.
    rewrite (take_source_usable _ _ _ _ Ht He).
    rewrite (take_source_unusable _ _ _ (unusable_alloc _ t _ Hu)).
    reflexivity.
  - apply fresh_is_new.
  - apply lookup_insert_eq.
  - apply alloc_keeps. exact Ht.
Qed.

Lemma combiner_identity_witness :
  exists combined_df s',
    combine_sources (Some 0) (Some 1) {[0 := tickets; 1 := no_rows]}
    = (Returns (Some (combined_df, ["main database"])), s') /\
    ({[0 := tickets; 1 := no_rows]} : store) !! combined_df = None /\
    s' !! combined_df = Some tickets /\
    s' !! 0 = Some tickets.
Proof.
  apply (combiner_identity {[0 := tickets; 1 := no_rows]} 0 tickets (Some 1)).
  - reflexivity.
  - reflexivity.
  - exists no_rows. split; reflexivity.
Defined.

(** C10. [generate_response] works on copies: whatever the query and
    whichever handler runs, every table that existed before the call, the
    caller's primary and secondary tables among them, is the same after
    it. *)
Theorem caller_tables_untouched `{PandasText} `{NumpySum}
    (user_input : string)
    (context_df unmatching_df : option ref) (role_hint : option string)
    (s : store) (r : ref) (t : DataFrame) :
  s !! r = Some t ->
  snd (generate_response user_input context_df role_hint unmatching_df s) !! r
  = Some t.
Proof.
  intros Hr. unfold generate_response. unfold bind at 1.
  destruct (combine_sources_frame s context_df unmatching_df)
    as ([[combined_df data_sources]|] & s1 & -> & Keep & New).
  - unfold bind, read, analyze_and_answer. cbn [fst snd].
    rewrite handler_writes_only_df; [apply Keep, Hr|].
    intros ->. rewrite New in Hr. discriminate.
  - apply Keep, Hr.
Qed.

Lemma caller_tables_untouched_witness :
  snd (@generate_response sample_text in_order "latest" (Some 0) None None
         {[0 := dated]}) !! 0
  = Some dated.
Proof.
  apply (@caller_tables_untouched sample_text in_order). reflexivity.
Defined.

(** On that input the trend handler did write, into the copy. *)
Example trend_writes_into_the_copy :
  snd (@generate_response sample_text in_order "latest" (Some 0) None None
         {[0 := dated]})
  = {[0 := dated;
      1 := {| df_index := [0];
              df_columns := [("date", {| col_dtype := DDatetime;
                                         col_values := [Null NaT] |})] |}]}.
Proof. vm_compute. reflexivity. Qed.

(** ** Rounding to a fixed number of decimals *)

(** [round_half_even n d] is an integer nearest to [n / d], and it is even
    when [n / d] lies half-way between two integers. *)
Lemma round_half_even_spec (n d : Z) :
  (0 < d)%Z ->
  let r := Fmt.round_half_even n d in
  ((2 * r - 1) * d <= 2 * n <= (2 * r + 1) * d)%Z /\
  ((2 * n = (2 * r + 1) * d)%Z -> Z.even r = true) /\
  ((2 * n = (2 * r - 1) * d)%Z -> Z.even r = true).
Proof.
  intros Hd. unfold Fmt.round_half_even.
  pose proof (Z.div_mod n d ltac:(lia)) as Hdm.
  pose proof (Z.mod_pos_bound n d Hd) as Hm.
  set (fl := (n / d)%Z) in *. set (m := (n mod d)%Z) in *.
  destruct (Z.ltb_spec (2 * m) d) as [H1|H1].
  - cbv zeta. split; [nia|]. split; intros E; exfalso; nia.
  - destruct (Z.ltb_spec d (2 * m)) as [H2|H2].
    + cbv zeta. split; [nia|]. split; intros E; exfalso; nia.
    + assert (Hmid : (2 * m = d)%Z) by lia.
      destruct (Z.even fl) eqn:Hev.
      * cbv zeta. split; [nia|]. split; intros E; [exact Hev | exfalso; nia].
      * cbv zeta. split; [nia|].
        assert (Hev' : Z.even (fl + 1) = true).
        { rewrite Z.even_add, Hev. reflexivity. }
        split; intros E; exact Hev'.
Qed.

Lemma round_half_even_nonneg (n d : Z) :
  (0 < d)%Z -> (0 <= n)%Z -> (0 <= Fmt.round_half_even n d)%Z.
Proof.
  intros Hd Hn. destruct (round_half_even_spec n d Hd) as [[_ Hu] _].
  unfold Fmt.round_half_even in *.
  pose proof (Z.div_pos n d Hn Hd).
  destruct (2 * (n mod d) <? d)%Z; [lia|].
  destruct (d <? 2 * (n mod d))%Z; [lia|].
  destruct (Z.even (n / d)); lia.
Qed.

(** Rounding keeps the order of fractions. *)
Lemma round_half_even_mono (n1 d1 n2 d2 : Z) :
  (0 < d1)%Z -> (0 < d2)%Z ->
  (n1 * d2 <= n2 * d1)%Z ->
  (Fmt.round_half_even n1 d1 <= Fmt.round_half_even n2 d2)%Z.
Proof.
  intros Hd1 Hd2 Hle.
  destruct (round_half_even_spec n1 d1 Hd1) as [[L1 U1] [_ T1]].
  destruct (round_half_even_spec n2 d2 Hd2) as [[L2 U2] [T2 _]].
  set (r1 := Fmt.round_half_even n1 d1) in *.
  set (r2 := Fmt.round_half_even n2 d2) in *.
  destruct (Z.le_gt_cases r1 r2) as [|Hgt]; [assumption|exfalso].
  assert (A : (2 * n1 * d2 >= (2 * r1 - 1) * d1 * d2)%Z) by nia.
  assert (B : (2 * n2 * d1 <= (2 * r2 + 1) * d2 * d1)%Z) by nia.
  assert (C : ((2 * r2 + 1) * (d1 * d2) <= (2 * r1 - 1) * (d1 * d2))%Z) by nia.
  assert (E : (r1 = r2 + 1)%Z) by nia.
  assert (E1 : (2 * n1 = (2 * r1 - 1) * d1)%Z) by nia.
  assert (E2 : (2 * n2 = (2 * r2 + 1) * d2)%Z) by nia.
  specialize (T1 E1). specialize (T2 E2).
  rewrite E, Z.even_add, T2 in T1. discriminate.
Qed.

Lemma pow10_pos (digits : nat) : (0 < 10 ^ Z.of_nat digits)%Z.
Proof. apply Z.pow_pos_nonneg; lia. Qed.

(** The number written differs from the exact one by at most half a unit
    of the last decimal. *)
Lemma printed_close (digits : nat) (q : Q) :
  (Qabs (Fmt.printed digits q - q)
   <= 1 # (2 * Z.to_pos (10 ^ Z.of_nat digits)))%Q.
Proof.
  pose proof (pow10_pos digits) as HS.
  destruct q as [n d]. unfold Fmt.printed, Fmt.rounded. simpl Qnum. simpl Qden.
  set (S := (10 ^ Z.of_nat digits)%Z) in *.
  destruct (round_half_even_spec (Z.abs n * S) (Z.pos d) ltac:(lia))
    as [[L U] _].
  set (r := Fmt.round_half_even (Z.abs n * S) (Z.pos d)) in *.
  apply Qabs_Qle_condition.
  unfold Qle, Qminus, Qplus, Qopp. simpl.
  rewrite !Pos2Z.inj_mul, !Z2Pos.id by lia.
  destruct (Z.ltb_spec n 0); split; nia.
Qed.

(** Writing with a fixed number of decimals keeps the order of numbers. *)
Lemma printed_mono (digits : nat) (p q : Q) :
  (p <= q)%Q -> (Fmt.printed digits p <= Fmt.printed digits q)%Q.
Proof.
  pose proof (pow10_pos digits) as HS.
  destruct p as [n1 d1], q as [n2 d2].
  unfold Fmt.printed, Fmt.rounded, Qle. simpl.
  set (S := (10 ^ Z.of_nat digits)%Z) in *. intros Hle.
  pose proof (round_half_even_nonneg (Z.abs n1 * S) (Z.pos d1)
                ltac:(lia) ltac:(nia)) as R1.
  pose proof (round_half_even_nonneg (Z.abs n2 * S) (Z.pos d2)
                ltac:(lia) ltac:(nia)) as R2.
  apply Z.mul_le_mono_nonneg_r; [lia|].
  destruct (Z.ltb_spec n1 0) as [N1|N1]; destruct (Z.ltb_spec n2 0) as [N2|N2].
  - apply -> Z.opp_le_mono.
    apply round_half_even_mono; [lia | lia | nia].
  - lia.
  - exfalso. nia.
  - apply round_half_even_mono; [lia | lia | nia].
Qed.

(** ** Value counts and percentages *)

Lemma dropna_idempotent (l : list cell) : Pd.dropna (Pd.dropna l) = Pd.dropna l.
Proof.
  unfold Pd.dropna. induction l as [|c l IH]; simpl; [reflexivity|].
  destruct (Pd.notna c) eqn:E; simpl; rewrite ?E, IH; reflexivity.
Qed.

Lemma bump_total (v : cell) (acc : list (cell * nat)) :
  list_sum (map snd (Pd.bump v acc)) = S (list_sum (map snd acc)).
Proof.
  induction acc as [|[k n] acc IH]; simpl; [reflexivity|].
  destruct (Pd.cell_eqb k v); simpl; [reflexivity|].
  rewrite IH. lia.
Qed.

Lemma tally_total (l : list cell) :
  list_sum (map snd (Pd.tally l)) = length l.
Proof.
  unfold Pd.tally.
  assert (G : forall acc,
             list_sum (map snd (fold_left (fun acc v => Pd.bump v acc) l acc))
             = (length l + list_sum (map snd acc))%nat).
  { induction l as [|v l IH]; intros acc; simpl; [reflexivity|].
    rewrite IH, bump_total. lia. }
  rewrite G. simpl. lia.
Qed.

Lemma insert_desc_total (x : cell * nat) (l : list (cell * nat)) :
  list_sum (map snd (Pd.insert_desc x l))
  = (snd x + list_sum (map snd l))%nat.
Proof.
  induction l as [|y l IH]; simpl; [reflexivity|].
  destruct (snd y <=? snd x)%nat; simpl; [reflexivity|].
  rewrite IH. lia.
Qed.

Lemma sort_desc_total (l : list (cell * nat)) :
  list_sum (map snd (Pd.sort_desc l)) = list_sum (map snd l).
Proof.
  unfold Pd.sort_desc. induction l as [|x l IH]; simpl; [reflexivity|].
  rewrite insert_desc_total, IH. reflexivity.
Qed.

(** The counts of [value_counts] add up to the number of non-missing
    entries. *)
Lemma value_counts_total (l : list cell) :
  list_sum (map snd (Pd.value_counts l)) = Pd.count_notna l.
Proof.
  unfold Pd.value_counts. rewrite sort_desc_total, tally_total. reflexivity.
Qed.

Lemma pct_add (a b total : nat) :
  (pct (a + b) total == pct a total + pct b total)%Q.
Proof.
  unfold pct, Qdiv. rewrite Nat2Z.inj_add, inject_Z_plus. ring.
Qed.

Lemma pct_all (n : nat) : (0 < n)%nat -> (pct n n == 100)%Q.
Proof.
  intros Hn. unfold pct. field.
  intros E. unfold Qeq in E. simpl in E. lia.
Qed.

Lemma breakdown_total (total : nat) (vcs : list (cell * nat)) :
  (Pd.qsum (map snd (breakdown total vcs))
   == pct (list_sum (map snd vcs)) total)%Q.
Proof.
  unfold breakdown. induction vcs as [|vc vcs IH]; simpl.
  - unfold pct, Qdiv. simpl. ring.
  - rewrite pct_add, IH. reflexivity.
Qed.

(** A sum of written numbers is as close to the sum of the exact ones as
    the number of terms allows. *)
Lemma printed_sum_close (digits : nat) (l : list Q) :
  (Qabs (Pd.qsum (map (Fmt.printed digits) l) - Pd.qsum l)
   <= inject_Z (Z.of_nat (length l))
      * (1 # (2 * Z.to_pos (10 ^ Z.of_nat digits))))%Q.
Proof.
  induction l as [|q l IH].
  - simpl. vm_compute. discriminate.
  - change (length (q :: l)) with (S (length l)).
    rewrite Nat2Z.inj_succ. unfold Z.succ. rewrite inject_Z_plus.
    simpl map. simpl Pd.qsum.
    set (e := (1 # (2 * Z.to_pos (10 ^ Z.of_nat digits)))%Q) in *.
    assert (E : (Fmt.printed digits q + Pd.qsum (map (Fmt.printed digits) l)
                 - (q + Pd.qsum l)
                 == (Fmt.printed digits q - q)
                    + (Pd.qsum (map (Fmt.printed digits) l) - Pd.qsum l))%Q)
      by ring.
    rewrite E.
    eapply Qle_trans; [apply Qabs_triangle|].
    pose proof (printed_close digits q) as Hq. fold e in Hq.
    change (inject_Z 1) with 1%Q.
    rewrite Qmult_plus_distr_l, Qmult_1_l, Qplus_comm.
    apply Qplus_le_compat; assumption.
Qed.

(** The count handler, for a mentioned column of the table, and the
    comparison handler print one line per entry of [breakdown], whose
    percentages are [percentages]. *)
Lemma count_mentioned_prints `{PandasText} (user_input : string)
    (df : DataFrame) (col : string) :
  Pd.has_column df col = true ->
  Str.contains "unique" user_input || Str.contains "different" user_input
  = false ->
  (0 < Pd.count_notna (Pd.values df col))%nat ->
  (length (Pd.value_counts (Pd.values df col)) <= 20)%nat ->
  count_mentioned user_input df col
  = "📊 **Count by " +:+ col +:+ ":**" +:+ Str.nl +:+ Str.nl +:+
    Str.cat (map (breakdown_line "- **" ":** ")
                 (breakdown (Pd.len df)
                    (Pd.value_counts (Pd.dropna (Pd.values df col))))) +:+
    Str.nl.
Proof.
  intros Hcol Hq Hpos Hcap. unfold count_mentioned.
  rewrite Hcol, Hq. simpl negb. cbv iota zeta.
  unfold Pd.count_notna in Hpos.
  apply Nat.ltb_lt in Hpos. rewrite Hpos.
  replace (Pd.value_counts (Pd.dropna (Pd.values df col)))
    with (Pd.value_counts (Pd.values df col))
    by (unfold Pd.value_counts; rewrite dropna_idempotent; reflexivity).
  apply Nat.leb_le in Hcap. rewrite Hcap. reflexivity.
Qed.

Lemma comparison_block_prints `{PandasText} (df : DataFrame) (col : string) :
  (0 < Pd.count_notna (Pd.values df col))%nat ->
  comparison_block df col
  = "**" +:+ col +:+ " Comparison:**" +:+ Str.nl +:+
    Str.cat (map (breakdown_line "- **" ":** ")
                 (breakdown (Pd.len df)
                    (Pd.value_counts (Pd.dropna (Pd.values df col))))) +:+
    Str.nl.
Proof.
  intros Hpos. unfold comparison_block.
  unfold Pd.count_notna in Hpos.
  apply Nat.ltb_lt in Hpos. rewrite Hpos. reflexivity.
Qed.

(** C3, as the code has it. The percentages of a full value-count
    breakdown are taken of all the rows of the table, missing entries of
    the column included, so they sum to 100 times the share of rows whose
    entry is not missing; the numbers written with one decimal are within
    a twentieth per value of that; and the sum is 100 when no entry of the
    column is missing. *)
Theorem percentages_sum (df : DataFrame) (col : string) :
  let non_null := Pd.count_notna (Pd.values df col) in
  (Pd.qsum (percentages df col) == pct non_null (Pd.len df))%Q /\
  (Qabs (Pd.qsum (map (Fmt.printed 1) (percentages df col))
         - pct non_null (Pd.len df))
   <= inject_Z (Z.of_nat (length (percentages df col))) * (1 # 20))%Q /\
  ((0 < Pd.len df)%nat -> non_null = Pd.len df ->
   (Pd.qsum (percentages df col) == 100)%Q).
Proof.
  cbv zeta.
  assert (Hsum : (Pd.qsum (percentages df col)
                  == pct (Pd.count_notna (Pd.values df col)) (Pd.len df))%Q).
  { unfold percentages. rewrite breakdown_total, value_counts_total.
    unfold Pd.count_notna. rewrite dropna_idempotent. reflexivity. }
  split; [exact Hsum|]. split.
  - rewrite <- Hsum. apply (printed_sum_close 1).
  - intros Hpos Hall. rewrite Hsum, Hall. apply pct_all. exact Hpos.
Qed.

Lemma percentages_sum_witness :
  (Pd.qsum (percentages tickets "status") == 100)%Q.
Proof.
  apply (percentages_sum tickets "status").
  - vm_compute. lia.
  - reflexivity.
Defined.

(** C3 fails as stated: for [{"status": ["open", NaN]}] the count handler
    prints the full breakdown of "status", a single value at 50.0%. *)
Lemma count_percentages_fall_short :
  fst (@generate_response sample_text in_order "count status" (Some 0) None
         None {[0 := half_missing]})
  = Returns ("📊 **Count by status:**" +:+ Str.nl +:+ Str.nl +:+
             "- **open:** 1 (50.0%)" +:+ Str.nl +:+ Str.nl)
  /\ (Pd.qsum (percentages half_missing "status") == 50)%Q
  /\ ~ (Qabs (Pd.qsum (map (Fmt.printed 1)
                           (percentages half_missing "status")) - 100)
        <= 1 # 20)%Q.
Proof.
  split; [|split].
  - vm_compute. reflexivity.
  - vm_compute. reflexivity.
  - intros Hle. vm_compute in Hle. apply Hle. reflexivity.
Qed.

(** ** Rounding to binary64 *)

(** The integer part of a fraction grows with the fraction. *)
Lemma div_le_ratio (n d n' d' : Z) :
  (0 < d)%Z -> (0 < d')%Z -> (n * d' <= n' * d)%Z -> (n / d <= n' / d')%Z.
Proof.
  intros Hd Hd' Hle.
  pose proof (Z.div_mod n d ltac:(lia)) as E.
  pose proof (Z.mod_pos_bound n d Hd) as B.
  pose proof (Z.div_mod n' d' ltac:(lia)) as E'.
  pose proof (Z.mod_pos_bound n' d' Hd') as B'.
  set (q := (n / d)%Z) in *. set (q' := (n' / d')%Z) in *.
  destruct (Z.le_gt_cases q q') as [|Hgt]; [assumption|exfalso].
  assert (H1 : ((q' + 1) * d <= n)%Z) by nia.
  assert (H2 : (n' < (q' + 1) * d')%Z) by nia.
  assert (H3 : ((q' + 1) * d * d' <= n * d')%Z) by nia.
  assert (H4 : (n' * d < (q' + 1) * d' * d)%Z) by nia.
  nia.
Qed.

Lemma div_ratio (n d n' d' : Z) :
  (0 < d)%Z -> (0 < d')%Z -> (n * d' = n' * d)%Z -> (n / d = n' / d')%Z.
Proof.
  intros Hd Hd' E. apply Z.le_antisymm; apply div_le_ratio; lia.
Qed.

Lemma round_half_even_ratio (n d n' d' : Z) :
  (0 < d)%Z -> (0 < d')%Z -> (n * d' = n' * d)%Z ->
  Fmt.round_half_even n d = Fmt.round_half_even n' d'.
Proof.
  intros Hd Hd' E. apply Z.le_antisymm; apply round_half_even_mono; lia.
Qed.

(** A multiple of the denominator is rounded to the quotient. *)
Lemma round_half_even_multiple (c d : Z) :
  (0 < d)%Z -> Fmt.round_half_even (c * d) d = c.
Proof.
  intros Hd.
  destruct (round_half_even_spec (c * d) d Hd) as [[L U] _].
  set (r := Fmt.round_half_even (c * d) d) in *. nia.
Qed.

Lemma pow2_pos (j : Z) : (0 <= j)%Z -> (0 < 2 ^ j)%Z.
Proof. intros Hj. apply Z.pow_pos_nonneg; lia. Qed.

Lemma exponent_cases (n d : Z) :
  (n / d < 2 ^ 53 /\ F64.exponent n d = 0)%Z \/
  (2 ^ 53 <= n / d /\ 1 <= F64.exponent n d /\
   F64.exponent n d = Z.log2 (n / d) - 52)%Z.
Proof.
  unfold F64.exponent. cbv zeta.
  destruct (Z.ltb_spec (n / d) (2 ^ 53)) as [Hlt|Hge]; [left; auto|right].
  split; [exact Hge|]. split; [|reflexivity].
  assert (53 <= Z.log2 (n / d))%Z; [|lia].
  rewrite <- (Z.log2_pow2 53) by lia. apply Z.log2_le_mono. exact Hge.
Qed.

Lemma exponent_nonneg (n d : Z) : (0 <= F64.exponent n d)%Z.
Proof. destruct (exponent_cases n d) as [[_ ->]|(_ & H & _)]; lia. Qed.

Lemma exponent_le (n d n' d' : Z) :
  (0 < d)%Z -> (0 < d')%Z -> (n * d' <= n' * d)%Z ->
  (F64.exponent n d <= F64.exponent n' d')%Z.
Proof.
  intros Hd Hd' Hle. pose proof (div_le_ratio n d n' d' Hd Hd' Hle) as Hfl.
  destruct (exponent_cases n d) as [[_ ->]|(H1 & _ & ->)];
    [apply exponent_nonneg|].
  destruct (exponent_cases n' d') as [[H2 _]|(_ & _ & ->)]; [lia|].
  pose proof (Z.log2_le_mono _ _ Hfl). lia.
Qed.

Lemma exponent_ratio (n d n' d' : Z) :
  (0 < d)%Z -> (0 < d')%Z -> (n * d' = n' * d)%Z ->
  F64.exponent n d = F64.exponent n' d'.
Proof.
  intros Hd Hd' E. unfold F64.exponent.
  rewrite (div_ratio n d n' d' Hd Hd' E). reflexivity.
Qed.

(** The fraction is below [2 ^ 53] times the unit it is rounded in, and,
    above the first [2 ^ 53] units, at least [2 ^ 52] times that. *)
Lemma exponent_below (n d : Z) :
  (0 < d)%Z -> (0 <= n)%Z ->
  (n < 2 ^ 53 * (d * 2 ^ F64.exponent n d))%Z.
Proof.
  intros Hd Hn.
  pose proof (Z.div_mod n d ltac:(lia)) as E.
  pose proof (Z.mod_pos_bound n d Hd) as B.
  pose proof (Z.div_pos n d Hn Hd) as Hfl.
  destruct (exponent_cases n d) as [[H1 ->]|(H1 & Hj & Ej)].
  - change (2 ^ 0)%Z with 1%Z. nia.
  - assert (Hlog : (n / d < 2 ^ (Z.log2 (n / d) + 1))%Z).
    { apply Z.log2_spec. lia. }
    replace (Z.log2 (n / d) + 1)%Z with (53 + F64.exponent n d)%Z in Hlog
      by lia.
    rewrite Z.pow_add_r in Hlog by lia.
    pose proof (pow2_pos (F64.exponent n d) ltac:(lia)) as Hp.
    set (p := (2 ^ F64.exponent n d)%Z) in *. nia.
Qed.

Lemma exponent_above (n d : Z) :
  (0 < d)%Z -> (0 <= n)%Z -> (1 <= F64.exponent n d)%Z ->
  (2 ^ 52 * (d * 2 ^ F64.exponent n d) <= n)%Z.
Proof.
  intros Hd Hn Hj.
  pose proof (Z.div_mod n d ltac:(lia)) as E.
  pose proof (Z.mod_pos_bound n d Hd) as B.
  destruct (exponent_cases n d) as [[H1 E0]|(H1 & _ & Ej)]; [lia|].
  assert (Hlog : (2 ^ Z.log2 (n / d) <= n / d)%Z).
  { apply Z.log2_spec. lia. }
  replace (Z.log2 (n / d)) with (52 + F64.exponent n d)%Z in Hlog by lia.
  rewrite Z.pow_add_r in Hlog by lia.
  pose proof (pow2_pos (F64.exponent n d) ltac:(lia)) as Hp.
  set (p := (2 ^ F64.exponent n d)%Z) in *. nia.
Qed.

(** The significand of the rounded number has at most 53 bits, the case
    [2 ^ 53] standing for the next power of two. *)
Lemma significand_le (n d : Z) :
  (0 < d)%Z -> (0 <= n)%Z ->
  (0 <= Fmt.round_half_even n (d * 2 ^ F64.exponent n d) <= 2 ^ 53)%Z.
Proof.
  intros Hd Hn.
  pose proof (pow2_pos _ (exponent_nonneg n d)) as Hp.
  pose proof (exponent_below n d Hd Hn) as Hb.
  assert (HD : (0 < d * 2 ^ F64.exponent n d)%Z) by nia.
  split; [apply round_half_even_nonneg; assumption|].
  destruct (round_half_even_spec n _ HD) as [[L _] _].
  set (r := Fmt.round_half_even n (d * 2 ^ F64.exponent n d)) in *.
  set (D := (d * 2 ^ F64.exponent n d)%Z) in *. nia.
Qed.

Lemma significand_ge (n d : Z) :
  (0 < d)%Z -> (0 <= n)%Z -> (1 <= F64.exponent n d)%Z ->
  (2 ^ 52 <= Fmt.round_half_even n (d * 2 ^ F64.exponent n d))%Z.
Proof.
  intros Hd Hn Hj.
  pose proof (pow2_pos _ (exponent_nonneg n d)) as Hp.
  pose proof (exponent_above n d Hd Hn Hj) as Ha.
  assert (HD : (0 < d * 2 ^ F64.exponent n d)%Z) by nia.
  destruct (round_half_even_spec n _ HD) as [[_ U] _].
  set (r := Fmt.round_half_even n (d * 2 ^ F64.exponent n d)) in *.
  set (D := (d * 2 ^ F64.exponent n d)%Z) in *. nia.
Qed.

Lemma nearest_nonneg (n d : Z) :
  (0 < d)%Z -> (0 <= n)%Z -> (0 <= F64.nearest n d)%Z.
Proof.
  intros Hd Hn. unfold F64.nearest. cbv zeta.
  pose proof (pow2_pos _ (exponent_nonneg n d)).
  pose proof (significand_le n d Hd Hn). nia.
Qed.

Lemma nearest_ratio (n d n' d' : Z) :
  (0 < d)%Z -> (0 < d')%Z -> (n * d' = n' * d)%Z ->
  F64.nearest n d = F64.nearest n' d'.
Proof.
  intros Hd Hd' E. unfold F64.nearest. cbv zeta.
  rewrite (exponent_ratio n d n' d' Hd Hd' E).
  pose proof (pow2_pos _ (exponent_nonneg n' d')) as Hp.
  f_equal. apply round_half_even_ratio; nia.
Qed.

(** Rounding keeps the order. *)
Lemma nearest_le (n d n' d' : Z) :
  (0 < d)%Z -> (0 < d')%Z -> (0 <= n)%Z -> (n * d' <= n' * d)%Z ->
  (F64.nearest n d <= F64.nearest n' d')%Z.
Proof.
  intros Hd Hd' Hn Hle.
  assert (Hn' : (0 <= n')%Z) by nia.
  pose proof (exponent_le n d n' d' Hd Hd' Hle) as Hj.
  pose proof (exponent_nonneg n d) as Hj0.
  pose proof (pow2_pos _ Hj0) as Hp.
  pose proof (pow2_pos _ (exponent_nonneg n' d')) as Hp'.
  unfold F64.nearest. cbv zeta.
  destruct (Z.eq_dec (F64.exponent n d) (F64.exponent n' d')) as [E|Hne].
  - rewrite <- E. apply Z.mul_le_mono_nonneg_r; [lia|].
    apply round_half_even_mono; nia.
  - pose proof (significand_le n d Hd Hn) as [_ Hr].
    pose proof (significand_ge n' d' Hd' Hn' ltac:(lia)) as Hr'.
    assert (Hpow : (2 * 2 ^ F64.exponent n d <= 2 ^ F64.exponent n' d')%Z).
    { replace (2 * 2 ^ F64.exponent n d)%Z
        with (2 ^ (F64.exponent n d + 1))%Z
        by (rewrite Z.pow_add_r by lia; lia).
      apply Z.pow_le_mono_r; lia. }
    set (r := Fmt.round_half_even n (d * 2 ^ F64.exponent n d)) in *.
    set (r' := Fmt.round_half_even n' (d' * 2 ^ F64.exponent n' d')) in *.
    set (p := (2 ^ F64.exponent n d)%Z) in *.
    set (p' := (2 ^ F64.exponent n' d')%Z) in *.
    change (2 ^ 53)%Z with (2 * 2 ^ 52)%Z in Hr.
    assert (r * p <= 2 ^ 52 * (2 * p))%Z by nia.
    assert (2 ^ 52 * (2 * p) <= 2 ^ 52 * p')%Z by nia.
    assert (2 ^ 52 * p' <= r' * p')%Z by nia.
    lia.
Qed.

(** A number of at most 53 bits times a power of two is a binary64 number:
    rounding leaves it as it is. *)
Lemma nearest_exact (m i : Z) :
  (0 <= m <= 2 ^ 53)%Z -> (0 <= i)%Z ->
  F64.nearest (m * 2 ^ i) 1 = (m * 2 ^ i)%Z.
Proof.
  intros Hm Hi. pose proof (pow2_pos i Hi) as Hpi.
  unfold F64.nearest. cbv zeta.
  set (k := (m * 2 ^ i)%Z) in *.
  assert (Hk : (0 <= k)%Z) by (unfold k; nia).
  destruct (exponent_cases k 1) as [[H1 ->]|(H1 & Hj & Ej)].
  - change (2 ^ 0)%Z with 1%Z. rewrite Z.mul_1_r.
    rewrite <- (Z.mul_1_r k) at 1.
    rewrite round_half_even_multiple by lia. lia.
  - rewrite Z.div_1_r in *.
    set (j := F64.exponent k 1) in *.
    pose proof (pow2_pos j ltac:(lia)) as Hpj.
    assert (Hdiv : exists c, k = (c * 2 ^ j)%Z).
    { assert (Hm0 : (0 < m)%Z).
      { destruct (Z.eq_dec m 0%Z) as [E|]; [|lia].
        unfold k in H1. rewrite E in H1. simpl in H1. lia. }
      assert (Elog : Z.log2 k = (i + Z.log2 m)%Z).
      { unfold k. apply Z.log2_mul_pow2; lia. }
      destruct (Z.eq_dec m (2 ^ 53)%Z) as [E53|Hlt].
      - exists (2 ^ 52)%Z. unfold k. rewrite E53 in *.
        rewrite Z.log2_pow2 in Elog by lia.
        replace j with (i + 1)%Z by lia.
        rewrite Z.pow_add_r by lia.
        change (2 ^ 53)%Z with (2 ^ 52 * 2)%Z. change (2 ^ 1)%Z with 2%Z.
        lia.
      - assert (Z.log2 m < 53)%Z by (apply Z.log2_lt_pow2; lia).
        exists (m * 2 ^ (i - j))%Z. unfold k.
        rewrite <- Z.mul_assoc, <- Z.pow_add_r by lia.
        f_equal. f_equal. lia. }
    destruct Hdiv as [c Ec]. rewrite Ec at 1.
    rewrite Z.mul_1_l, round_half_even_multiple by lia. lia.
Qed.

(** What rounding gives is a binary64 number. *)
Lemma nearest_fixed (n d : Z) :
  (0 < d)%Z -> (0 <= n)%Z ->
  F64.nearest (F64.nearest n d) 1 = F64.nearest n d.
Proof.
  intros Hd Hn. unfold F64.nearest at 2 3. cbv zeta.
  apply nearest_exact; [apply significand_le; assumption|].
  apply exponent_nonneg.
Qed.

(** *** On the rationals *)

Lemma unit_is_pow : Z.pos F64.unit = (2 ^ 1074)%Z.
Proof. vm_compute. reflexivity. Qed.

Lemma abs_ratio (a b c d : Z) :
  (0 < b)%Z -> (0 < d)%Z -> (a * d = c * b)%Z ->
  (Z.abs a * d = Z.abs c * b)%Z.
Proof.
  intros Hb Hd E.
  destruct (Z.abs_spec a) as [[? ->]|[? ->]],
           (Z.abs_spec c) as [[? ->]|[? ->]]; nia.
Qed.

Lemma negative_ratio (a b c d : Z) :
  (0 < b)%Z -> (0 < d)%Z -> (a * d = c * b)%Z ->
  (a <? 0)%Z = (c <? 0)%Z.
Proof.
  intros Hb Hd E.
  destruct (Z.ltb_spec a 0), (Z.ltb_spec c 0); try reflexivity; exfalso; nia.
Qed.

(** Rounding depends on the value alone. *)
Lemma units_Qeq (p q : Q) : (p == q)%Q -> F64.units p = F64.units q.
Proof.
  unfold Qeq, F64.units. intros E. cbv zeta.
  rewrite (negative_ratio (Qnum p) (Z.pos (Qden p)) (Qnum q) (Z.pos (Qden q)))
    by (lia || exact E).
  rewrite (nearest_ratio (Z.abs (Qnum p) * Z.pos F64.unit) (Z.pos (Qden p))
                         (Z.abs (Qnum q) * Z.pos F64.unit) (Z.pos (Qden q)));
    [reflexivity | lia | lia |].
  pose proof (abs_ratio (Qnum p) (Z.pos (Qden p)) (Qnum q) (Z.pos (Qden q))
                ltac:(lia) ltac:(lia) E).
  nia.
Qed.

Lemma round_Qeq (p q : Q) : (p == q)%Q -> F64.round p = F64.round q.
Proof. intros E. unfold F64.round. rewrite (units_Qeq p q E). reflexivity. Qed.

Lemma round_value (q : Q) : (F64.round q == F64.units q # F64.unit)%Q.
Proof. apply Qred_correct. Qed.

(** Rounding keeps the order of numbers. *)
Lemma units_le (p q : Q) : (p <= q)%Q -> (F64.units p <= F64.units q)%Z.
Proof.
  unfold Qle, F64.units. intros Hle. cbv zeta.
  set (U := Z.pos F64.unit). assert (HU : (0 < U)%Z) by (unfold U; lia).
  pose proof (nearest_nonneg (Z.abs (Qnum p) * U) (Z.pos (Qden p))
                ltac:(lia) ltac:(nia)) as Np.
  pose proof (nearest_nonneg (Z.abs (Qnum q) * U) (Z.pos (Qden q))
                ltac:(lia) ltac:(nia)) as Nq.
  destruct (Z.ltb_spec (Qnum p) 0) as [Hp|Hp];
    destruct (Z.ltb_spec (Qnum q) 0) as [Hq|Hq].
  - apply -> Z.opp_le_mono.
    apply nearest_le; [lia | lia | nia |].
    rewrite !Z.abs_neq by lia. nia.
  - lia.
  - exfalso. nia.
  - apply nearest_le; [lia | lia | nia |].
    rewrite !Z.abs_eq by lia. nia.
Qed.

Lemma round_le (p q : Q) : (p <= q)%Q -> (F64.round p <= F64.round q)%Q.
Proof.
  intros Hle. rewrite !round_value. unfold Qle. simpl.
  apply Z.mul_le_mono_nonneg_r; [lia|]. apply units_le, Hle.
Qed.

(** A whole number of units that is a binary64 number stays as it is. *)
Lemma units_exact (k m i : Z) :
  (0 <= m <= 2 ^ 53)%Z -> (0 <= i)%Z -> Z.abs k = (m * 2 ^ i)%Z ->
  F64.units (k # F64.unit) = k.
Proof.
  intros Hm Hi Ek. unfold F64.units. simpl Qnum. simpl Qden. cbv zeta.
  rewrite (nearest_ratio (Z.abs k * Z.pos F64.unit) (Z.pos F64.unit)
                         (Z.abs k) 1) by lia.
  rewrite Ek, nearest_exact by assumption. rewrite <- Ek.
  destruct (Z.ltb_spec k 0); lia.
Qed.

Lemma units_units (q : Q) :
  F64.units (F64.units q # F64.unit) = F64.units q.
Proof.
  set (U := Z.pos F64.unit). assert (HU : (0 < U)%Z) by (unfold U; lia).
  set (n := (Z.abs (Qnum q) * U)%Z).
  assert (Hn : (0 <= n)%Z) by (unfold n; nia).
  pose proof (nearest_nonneg n (Z.pos (Qden q)) ltac:(lia) Hn) as Hk.
  apply (units_exact _ (Fmt.round_half_even n
                          (Z.pos (Qden q) * 2 ^ F64.exponent n (Z.pos (Qden q))))
                       (F64.exponent n (Z.pos (Qden q)))).
  - apply significand_le; [lia | exact Hn].
  - apply exponent_nonneg.
  - unfold F64.units. cbv zeta. fold U. fold n.
    change (Fmt.round_half_even n _ * 2 ^ _)%Z
      with (F64.nearest n (Z.pos (Qden q))).
    destruct (Qnum q <? 0)%Z; lia.
Qed.

(** What rounding gives is a binary64 number. *)
Lemma round_round (q : Q) : F64.round (F64.round q) = F64.round q.
Proof.
  rewrite (round_Qeq _ _ (round_value q)). unfold F64.round.
  rewrite units_units. reflexivity.
Qed.

Lemma finite_round (q : Q) : F64.finite (F64.round q).
Proof. unfold F64.finite. rewrite round_round. reflexivity. Qed.


Lemma finite_le_round (p q : Q) :
  F64.finite p -> (p <= q)%Q -> (p <= F64.round q)%Q.
Proof.
  intros Fp Hle. apply Qle_trans with (F64.round p); [|apply round_le, Hle].
  apply Qle_lteq. right. symmetry. exact Fp.
Qed.

Lemma round_le_finite (p q : Q) :
  F64.finite q -> (p <= q)%Q -> (F64.round p <= q)%Q.
Proof.
  intros Fq Hle. apply Qle_trans with (F64.round q); [apply round_le, Hle|].
  apply Qle_lteq. right. exact Fq.
Qed.

(** A whole number of at most 53 bits is a binary64 number. *)
Lemma finite_whole (z : Z) :
  (Z.abs z <= 2 ^ 53)%Z -> F64.finite (inject_Z z).
Proof.
  intros Hz. unfold F64.finite. rewrite round_value.
  assert (E : F64.units (inject_Z z) = (z * Z.pos F64.unit)%Z).
  { rewrite (units_Qeq (inject_Z z) (z * Z.pos F64.unit # F64.unit)).
    - apply (units_exact _ (Z.abs z) 1074); [lia | lia |].
      rewrite Z.abs_mul, unit_is_pow. rewrite (Z.abs_eq (2 ^ 1074)); [reflexivity|].
      apply Z.pow_nonneg. lia.
    - unfold Qeq, inject_Z. simpl. lia. }
  rewrite E. unfold Qeq, inject_Z. simpl. lia.
Qed.

Lemma round_zero : F64.round 0 = 0%Q.
Proof. vm_compute. reflexivity. Qed.

Lemma round_nonneg (q : Q) : (0 <= q)%Q -> (0 <= F64.round q)%Q.
Proof. intros Hq. rewrite <- round_zero. apply round_le, Hq. Qed.

(** *** The interpolation of the median *)




(** *** Sums without rounding *)

Lemma qsum_app (l l' : list Q) :
  (Pd.qsum (l ++ l') == Pd.qsum l + Pd.qsum l')%Q.
Proof.
  induction l as [|x l IH]; simpl.
  - lra.
  - rewrite IH. lra.
Qed.

Lemma qsum_perm (l l' : list Q) :
  Permutation l l' -> (Pd.qsum l == Pd.qsum l')%Q.
Proof.
  induction 1 as [|x l l' _ IH|x y l|l l' l'' _ IH1 _ IH2]; simpl.
  - reflexivity.
  - rewrite IH. reflexivity.
  - lra.
  - rewrite IH1. exact IH2.
Qed.

Lemma qsum_abs_nonneg (l : list Q) : (0 <= Pd.qsum (map Qabs l))%Q.
Proof.
  induction l as [|x l IH]; simpl; [lra|].
  pose proof (Qabs_nonneg x). lra.
Qed.

Lemma whole_value (q : Q) :
  whole q = true -> (q == inject_Z (Qnum q / Z.pos (Qden q)))%Q.
Proof.
  unfold whole. intros Hw. apply Z.eqb_eq in Hw.
  pose proof (Z.div_mod (Qnum q) (Z.pos (Qden q)) ltac:(lia)) as E.
  unfold Qeq, inject_Z. simpl. lia.
Qed.

Lemma Qabs_inject (z : Z) : Qabs (inject_Z z) = inject_Z (Z.abs z).
Proof. reflexivity. Qed.

(** Whole numbers whose absolute values add up to at most [2 ^ 53] are
    added without error, in whatever order. *)
Lemma total_exact (t : summation) :
  forallb whole (terms t) = true ->
  (Pd.qsum (map Qabs (terms t)) <= inject_Z (2 ^ 53))%Q ->
  exists z,
    (total t == inject_Z z)%Q /\
    (inject_Z z == Pd.qsum (terms t))%Q /\
    (inject_Z (Z.abs z) <= Pd.qsum (map Qabs (terms t)))%Q.
Proof.
  induction t as [|x|a IHa b IHb]; simpl terms; simpl total; intros Hw Hs.
  - exists 0%Z. simpl. repeat split; try reflexivity. apply Qle_refl.
  - simpl in Hw. rewrite andb_true_r in Hw.
    pose proof (whole_value x Hw) as Ex.
    exists (Qnum x / Z.pos (Qden x))%Z. simpl.
    split; [exact Ex|]. split; [rewrite <- Ex; lra|].
    rewrite <- Qabs_inject, <- Ex. lra.
  - rewrite forallb_app in Hw. apply andb_prop in Hw as [Hwa Hwb].
    rewrite map_app, qsum_app in Hs.
    pose proof (qsum_abs_nonneg (terms a)) as Na.
    pose proof (qsum_abs_nonneg (terms b)) as Nb.
    destruct (IHa Hwa ltac:(lra)) as (za & Ea & Sa & Ba).
    destruct (IHb Hwb ltac:(lra)) as (zb & Eb & Sb & Bb).
    exists (za + zb)%Z.
    assert (Hsum : (total a + total b == inject_Z (za + zb))%Q).
    { rewrite Ea, Eb, inject_Z_plus. reflexivity. }
    assert (Habs : (inject_Z (Z.abs (za + zb))
                    <= Pd.qsum (map Qabs (terms a ++ terms b)))%Q).
    { rewrite map_app, qsum_app.
      apply Qle_trans with (inject_Z (Z.abs za) + inject_Z (Z.abs zb))%Q;
        [|lra].
      rewrite <- inject_Z_plus. rewrite <- Zle_Qle. lia. }
    split; [|split; [|exact Habs]].
    + unfold F64.add. rewrite (round_Qeq _ _ Hsum).
      apply finite_whole. rewrite Zle_Qle.
      rewrite map_app, qsum_app in Habs. lra.
    + rewrite qsum_app, inject_Z_plus, Sa, Sb. reflexivity.
Qed.

Lemma forallb_perm {A} (f : A -> bool) (l l' : list A) :
  Permutation l l' -> forallb f l = true -> forallb f l' = true.
Proof.
  intros P Hl. apply forallb_forall. intros x Hx.
  apply (proj1 (forallb_forall f l) Hl).
  apply (Permutation_in x (Permutation_sym P)). exact Hx.
Qed.

(** The sum of an array of such numbers is exact. *)
Lemma np_sum_exact `{NumpySum} (l : list Q) :
  exactly_summable l -> (np_sum l == Pd.qsum l)%Q.
Proof.
  intros [Hw Hs]. destruct (np_sum_order l) as (t & P & ->).
  destruct (total_exact t) as (z & Ez & Sz & _).
  - apply (forallb_perm whole l); [symmetry; exact P | exact Hw].
  - rewrite (qsum_perm _ _ (Permutation_map Qabs P)). exact Hs.
  - rewrite Ez, Sz. apply qsum_perm, P.
Qed.

(** ** Statistics of a numeric column *)

Lemma nums_dropna (l : list cell) : Pd.nums (Pd.dropna l) = Pd.nums l.
Proof.
  unfold Pd.dropna. induction l as [|c l IH]; simpl; [reflexivity|].
  destruct c; simpl; rewrite ?IH; reflexivity.
Qed.

(** In a numeric column the non-missing entries are the numbers. *)
Lemma nums_length (l : list cell) :
  forallb numeric_cell l = true -> length (Pd.nums l) = Pd.count_notna l.
Proof.
  unfold Pd.count_notna, Pd.dropna.
  induction l as [|c l IH]; simpl; [reflexivity|].
  intros Hl. apply andb_prop in Hl as [Hc Hl].
  destruct c; simpl in *; try discriminate; rewrite (IH Hl); reflexivity.
Qed.

Lemma qmin_le_l (a b : Q) : (Pd.qmin a b <= a)%Q.
Proof.
  unfold Pd.qmin. destruct (Qle_bool a b) eqn:E; [apply Qle_refl|].
  apply Qlt_le_weak, Qnot_le_lt. intros Hle.
  apply Qle_bool_iff in Hle. congruence.
Qed.

Lemma qmin_le_r (a b : Q) : (Pd.qmin a b <= b)%Q.
Proof.
  unfold Pd.qmin. destruct (Qle_bool a b) eqn:E; [|apply Qle_refl].
  apply Qle_bool_iff. exact E.
Qed.

Lemma qmax_ge_l (a b : Q) : (a <= Pd.qmax a b)%Q.
Proof.
  unfold Pd.qmax. destruct (Qle_bool a b) eqn:E; [|apply Qle_refl].
  apply Qle_bool_iff. exact E.
Qed.

Lemma qmax_ge_r (a b : Q) : (b <= Pd.qmax a b)%Q.
Proof.
  unfold Pd.qmax. destruct (Qle_bool a b) eqn:E; [apply Qle_refl|].
  apply Qlt_le_weak, Qnot_le_lt. intros Hle.
  apply Qle_bool_iff in Hle. congruence.
Qed.

(** The running minimum is below its start and below every element. *)
Lemma fold_qmin_lower (l : list Q) (x : Q) :
  (fold_left Pd.qmin l x <= x)%Q /\
  Forall (fun y => (fold_left Pd.qmin l x <= y)%Q) l.
Proof.
  revert x. induction l as [|y l IH]; intros x; simpl.
  - split; [apply Qle_refl | constructor].
  - destruct (IH (Pd.qmin x y)) as [H0 Hl]. split; [|constructor].
    + eapply Qle_trans; [exact H0 | apply qmin_le_l].
    + eapply Qle_trans; [exact H0 | apply qmin_le_r].
    + exact Hl.
Qed.

Lemma fold_qmax_upper (l : list Q) (x : Q) :
  (x <= fold_left Pd.qmax l x)%Q /\
  Forall (fun y => (y <= fold_left Pd.qmax l x)%Q) l.
Proof.
  revert x. induction l as [|y l IH]; intros x; simpl.
  - split; [apply Qle_refl | constructor].
  - destruct (IH (Pd.qmax x y)) as [H0 Hl]. split; [|constructor].
    + eapply Qle_trans; [apply qmax_ge_l | exact H0].
    + eapply Qle_trans; [apply qmax_ge_r | exact H0].
    + exact Hl.
Qed.

(** A bound on every term bounds the sum. *)
Lemma qsum_lower (a : Q) (l : list Q) :
  Forall (fun y => (a <= y)%Q) l ->
  (a * inject_Z (Z.of_nat (length l)) <= Pd.qsum l)%Q.
Proof.
  induction 1 as [|y l Hy Hl IH]; simpl Pd.qsum.
  - change (inject_Z (Z.of_nat (length (@nil Q)))) with 0%Q. lra.
  - change (length (y :: l)) with (S (length l)).
    rewrite Nat2Z.inj_succ. unfold Z.succ. rewrite inject_Z_plus.
    change (inject_Z 1) with 1%Q. lra.
Qed.

Lemma qsum_upper (b : Q) (l : list Q) :
  Forall (fun y => (y <= b)%Q) l ->
  (Pd.qsum l <= b * inject_Z (Z.of_nat (length l)))%Q.
Proof.
  induction 1 as [|y l Hy Hl IH]; simpl Pd.qsum.
  - change (inject_Z (Z.of_nat (length (@nil Q)))) with 0%Q. lra.
  - change (length (y :: l)) with (S (length l)).
    rewrite Nat2Z.inj_succ. unfold Z.succ. rewrite inject_Z_plus.
    change (inject_Z 1) with 1%Q. lra.
Qed.

(** The mean of a non-empty list lies between its least and its greatest
    element. *)
Lemma min_mean_max (x : Q) (l : list Q) :
  exists mn mx,
    Pd.min_of (x :: l) = Some mn /\
    Pd.max_of (x :: l) = Some mx /\
    (mn <= Pd.qsum (x :: l) / inject_Z (Z.of_nat (length (x :: l))))%Q /\
    (Pd.qsum (x :: l) / inject_Z (Z.of_nat (length (x :: l))) <= mx)%Q.
Proof.
  eexists _, _. split; [reflexivity|]. split; [reflexivity|].
  destruct (fold_qmin_lower l x) as [Lx Ll].
  destruct (fold_qmax_upper l x) as [Ux Ul].
  assert (Hn : (0 < inject_Z (Z.of_nat (length (x :: l))))%Q).
  { change 0%Q with (inject_Z 0). rewrite <- Zlt_Qlt. simpl. lia. }
  split.
  - apply Qle_shift_div_l; [exact Hn|].
    apply qsum_lower. constructor; assumption.
  - apply Qle_shift_div_r; [exact Hn|].
    apply qsum_upper. constructor; assumption.
Qed.

(** The least and the greatest element are elements. *)
Lemma fold_qmin_in (l : list Q) (x : Q) : In (fold_left Pd.qmin l x) (x :: l).
Proof.
  revert x. induction l as [|y l IH]; intros x; simpl; [auto|].
  destruct (IH (Pd.qmin x y)) as [E|Hin]; [|auto].
  rewrite <- E. unfold Pd.qmin. destruct (Qle_bool x y); auto.
Qed.

Lemma fold_qmax_in (l : list Q) (x : Q) : In (fold_left Pd.qmax l x) (x :: l).
Proof.
  revert x. induction l as [|y l IH]; intros x; simpl; [auto|].
  destruct (IH (Pd.qmax x y)) as [E|Hin]; [|auto].
  rewrite <- E. unfold Pd.qmax. destruct (Qle_bool x y); auto.
Qed.

Lemma floats_finite (l : list cell) (x : Q) :
  In x (Pd.floats l) -> F64.finite x.
Proof.
  unfold Pd.floats. intros Hx. apply in_map_iff in Hx as (q & <- & _).
  apply finite_round.
Qed.

(** Without missing entries, the array that the mean adds up is that of
    the float64 values of the column. *)
Lemma addends_floats (l : list cell) :
  forallb numeric_cell l = true ->
  Pd.addends (Pd.dropna l) = Pd.floats (Pd.dropna l).
Proof.
  unfold Pd.addends, Pd.floats, Pd.dropna.
  induction l as [|c l IH]; simpl; [reflexivity|].
  intros Hl. apply andb_prop in Hl as [Hc Hl].
  destruct c; simpl in *; try discriminate; rewrite ?(IH Hl); reflexivity.
Qed.

Lemma floats_dropna (l : list cell) : Pd.floats (Pd.dropna l) = Pd.floats l.
Proof. unfold Pd.floats. rewrite nums_dropna. reflexivity. Qed.

Lemma floats_length (l : list cell) :
  forallb numeric_cell l = true -> length (Pd.floats l) = Pd.count_notna l.
Proof. unfold Pd.floats. rewrite length_map. apply nums_length. Qed.

(** *** Whole numbers *)

Lemma whole_iff (q : Q) :
  whole q = true <-> exists z, (q == inject_Z z)%Q.
Proof.
  split.
  - intros Hw. eexists. apply whole_value, Hw.
  - intros [z E]. unfold whole. apply Z.eqb_eq.
    unfold Qeq, inject_Z in E. simpl in E. rewrite Z.mul_1_r in E.
    rewrite E. apply Z.mod_mul. lia.
Qed.

Lemma qabs_le_qsum (x : Q) (l : list Q) :
  In x l -> (Qabs x <= Pd.qsum (map Qabs l))%Q.
Proof.
  induction l as [|y l IH]; simpl; [intros []|].
  pose proof (qsum_abs_nonneg l). pose proof (Qabs_nonneg y).
  intros [->|Hin]; [lra|]. specialize (IH Hin). lra.
Qed.

(** Numbers that are summed exactly are float64 values already, and so
    are as well summed exactly once converted. *)
Lemma exactly_summable_round (l : list Q) :
  exactly_summable l ->
  Forall (fun x => (F64.round x == x)%Q) l /\
  exactly_summable (map F64.round l).
Proof.
  intros [Hw Hs].
  assert (Hfin : Forall (fun x => (F64.round x == x)%Q) l).
  { apply List.Forall_forall. intros x Hx.
    pose proof (proj1 (forallb_forall whole l) Hw x Hx) as Hwx.
    pose proof (whole_value x Hwx) as Ex.
    rewrite (round_Qeq _ _ Ex).
    apply Qeq_trans with (inject_Z (Qnum x / Z.pos (Qden x)));
      [|symmetry; exact Ex].
    apply finite_whole. rewrite Zle_Qle, <- Qabs_inject.
    apply Qle_trans with (Qabs x);
      [apply Qle_lteq; right; apply Qabs_wd; symmetry; exact Ex|].
    apply Qle_trans with (Pd.qsum (map Qabs l)); [|exact Hs].
    apply qabs_le_qsum, Hx. }
  split; [exact Hfin|]. split.
  - apply forallb_forall. intros y Hy.
    apply in_map_iff in Hy as (x & <- & Hx).
    apply whole_iff.
    destruct (proj1 (whole_iff x)
                (proj1 (forallb_forall whole l) Hw x Hx)) as [z Ez].
    exists z. rewrite <- Ez.
    apply (proj1 (List.Forall_forall _ l) Hfin x Hx).
  - apply Qle_trans with (Pd.qsum (map Qabs l)); [|exact Hs].
    clear Hw Hs. induction Hfin as [|x l Ex _ IH]; simpl; [lra|].
    rewrite Ex. lra.
Qed.

(** C7, as the code has it. For a numeric column with a non-missing entry
    the statistics handler prints a block whose count is the number of
    non-missing entries, with the mean, the minimum and the maximum that
    pandas computes in binary64.  When the numbers of the column are whole
    numbers whose absolute values add up to at most [2 ^ 53], their sum is
    computed without error, and minimum, mean and maximum are in that
    order, both as computed and as written with two decimals. *)
Theorem statistics_min_mean_max `{NumpySum} (df : DataFrame) (col : string) :
  forallb numeric_cell (Pd.values df col) = true ->
  (0 < length (List.filter Pd.notna (Pd.values df col)))%nat ->
  let stats := Pd.describe (Pd.dropna (Pd.values df col)) in
  exists mn mean mx median_text rest,
    Pd.d_min stats = Some mn /\
    Pd.d_mean stats = Some mean /\
    Pd.d_max stats = Some mx /\
    Pd.d_count stats = length (List.filter Pd.notna (Pd.values df col)) /\
    stats_block df col =
      "**" +:+ col +:+ " Statistics:**" +:+ Str.nl +:+
      "- Count: " +:+
      Fmt.of_nat (length (List.filter Pd.notna (Pd.values df col))) +:+
      Str.nl +:+
      "- Mean: " +:+ Fmt.fixed 2 mean +:+ Str.nl +:+
      "- Median: " +:+ median_text +:+ Str.nl +:+
      "- Min: " +:+ Fmt.fixed 2 mn +:+ Str.nl +:+
      "- Max: " +:+ Fmt.fixed 2 mx +:+ Str.nl +:+ rest /\
    (exactly_summable (Pd.nums (Pd.values df col)) ->
     (mn <= mean)%Q /\ (mean <= mx)%Q /\
     (Fmt.printed 2 mn <= Fmt.printed 2 mean)%Q /\
     (Fmt.printed 2 mean <= Fmt.printed 2 mx)%Q).
Proof.
  intros Hnum Hpos. cbv zeta.
  set (vals := Pd.values df col) in *.
  assert (Hcount : Pd.d_count (Pd.describe (Pd.dropna vals))
                   = length (List.filter Pd.notna vals)).
  { unfold Pd.describe, Pd.d_count, Pd.count_notna.
    rewrite dropna_idempotent. reflexivity. }
  pose proof (floats_length vals Hnum) as Hlen.
  unfold Pd.count_notna, Pd.dropna in Hlen.
  destruct (Pd.floats vals) as [|x xs] eqn:Hxs; [simpl in Hlen; lia|].
  destruct (min_mean_max x xs) as (mn & mx & Emn & Emx & L & U).
  assert (Dmn : Pd.d_min (Pd.describe (Pd.dropna vals)) = Some mn).
  { unfold Pd.describe, Pd.d_min. rewrite floats_dropna, Hxs. exact Emn. }
  assert (Dmx : Pd.d_max (Pd.describe (Pd.dropna vals)) = Some mx).
  { unfold Pd.describe, Pd.d_max. rewrite floats_dropna, Hxs. exact Emx. }
  assert (Dmean : Pd.d_mean (Pd.describe (Pd.dropna vals))
                  = Some (F64.div (np_sum (x :: xs))
                                  (inject_Z (Z.of_nat (length (x :: xs)))))).
  { unfold Pd.describe, Pd.d_mean, Pd.mean_of.
    rewrite (addends_floats vals Hnum), floats_dropna, Hxs.
    unfold Pd.count_notna. rewrite dropna_idempotent.
    unfold Pd.dropna. rewrite <- Hlen. reflexivity. }
  exists mn, (F64.div (np_sum (x :: xs))
                      (inject_Z (Z.of_nat (length (x :: xs))))), mx.
  eexists. eexists.
  split; [exact Dmn|]. split; [exact Dmean|]. split; [exact Dmx|].
  split; [exact Hcount|]. split.
  - unfold stats_block. fold vals.
    assert (Hgt : (0 <? length (Pd.dropna vals))%nat = true).
    { apply Nat.ltb_lt. exact Hpos. }
    rewrite Hgt. cbv zeta. rewrite Hcount, Dmn, Dmean, Dmx.
    simpl Fmt.fixed_opt. reflexivity.
  - intros Hex.
    destruct (exactly_summable_round _ Hex) as [_ Hex'].
    fold (Pd.floats vals) in Hex'. rewrite Hxs in Hex'.
    pose proof (np_sum_exact (x :: xs) Hex') as Esum.
    assert (Fmn : F64.finite mn).
    { apply (floats_finite vals). rewrite Hxs.
      injection Emn as <-. apply fold_qmin_in. }
    assert (Fmx : F64.finite mx).
    { apply (floats_finite vals). rewrite Hxs.
      injection Emx as <-. apply fold_qmax_in. }
    assert (Lm : (mn <= F64.div (np_sum (x :: xs))
                          (inject_Z (Z.of_nat (length (x :: xs)))))%Q).
    { unfold F64.div. apply finite_le_round; [exact Fmn|].
      rewrite Esum. exact L. }
    assert (Um : (F64.div (np_sum (x :: xs))
                    (inject_Z (Z.of_nat (length (x :: xs)))) <= mx)%Q).
    { unfold F64.div. apply round_le_finite; [exact Fmx|].
      rewrite Esum. exact U. }
    split; [exact Lm|]. split; [exact Um|].
    split; apply printed_mono; assumption.
Qed.

Lemma statistics_min_mean_max_witness :
  let stats :=
    @Pd.describe in_order (Pd.dropna (Pd.values amounts "amount")) in
  exists mn mean mx,
    Pd.d_min stats = Some mn /\
    Pd.d_mean stats = Some mean /\
    Pd.d_max stats = Some mx /\
    Pd.d_count stats
    = length (List.filter Pd.notna (Pd.values amounts "amount")) /\
    (mn <= mean)%Q /\ (mean <= mx)%Q /\
    (Fmt.printed 2 mn <= Fmt.printed 2 mean)%Q /\
    (Fmt.printed 2 mean <= Fmt.printed 2 mx)%Q.
Proof.
  destruct (@statistics_min_mean_max in_order amounts "amount")
    as (mn & mean & mx & median_text & rest & Hmn & Hmean & Hmx & Hc & _ & Ho).
  - reflexivity.
  - vm_compute. lia.
  - exists mn, mean, mx.
    split; [exact Hmn|]. split; [exact Hmean|]. split; [exact Hmx|].
    split; [exact Hc|]. apply Ho. split.
    + reflexivity.
    + vm_compute. discriminate.
Defined.

(** C7 fails as stated: on [{"amount": [0.045, 0.045, 0.045]}] the sum of
    the three values is rounded up, the mean is the float64 value next
    above 0.045, and the answer gives a mean of 0.05 with a minimum and a
    maximum of 0.04. *)
Lemma mean_above_maximum :
  fst (@generate_response sample_text in_order "average amount" (Some 0) None
         None {[0 := cents]})
  = Returns ("📈 **Statistical Analysis:**" +:+ Str.nl +:+ Str.nl +:+
             "**amount Statistics:**" +:+ Str.nl +:+
             "- Count: 3" +:+ Str.nl +:+
             "- Mean: 0.05" +:+ Str.nl +:+
             "- Median: 0.04" +:+ Str.nl +:+
             "- Min: 0.04" +:+ Str.nl +:+
             "- Max: 0.04" +:+ Str.nl +:+
             "- Std Dev: 0.00" +:+ Str.nl +:+ Str.nl) /\
  exists mean mx,
    Pd.d_mean (@Pd.describe in_order (Pd.dropna (Pd.values cents "amount")))
    = Some mean /\
    Pd.d_max (@Pd.describe in_order (Pd.dropna (Pd.values cents "amount")))
    = Some mx /\
    ~ (mean <= mx)%Q.
Proof.
  split; [vm_compute; reflexivity|].
  eexists _, _. split; [reflexivity|]. split; [reflexivity|].
  vm_compute. intros Hle. apply Hle. reflexivity.
Qed.

(** With fewer than eight entries the order of the additions is fixed, and
    the statistics are those of adding in order. *)
Lemma describe_short `{NumpySum} (l : list cell) :
  (length l < 8)%nat -> Pd.describe l = @Pd.describe in_order l.
Proof.
  intros Hl. unfold Pd.describe.
  assert (Hf : (length (Pd.floats l) < 8)%nat).
  { unfold Pd.floats. rewrite length_map.
    assert (length (Pd.nums l) <= length l)%nat; [|lia].
    clear Hl. induction l as [|c l IH]; simpl; [lia|].
    destruct c; simpl; lia. }
  f_equal.
  - unfold Pd.mean_of.
    rewrite (np_sum_short (Pd.addends l))
      by (unfold Pd.addends; rewrite length_map; exact Hl).
    reflexivity.
  - unfold Pd.std_of. cbv zeta.
    rewrite (np_sum_short (Pd.floats l)) by exact Hf.
    rewrite np_sum_short by (rewrite length_map; exact Hf).
    reflexivity.
Qed.

(** C6. On [{"id": [1, 2, 3], "amount": [10, 20, NaN]}] the query
    "average amount" is classified as statistics, and the answer reports
    for amount a count of 2 and a mean of 15.00: the mean of 10 and 20,
    the missing entry playing no part. *)
Theorem average_amount_skips_missing `{PandasText} `{NumpySum} :
  detect_question_type "average amount" = Statistics /\
  fst (generate_response "average amount" (Some 0) None None
         {[0 := amounts]})
  = Returns ("📈 **Statistical Analysis:**" +:+ Str.nl +:+ Str.nl +:+
             "**amount Statistics:**" +:+ Str.nl +:+
             "- Count: 2" +:+ Str.nl +:+
             "- Mean: 15.00" +:+ Str.nl +:+
             "- Median: 15.00" +:+ Str.nl +:+
             "- Min: 10.00" +:+ Str.nl +:+
             "- Max: 20.00" +:+ Str.nl +:+
             "- Std Dev: 7.07" +:+ Str.nl +:+ Str.nl) /\
  Pd.describe (Pd.dropna [Num 10; Num 20; Null NaN])
  = Pd.describe [Num 10; Num 20] /\
  (exists mean, Pd.d_mean (Pd.describe [Num 10; Num 20]) = Some mean /\
                (mean == 15)%Q).
Proof.
  split; [vm_compute; reflexivity|].
  split; [|split; [reflexivity|]].
  - rewrite (generate_response_single _ 0 amounts)
      by (reflexivity || exact I).
    unfold analyze_and_answer.
    change (detect_question_type (Str.strip (Str.lower "average amount")))
      with Statistics.
    unfold handler, handle_comprehensive_statistics, bind, read, ret.
    rewrite (deref_at _ _ amounts) by apply lookup_insert_eq.
    cbn [fst]. f_equal. unfold statistics_response.
    change (analyzed_cols amounts _) with ["amount"].
    cbn [map Str.cat]. unfold stats_block.
    change (Pd.dropna (Pd.values amounts "amount")) with [Num 10; Num 20].
    rewrite (describe_short [Num 10; Num 20]) by (simpl; lia).
    vm_compute. reflexivity.
  - rewrite (describe_short [Num 10; Num 20]) by (simpl; lia).
    eexists. split; [reflexivity|]. vm_compute. reflexivity.
Qed.

(** ** The filter handler *)

Section FilterFacts.
Context `{PandasText}.

Lemma value_filter_any user_input df col a :
  value_filter user_input df col = Some a ->
  any (applied_mask df a) = true.
Proof.
  unfold value_filter. destruct (Str.word_search _ _); [|discriminate].
  destruct (List.find _ _) as [val|] eqn:Hfind; [|discriminate].
  intros [= <-]. apply find_some in Hfind as [_ Hp].
  apply andb_prop in Hp as [_ Hp]. exact Hp.
Qed.

Lemma numeric_filter_any user_input df col a :
  numeric_filter user_input df col = Some a ->
  any (applied_mask df a) = true.
Proof.
  unfold numeric_filter. destruct (Str.word_search _ _); [|discriminate].
  destruct (_ || _ || _).
  - destruct (Fmt.first_number _) as [threshold|]; [|discriminate].
    destruct (any _) eqn:E; [|discriminate]. intros [= <-]. exact E.
  - destruct (_ || _ || _); [|discriminate].
    destruct (Fmt.first_number _) as [threshold|]; [|discriminate].
    destruct (any _) eqn:E; [|discriminate]. intros [= <-]. exact E.
Qed.

Lemma numeric_filters_any user_input df cols a :
  In a (numeric_filters user_input df cols) ->
  any (applied_mask df a) = true.
Proof.
  induction cols as [|col cols IH]; simpl; [intros []|].
  destruct (numeric_filter user_input df col) as [b|] eqn:E.
  - intros [<-|[]]. eapply numeric_filter_any, E.
  - exact IH.
Qed.

(** Every applied filter holds of some row of the table. *)
Lemma filters_applied_any user_input df columns a :
  In a (filters_applied user_input df columns) ->
  any (applied_mask df a) = true.
Proof.
  unfold filters_applied. intros Hin. apply in_app_or in Hin as [Hin|Hin].
  - apply in_flat_map in Hin as (col & _ & Hin).
    destruct (value_filter user_input df col) as [b|] eqn:E;
      [|destruct Hin].
    destruct Hin as [<-|[]]. eapply value_filter_any, E.
  - eapply numeric_filters_any, Hin.
Qed.

End FilterFacts.

Lemma rows_labels (df : DataFrame) : map fst (Pd.rows df) = df_index df.
Proof.
  unfold Pd.rows. generalize (df_columns df). intros cols.
  assert (G : forall (f : nat -> nat -> row) l,
             (forall i x, fst (f i x) = x) -> map fst (imap f l) = l).
  { intros f l. revert f. induction l as [|x l IH]; intros f Hf; simpl.
    - reflexivity.
    - rewrite Hf, IH; [reflexivity|]. intros i y. apply Hf. }
  apply G. reflexivity.
Qed.

Lemma rows_length (df : DataFrame) : length (Pd.rows df) = Pd.len df.
Proof. rewrite <- (length_map fst), rows_labels. reflexivity. Qed.

(** The columns of a well-formed frame are as long as the frame. *)
Lemma values_length (df : DataFrame) (col : string) :
  well_formed df -> (length (Pd.values df col) <= Pd.len df)%nat.
Proof.
  unfold well_formed, Pd.values, Pd.get, Pd.len. intros Hwf.
  induction Hwf as [|[n c] cols Hc Hwf IH]; simpl; [lia|].
  destruct (String.eqb n col); [simpl in Hc; lia | exact IH].
Qed.

Lemma applied_mask_length `{PandasText} (df : DataFrame) (a : applied) :
  well_formed df -> (length (applied_mask df a) <= Pd.len df)%nat.
Proof.
  intros Hwf. destruct a; simpl; rewrite length_map;
    apply values_length, Hwf.
Qed.

(** A mask that holds somewhere selects a row. *)
Lemma selected_some {A} (mask : list bool) (l : list A) :
  any mask = true -> (length mask <= length l)%nat ->
  (1 <= length (List.filter fst (combine mask l)))%nat.
Proof.
  revert l. induction mask as [|b mask IH]; intros l Hany Hlen.
  - discriminate.
  - destruct l as [|x l]; [simpl in Hlen; lia|].
    simpl in *. destruct b; simpl.
    + lia.
    + apply IH; [exact Hany | lia].
Qed.


(** ** Filters combine by intersection *)

Lemma keep_from_ext (P Q : nat -> bool) (k : nat) (l : list row) :
  (forall i, (k <= i < k + length l)%nat -> P i = Q i) ->
  keep_from P k l = keep_from Q k l.
Proof.
  revert k. induction l as [|r l IH]; intros k Hpq; simpl; [reflexivity|].
  rewrite (Hpq k) by (simpl; lia).
  rewrite (IH (S k)); [reflexivity|].
  intros i Hi. apply Hpq. simpl. lia.
Qed.

Lemma keep_from_all (k : nat) (l : list row) :
  keep_from (fun _ => true) k l = l.
Proof.
  revert k. induction l as [|r l IH]; intros k; simpl; [reflexivity|].
  rewrite IH. reflexivity.
Qed.

Lemma keep_from_length (P : nat -> bool) (k : nat) (l : list row) :
  (length (keep_from P k l) <= length l)%nat.
Proof.
  revert k. induction l as [|r l IH]; intros k; simpl; [lia|].
  specialize (IH (S k)). destruct (P k); simpl; lia.
Qed.

(** Rows kept with all the labels of the frame are all the rows. *)
Lemma keep_from_full (P : nat -> bool) (k : nat) (l : list row) :
  length (keep_from P k l) = length l ->
  forall i, (k <= i < k + length l)%nat -> P i = true.
Proof.
  revert k. induction l as [|r l IH]; intros k Hlen i Hi; simpl in *; [lia|].
  destruct (P k) eqn:Hk.
  - simpl in Hlen. destruct (Nat.eq_dec i k) as [->|Hne]; [exact Hk|].
    apply (IH (S k)); lia.
  - pose proof (keep_from_length P (S k) l). lia.
Qed.

Lemma keep_from_in (P : nat -> bool) (k : nat) (l : list row) (r : row) :
  In r (keep_from P k l) -> In r l.
Proof.
  revert k. induction l as [|x l IH]; intros k; simpl; [auto|].
  destruct (P k); simpl; intros Hin.
  - destruct Hin as [->|Hin]; [auto|]. right. eapply IH, Hin.
  - right. eapply IH, Hin.
Qed.

(** Selection by position. *)
Lemma select_by_position (mask : list bool) (k : nat) (l : list row) :
  map snd (List.filter fst (combine mask l))
  = keep_from (fun i => nth (i - k) mask false) k l.
Proof.
  revert mask k. induction l as [|r l IH]; intros mask k.
  - destruct mask; reflexivity.
  - destruct mask as [|b mask].
    + simpl. rewrite (keep_from_ext _ (fun _ => false)).
      * destruct (k - k)%nat; simpl; clear.
        -- revert k. induction l as [|r' l IH]; intros k; simpl; auto.
        -- revert k. induction l as [|r' l IH]; intros k; simpl; auto.
      * intros i _. destruct (i - k)%nat; reflexivity.
    + simpl combine. simpl keep_from. rewrite Nat.sub_diag. simpl nth.
      rewrite (keep_from_ext _ (fun i => nth (i - S k) mask false)).
      * destruct b; simpl; rewrite (IH mask (S k)); reflexivity.
      * intros i Hi. replace (i - k)%nat with (S (i - S k)) by lia.
        reflexivity.
Qed.

(** Selection by a test on the rows that agrees with a test on the
    positions. *)
Lemma filter_keep_from (g : row -> bool) (G P : nat -> bool) (k : nat)
    (l : list row) :
  (forall j r, nth_error l j = Some r -> g r = G (k + j)%nat) ->
  List.filter g (keep_from P k l) = keep_from (fun i => P i && G i) k l.
Proof.
  revert k. induction l as [|r l IH]; intros k Hg; simpl; [reflexivity|].
  assert (Hr : g r = G k).
  { rewrite (Hg 0%nat r eq_refl). f_equal. lia. }
  assert (Hl : forall j r', nth_error l j = Some r' -> g r' = G (S k + j)%nat).
  { intros j r' Hj. rewrite (Hg (S j) r' Hj). f_equal. lia. }
  destruct (P k); simpl.
  - rewrite Hr. destruct (G k); rewrite (IH (S k) Hl); reflexivity.
  - apply (IH (S k) Hl).
Qed.

(** With distinct labels, looking a label up in the mask gives the entry
    at the position of the label. *)
Lemma find_by_label (index : list nat) (mask : list bool) (i label : nat) :
  List.NoDup index ->
  nth_error index i = Some label ->
  match List.find (fun lm : nat * bool => (fst lm =? label)%nat)
                  (combine index mask) with
  | Some lm => snd lm
  | None => false
  end = nth i mask false.
Proof.
  intros Hnd. revert mask i.
  induction Hnd as [|x index Hx Hnd IH]; intros mask i Hi.
  - destruct i; discriminate.
  - destruct mask as [|b mask]; [destruct i; reflexivity|].
    destruct i as [|i]; simpl in *.
    + injection Hi as ->. rewrite Nat.eqb_refl. reflexivity.
    + destruct (Nat.eqb_spec x label) as [->|Hne].
      * exfalso. apply Hx. eapply nth_error_In, Hi.
      * apply IH. exact Hi.
Qed.

(** With distinct labels the mask has one entry under a label. *)
Lemma entries_by_label (index : list nat) (mask : list bool) (i label : nat) :
  List.NoDup index -> length mask = length index ->
  nth_error index i = Some label ->
  map snd (List.filter (fun lm : nat * bool => (fst lm =? label)%nat)
                       (combine index mask))
  = [nth i mask false].
Proof.
  intros Hnd. revert mask i.
  induction Hnd as [|x index Hx Hnd IH]; intros mask i Hlen Hi.
  - destruct i; discriminate.
  - destruct mask as [|b mask]; [discriminate|].
    simpl in Hlen. injection Hlen as Hlen.
    destruct i as [|i]; simpl in *.
    + injection Hi as ->. rewrite Nat.eqb_refl. simpl. f_equal.
      assert (G : forall m : list bool,
                 List.filter (fun lm : nat * bool => (fst lm =? label)%nat)
                             (combine index m) = []).
      { clear -Hx. induction index as [|y index IH]; intros m; [reflexivity|].
        destruct m as [|c m]; [reflexivity|]. simpl.
        destruct (Nat.eqb_spec y label) as [->|_].
        - exfalso. apply Hx. left. reflexivity.
        - apply IH. intros Hin. apply Hx. right. exact Hin. }
      rewrite G. reflexivity.
    + destruct (Nat.eqb_spec x label) as [->|Hne].
      * exfalso. apply Hx. eapply nth_error_In, Hi.
      * apply IH; assumption.
Qed.

(** Taking the rows at the positions where a test holds is selecting the
    rows by the test; none of the positions is past the last row. *)
Lemma take_true_positions (g : row -> bool) (pre l : list row) :
  let indexer :=
    map fst (List.filter snd (imap (fun i b => ((length pre + i)%nat, b))
                                   (map g l))) in
  flat_map (fun i => match nth_error (pre ++ l) i with
                     | Some r => [r]
                     | None => []
                     end) indexer
  = List.filter g l /\
  forallb (fun i => (i <? length (pre ++ l))%nat) indexer = true.
Proof.
  cbv zeta. revert pre. induction l as [|r l IH]; intros pre.
  - split; reflexivity.
  - cbn [map imap].
    rewrite (imap_ext _ (fun i b => ((length (pre ++ [r])%list + i)%nat, b)))
      by (intros i b _; simpl; rewrite length_app; simpl; f_equal; lia).
    destruct (IH (pre ++ [r])%list) as [IH1 IH2].
    rewrite <- app_assoc in IH1, IH2. simpl app in IH1, IH2.
    simpl List.filter. destruct (g r) eqn:Hg; simpl.
    + rewrite Nat.add_0_r, nth_error_app2 by lia.
      rewrite Nat.sub_diag. simpl. rewrite IH1, IH2.
      split; [reflexivity|]. rewrite andb_true_r. apply Nat.ltb_lt.
      rewrite length_app. simpl. lia.
    + split; [exact IH1 | exact IH2].
Qed.

Lemma filter_all (g : row -> bool) (l : list row) :
  forallb id (map g l) = true -> List.filter g l = l.
Proof.
  induction l as [|r l IH]; simpl; [reflexivity|].
  intros Hall. apply andb_prop in Hall as [Hr Hl]. unfold id in Hr.
  rewrite Hr, (IH Hl). reflexivity.
Qed.

(** With distinct labels a selection returns: it keeps the rows under
    whose label the mask holds. *)
Lemma select_by_label (index : list nat) (mask : list bool)
    (filtered_df : list row) :
  List.NoDup index -> length mask = length index ->
  (forall r, In r filtered_df -> In (fst r) index) ->
  map fst filtered_df <> index ->
  select index mask filtered_df
  = Returns
      (List.filter
         (fun r : row =>
            match List.find (fun lm : nat * bool => (fst lm =? fst r)%nat)
                            (combine index mask) with
            | Some lm => snd lm
            | None => false
            end)
         filtered_df).
Proof.
  intros Hnd Hlen Hin Hne. unfold select.
  rewrite decide_False by exact Hne.
  set (g := fun r : row =>
              match List.find (fun lm : nat * bool => (fst lm =? fst r)%nat)
                              (combine index mask) with
              | Some lm => snd lm
              | None => false
              end).
  assert (Hknown : existsb (fun r : row => negb (existsb (Nat.eqb (fst r)) index))
                           filtered_df = false).
  { apply not_true_is_false. intros E.
    apply existsb_exists in E as (r & Hr & Hno).
    apply negb_true_iff in Hno.
    assert (Hyes : existsb (Nat.eqb (fst r)) index = true); [|congruence].
    apply existsb_exists. exists (fst r). split; [apply Hin, Hr|].
    apply Nat.eqb_refl. }
  rewrite Hknown.
  assert (Hkey : flat_map
                   (fun r : row =>
                      map snd (List.filter
                                 (fun lm : nat * bool => (fst lm =? fst r)%nat)
                                 (combine index mask)))
                   filtered_df
                 = map g filtered_df).
  { clear Hne Hknown. induction filtered_df as [|r l IH]; [reflexivity|].
    simpl. rewrite IH by (intros r' Hr'; apply Hin; right; exact Hr').
    destruct (In_nth_error index (fst r) (Hin r (or_introl eq_refl)))
      as [i Hi].
    rewrite (entries_by_label index mask i (fst r) Hnd Hlen Hi).
    unfold g at 2. rewrite (find_by_label index mask i (fst r) Hnd Hi).
    reflexivity. }
  rewrite Hkey.
  destruct (forallb id (map g filtered_df)) eqn:Hall.
  - rewrite (filter_all g filtered_df Hall). reflexivity.
  - destruct (take_true_positions g [] filtered_df) as [Htake Hin_range].
    simpl in Htake, Hin_range.
    rewrite (imap_ext _ pair) in Htake, Hin_range by reflexivity.
    rewrite Hin_range, Htake. reflexivity.
Qed.

(** One step of filtering keeps the positions where the mask holds. *)
Lemma select_keep_from (df : DataFrame) (mask : list bool) (P : nat -> bool) :
  List.NoDup (df_index df) -> length mask = Pd.len df ->
  select (df_index df) mask (keep_from P 0 (Pd.rows df))
  = Returns (keep_from (fun i => P i && nth i mask false) 0 (Pd.rows df)).
Proof.
  intros Hnd Hlen.
  destruct (decide (map fst (keep_from P 0 (Pd.rows df)) = df_index df))
    as [Hall|Hne].
  - unfold select. rewrite decide_True by exact Hall. f_equal.
    assert (Hfull : length (keep_from P 0 (Pd.rows df))
                    = length (Pd.rows df)).
    { rewrite <- (length_map fst), Hall, <- rows_labels, length_map.
      reflexivity. }
    pose proof (keep_from_full P 0 (Pd.rows df) Hfull) as HP.
    rewrite (keep_from_ext P (fun _ => true)) by (intros i Hi; apply HP, Hi).
    rewrite keep_from_all, (select_by_position mask 0).
    apply keep_from_ext. intros i Hi. rewrite (HP i Hi), Nat.sub_0_r.
    reflexivity.
  - rewrite select_by_label; [|exact Hnd | exact Hlen | | exact Hne].
    + f_equal. apply filter_keep_from. intros j r Hj. simpl.
      apply find_by_label; [exact Hnd|].
      rewrite <- rows_labels. apply map_nth_error. exact Hj.
    + intros r Hr. apply keep_from_in in Hr.
      rewrite <- rows_labels. apply in_map, Hr.
Qed.

(** The rows left by the filters are the rows that satisfy them all. *)
Lemma filtered_rows_satisfying `{PandasText} (df : DataFrame)
    (filters : list applied) :
  List.NoDup (df_index df) ->
  (forall a, In a filters -> length (applied_mask df a) = Pd.len df) ->
  filtered_rows df filters = Returns (satisfying df filters).
Proof.
  intros Hnd Hlen. unfold filtered_rows, satisfying.
  assert (G : forall P,
             fold_left
               (fun filtered a =>
                  match filtered with
                  | Returns l => select (df_index df) (applied_mask df a) l
                  | Raises e => Raises e
                  end)
               filters (Returns (keep_from P 0 (Pd.rows df)))
             = Returns
                 (keep_from
                    (fun i => P i &&
                              forallb (fun a => nth i (applied_mask df a) false)
                                      filters)
                    0 (Pd.rows df))).
  { induction filters as [|a filters IH]; intros P; simpl.
    - f_equal. apply keep_from_ext. intros i _. rewrite andb_true_r.
      reflexivity.
    - rewrite (select_keep_from df _ P Hnd)
        by (apply Hlen; left; reflexivity).
      rewrite IH by (intros b Hb; apply Hlen; right; exact Hb).
      f_equal. apply keep_from_ext. intros i _. rewrite andb_assoc.
      reflexivity. }
  specialize (G (fun _ => true)). rewrite keep_from_all in G. exact G.
Qed.

(** A mask that holds somewhere is as long as the frame. *)
Lemma values_full (df : DataFrame) (col : string) :
  well_formed df -> Pd.values df col <> [] ->
  length (Pd.values df col) = Pd.len df.
Proof.
  unfold well_formed, Pd.values, Pd.get, Pd.len. intros Hwf.
  induction Hwf as [|[n c] cols Hc Hwf IH]; simpl; [congruence|].
  destruct (String.eqb n col); [intros _; exact Hc | exact IH].
Qed.

Lemma applied_mask_full `{PandasText} (df : DataFrame) (a : applied) :
  well_formed df -> any (applied_mask df a) = true ->
  length (applied_mask df a) = Pd.len df.
Proof.
  intros Hwf Hany.
  assert (Hne : forall (f : cell -> bool) col,
             any (map f (Pd.values df col)) = true ->
             length (map f (Pd.values df col)) = Pd.len df).
  { intros f col Hf. rewrite length_map. apply values_full; [exact Hwf|].
    intros E. rewrite E in Hf. discriminate. }
  destruct a; simpl in *; apply Hne, Hany.
Qed.

(** C9, as the code has it, for a table whose row labels are distinct. A
    constraint is applied only if some row of the table satisfies it,
    others being dropped; the selections then return, and the rows left
    are those that satisfy every applied filter; the answer reports their
    number and names the filters; with exactly one applied filter that
    number is at least 1; and with no applied filter the query is handed to
    the search handler. *)
Theorem filter_applies_matching_constraints `{PandasText}
    (user_input : string) (df : ref) (columns mentioned_cols : list string)
    (role_hint : option string) (s : store) (t : DataFrame) :
  s !! df = Some t ->
  well_formed t ->
  List.NoDup (df_index t) ->
  let filters := filters_applied user_input t columns in
  (forall a, In a filters -> any (applied_mask t a) = true) /\
  filtered_rows t filters = Returns (satisfying t filters) /\
  (filters <> [] ->
   exists rest,
     fst (handle_comprehensive_filter user_input df columns mentioned_cols
                                      role_hint s)
     = Returns
         ("🔍 **Filtered Results (" +:+
          Fmt.of_nat (length (satisfying t filters)) +:+ " records):**" +:+
          Str.nl +:+ Str.nl +:+
          "Filters applied: " +:+ Str.join ", " (map applied_text filters) +:+
          rest)) /\
  (forall a, filters = [a] -> (1 <= length (satisfying t filters))%nat) /\
  (filters = [] ->
   handle_comprehensive_filter user_input df columns mentioned_cols
                               role_hint s
   = handle_comprehensive_search user_input df columns mentioned_cols
                                 role_hint s).
Proof.
  intros Ht Hwf Hnd. cbv zeta.
  assert (Hread : read df s = (Returns t, s)).
  { unfold read. rewrite (deref_at _ _ _ Ht). reflexivity. }
  assert (Hany : forall a, In a (filters_applied user_input t columns) ->
                           any (applied_mask t a) = true).
  { intros a. apply filters_applied_any. }
  assert (Hrows : filtered_rows t (filters_applied user_input t columns)
                  = Returns (satisfying t (filters_applied user_input t
                                                            columns))).
  { apply filtered_rows_satisfying; [exact Hnd|].
    intros a Ha. apply applied_mask_full; [exact Hwf | apply Hany, Ha]. }
  split; [exact Hany|]. split; [exact Hrows|]. split; [|split].
  - intros Hne. unfold handle_comprehensive_filter, bind. rewrite Hread.
    unfold filter_response. cbv zeta. rewrite Hrows.
    destruct (filters_applied user_input t columns) as [|a l] eqn:E;
      [congruence|].
    eexists. unfold lift. cbn [fst]. unfold filtered_text. reflexivity.
  - intros a Ea. rewrite Ea in Hrows.
    unfold filtered_rows in Hrows. simpl in Hrows.
    unfold select in Hrows. rewrite decide_True in Hrows by apply rows_labels.
    rewrite Ea. injection Hrows as <-.
    rewrite length_map. apply selected_some.
    + apply Hany. rewrite Ea. left. reflexivity.
    + rewrite rows_length. apply applied_mask_length, Hwf.
  - intros E. unfold handle_comprehensive_filter, bind. rewrite Hread, E.
    reflexivity.
Qed.

Lemma filter_applies_matching_constraints_witness :
  let filters :=
    @filters_applied sample_text "which severity high" tickets
                     ["severity"; "status"] in
  (forall a, In a filters -> any (@applied_mask sample_text tickets a) = true)
  /\
  @filtered_rows sample_text tickets filters
  = Returns (@satisfying sample_text tickets filters) /\
  (filters <> [] ->
   exists rest,
     fst (@handle_comprehensive_filter sample_text "which severity high" 0
            ["severity"; "status"] ["severity"] None {[0 := tickets]})
     = Returns
         ("🔍 **Filtered Results (" +:+
          Fmt.of_nat (length (@satisfying sample_text tickets filters)) +:+
          " records):**" +:+ Str.nl +:+ Str.nl +:+
          "Filters applied: " +:+
          Str.join ", " (map (@applied_text sample_text) filters) +:+ rest))
  /\
  (forall a, filters = [a] ->
             (1 <= length (@satisfying sample_text tickets filters))%nat) /\
  (filters = [] ->
   @handle_comprehensive_filter sample_text "which severity high" 0
     ["severity"; "status"] ["severity"] None {[0 := tickets]}
   = @handle_comprehensive_search sample_text "which severity high" 0
       ["severity"; "status"] ["severity"] None {[0 := tickets]}).
Proof.
  apply (@filter_applies_matching_constraints sample_text).
  - reflexivity.
  - repeat constructor.
  - repeat constructor; simpl; intuition discriminate.
Defined.

(** C9 fails as stated: on
    [{"severity": ["high", "low"], "status": ["closed", "open"]}] the query
    "which severity high status open" is a filter query, each of its two
    constraints holds of one row, both are applied, and the answer reports
    zero records. *)
Lemma filter_reports_zero_records :
  detect_question_type "which severity high status open" = Filter /\
  fst (@generate_response sample_text in_order
         "which severity high status open" (Some 0) None None
         {[0 := tickets]})
  = Returns ("🔍 **Filtered Results (0 records):**" +:+ Str.nl +:+ Str.nl +:+
             "Filters applied: severity = high, status = open" +:+ Str.nl +:+
             Str.nl).
Proof.
  split; vm_compute; reflexivity.
Qed.

(** With both rows under one label the second selection of that query
    aligns its mask to the one row left, finds two entries under the
    label, and the position of the true one is past the last row. *)
Example repeated_labels_raise :
  fst (@generate_response sample_text in_order
         "which severity high status open" (Some 0) None None
         {[0 := relabelled]})
  = Raises IndexError.
Proof. vm_compute. reflexivity. Qed.

(** * Further properties of the code *)

(** ** Keywords that hide one another *)

Lemma string_app_assoc (a b c : string) : (a +:+ b) +:+ c = a +:+ b +:+ c.
Proof.
  induction a as [|x a IH]; [reflexivity|].
  change (String x ((a +:+ b) +:+ c) = String x (a +:+ b +:+ c)).
  f_equal. exact IH.
Qed.

Lemma occurs_in_trans (a b s : string) :
  occurs_in a b -> occurs_in b s -> occurs_in a s.
Proof.
  intros (p & q & ->) (p' & q' & ->).
  exists (p' +:+ p), (q +:+ q').
  rewrite !string_app_assoc. reflexivity.
Qed.

Lemma any_in_occurs (ws : list string) (user_input : string) :
  any_in ws user_input = true <->
  exists w, In w ws /\ occurs_in w user_input.
Proof.
  unfold any_in. rewrite existsb_exists. split.
  - intros (w & Hin & Hc). exists w. split; [exact Hin|].
    apply contains_occurs_in, Hc.
  - intros (w & Hin & Hc). exists w. split; [exact Hin|].
    apply contains_occurs_in, Hc.
Qed.

(** A query containing "summary" contains the statistics keyword "sum", which
    is tested earlier: it is answered as a count or a statistics question,
    never as a summary. *)
Theorem summary_word_goes_to_statistics (user_input : string) :
  occurs_in "summary" user_input ->
  detect_question_type user_input = Count \/
  detect_question_type user_input = Statistics.
Proof.
  intros Hs.
  assert (Hstats : any_in stats_words user_input = true).
  { apply any_in_occurs. exists "sum". split; [simpl; tauto|].
    apply (occurs_in_trans _ "summary"); [|exact Hs].
    exists "", "mary". reflexivity. }
  unfold detect_question_type.
  destruct (any_in count_words user_input); [left; reflexivity|].
  rewrite Hstats. right. reflexivity.
Qed.

Lemma summary_word_goes_to_statistics_witness :
  detect_question_type "give me a summary" = Count \/
  detect_question_type "give me a summary" = Statistics.
Proof.
  apply summary_word_goes_to_statistics.
  exists "give me a ", "". reflexivity.
Defined.

(** The summary handler is reached only through "overview" or "describe":
    of its four keywords, "summary" is hidden by "sum" and "tell me about"
    by the value keyword "tell me". *)
Theorem summary_intent_keywords (user_input : string) :
  detect_question_type user_input = Summary ->
  occurs_in "overview" user_input \/ occurs_in "describe" user_input.
Proof.
  unfold detect_question_type.
  destruct (any_in count_words user_input); [discriminate|].
  destruct (any_in stats_words user_input) eqn:Hstats; [discriminate|].
  destruct (any_in search_words user_input); [discriminate|].
  destruct (any_in filter_words user_input); [discriminate|].
  destruct (any_in compare_words user_input); [discriminate|].
  destruct (any_in trend_words user_input); [discriminate|].
  destruct (any_in value_words user_input) eqn:Hvalue; [discriminate|].
  destruct (any_in list_words user_input); [discriminate|].
  destruct (any_in summary_words user_input) eqn:Hsum; [|discriminate].
  intros _. apply any_in_occurs in Hsum as (w & Hin & Hw).
  simpl in Hin. destruct Hin as [<-|[<-|[<-|[<-|[]]]]].
  - exfalso. assert (any_in stats_words user_input = true); [|congruence].
    apply any_in_occurs. exists "sum". split; [simpl; tauto|].
    apply (occurs_in_trans _ "summary"); [|exact Hw].
    exists "", "mary". reflexivity.
  - left. exact Hw.
  - exfalso. assert (any_in value_words user_input = true); [|congruence].
    apply any_in_occurs. exists "tell me". split; [simpl; tauto|].
    apply (occurs_in_trans _ "tell me about"); [|exact Hw].
    exists "", " about". reflexivity.
  - right. exact Hw.
Qed.

Lemma summary_intent_keywords_witness :
  occurs_in "overview" "overview" \/ occurs_in "describe" "overview".
Proof.
  apply summary_intent_keywords. reflexivity.
Defined.

(** ** The reference set *)

Lemma dict_set_fst (k v : string) (d : list (string * string)) :
  forall x, In x (map fst (dict_set k v d)) <-> x = k \/ In x (map fst d).
Proof.
  induction d as [|[k' v'] d IH]; intros x; simpl.
  - intuition congruence.
  - destruct (String.eqb_spec k' k) as [->|Hne]; simpl.
    + intuition congruence.
    + rewrite IH. intuition congruence.
Qed.

Lemma dict_set_nodup (k v : string) (d : list (string * string)) :
  List.NoDup (map fst d) -> List.NoDup (map fst (dict_set k v d)).
Proof.
  induction d as [|[k' v'] d IH]; simpl; intros Hnd.
  - constructor; [intros [] | constructor].
  - destruct (String.eqb_spec k' k) as [->|Hne]; simpl; [exact Hnd|].
    inversion Hnd as [|? ? Hk Hd]; subst. constructor; [|apply IH, Hd].
    rewrite dict_set_fst. intros [E|Hin]; [congruence | exact (Hk Hin)].
Qed.

Lemma dict_set_snd (k v : string) (d : list (string * string)) :
  forall x, In x (map snd (dict_set k v d)) -> x = v \/ In x (map snd d).
Proof.
  induction d as [|[k' v'] d IH]; intros x; simpl.
  - intuition congruence.
  - destruct (String.eqb k' k); simpl; [intuition congruence|].
    intros [E|Hin]; [tauto|]. destruct (IH x Hin); tauto.
Qed.

(** [col_map] has one entry per normalised name, and its values are columns
    of the table. *)
Lemma col_map_shape (columns : list string) :
  List.NoDup (map fst (col_map columns)) /\
  (forall col, In col (map snd (col_map columns)) -> In col columns) /\
  (forall col, In col columns ->
               In (Str.strip (Str.lower col)) (map fst (col_map columns))).
Proof.
  unfold col_map.
  assert (G : forall cols d,
             List.NoDup (map fst d) ->
             let d' := fold_left
                         (fun d col =>
                            dict_set (Str.strip (Str.lower col)) col d)
                         cols d in
             List.NoDup (map fst d') /\
             (forall col, In col (map snd d') ->
                          In col cols \/ In col (map snd d)) /\
             (forall k, In k (map fst d) -> In k (map fst d')) /\
             (forall col, In col cols ->
                          In (Str.strip (Str.lower col)) (map fst d'))).
  { induction cols as [|c cols IH]; intros d Hd; simpl.
    - repeat split; auto. intros col [].
    - destruct (IH (dict_set (Str.strip (Str.lower c)) c d)
                   (dict_set_nodup _ _ _ Hd)) as (N & V & K & C).
      split; [exact N|]. split; [|split].
      + intros col Hcol. destruct (V col Hcol) as [H1|H1]; [tauto|].
        apply dict_set_snd in H1. destruct H1 as [->|H1]; tauto.
      + intros k Hk. apply K. rewrite dict_set_fst. tauto.
      + intros col [<-|Hcol]; [|apply C, Hcol].
        apply K. rewrite dict_set_fst. tauto. }
  destruct (G columns [] ltac:(constructor)) as (N & V & _ & C).
  split; [exact N|]. split; [|exact C].
  intros col Hcol. destruct (V col Hcol) as [H1|[]]. exact H1.
Qed.

Lemma keyed_values_nodup (d : list (string * string)) :
  Forall (fun kv => fst kv = Str.strip (Str.lower (snd kv))) d ->
  List.NoDup (map fst d) -> List.NoDup (map snd d).
Proof.
  induction d as [|[k v] d IH]; simpl; intros Hk Hnd; [constructor|].
  inversion Hk as [|? ? Hkv Hk']; subst.
  inversion Hnd as [|? ? Hnot Hnd']; subst. simpl in Hkv.
  constructor; [|apply IH; assumption].
  intros Hin. apply Hnot. apply in_map_iff in Hin as ([k' v'] & E & Hin).
  simpl in E. subst v'. apply in_map_iff. exists (k', v). split; [|exact Hin].
  rewrite Forall_forall in Hk'. apply list_elem_of_In in Hin.
  specialize (Hk' _ Hin). simpl in Hk'. simpl. congruence.
Qed.

Lemma filter_keeps_nodup_fst {A B} (f : A * B -> bool) (l : list (A * B)) :
  List.NoDup (map fst l) -> List.NoDup (map fst (List.filter f l)).
Proof.
  induction l as [|x l IH]; simpl; intros Hnd; [constructor|].
  inversion Hnd as [|? ? Hnot Hnd']; subst.
  destruct (f x); simpl; [|apply IH, Hnd'].
  constructor; [|apply IH, Hnd'].
  intros Hin. apply Hnot. apply in_map_iff in Hin as (y & E & Hin).
  apply filter_In in Hin as [Hin _]. apply in_map_iff. eauto.
Qed.

(** A column of the reference set is a column of the table. *)
Lemma mentioned_columns_in (user_input : string) (columns : list string)
    (col : string) :
  In col (mentioned_columns user_input columns) -> In col columns.
Proof.
  intros Hcol. destruct (col_map_shape columns) as (_ & V & _).
  apply V. unfold mentioned_columns in Hcol.
  apply in_map_iff in Hcol as (kv & E & Hin).
  apply filter_In in Hin as [Hin _]. apply in_map_iff. eauto.
Qed.

(** The reference set of [analyze_and_answer] lists columns of the table,
    each at most once (also when the table repeats a name, or has names
    that differ only in case or in surrounding blanks), and exactly those
    whose normalised name is a whole word of the question: of several
    columns with the same normalised name it lists one. *)
Theorem mentioned_columns_sound (user_input : string)
    (columns : list string) :
  List.NoDup (mentioned_columns user_input columns) /\
  (forall col, In col (mentioned_columns user_input columns) ->
               In col columns /\
               Str.word_search (Str.strip (Str.lower col)) user_input = true)
  /\
  (forall col, In col columns ->
               Str.word_search (Str.strip (Str.lower col)) user_input = true ->
               exists col', In col' (mentioned_columns user_input columns) /\
                            Str.strip (Str.lower col')
                            = Str.strip (Str.lower col)).
Proof.
  destruct (col_map_shape columns) as (N & V & C).
  pose proof (col_map_keys columns) as K.
  split; [|split].
  - unfold mentioned_columns. apply keyed_values_nodup.
    + rewrite Forall_forall in *. intros kv Hkv. apply K.
      apply list_elem_of_In. apply list_elem_of_In in Hkv.
      apply filter_In in Hkv. tauto.
    + apply filter_keeps_nodup_fst, N.
  - intros col Hcol. split; [|apply (mentioned_columns_word _ _ columns), Hcol].
    apply (mentioned_columns_in user_input), Hcol.
  - intros col Hcol Hw. specialize (C col Hcol).
    apply in_map_iff in C as ([k v] & E & Hin). simpl in E. subst k.
    exists v. rewrite Forall_forall in K.
    pose proof (K _ (proj2 (list_elem_of_In _ _) Hin)) as Hk. simpl in Hk.
    split; [|congruence].
    unfold mentioned_columns. apply in_map_iff.
    exists (Str.strip (Str.lower col), v). split; [reflexivity|].
    apply filter_In. split; [exact Hin | exact Hw].
Qed.

(** ** The strict extractor is stricter *)

Lemma lower_char_idempotent (c : ascii) :
  Str.lower_char (Str.lower_char c) = Str.lower_char c.
Proof.
  destruct c as [[] [] [] [] [] [] [] []]; vm_compute; reflexivity.
Qed.

Lemma lower_idempotent (s : string) : Str.lower (Str.lower s) = Str.lower s.
Proof.
  induction s as [|c s IH]; simpl; [reflexivity|].
  rewrite lower_char_idempotent, IH. reflexivity.
Qed.

Lemma match_literal_starts prev (w s : string) r :
  Str.match_literal prev w s = Some r -> Str.starts_with w s = true.
Proof.
  revert prev s. induction w as [|a w IH]; intros prev s; simpl.
  - reflexivity.
  - destruct s as [|b s]; [discriminate|].
    destruct (Ascii.eqb a b); [|discriminate]. simpl. apply IH.
Qed.

(** A whole-word match is in particular an occurrence. *)
Lemma word_search_contains (w s : string) :
  Str.word_search w s = true -> Str.contains w s = true.
Proof.
  unfold Str.word_search. generalize (@None ascii) as prev.
  induction s as [|c s IH]; intros prev; simpl; unfold Str.word_match_here.
  - rewrite orb_false_r. intros Hm. apply andb_prop in Hm as [_ Hm].
    destruct (Str.match_literal prev w "") as [[l r]|] eqn:E; [|discriminate].
    rewrite (match_literal_starts _ _ _ _ E). reflexivity.
  - intros Hm. apply orb_prop in Hm as [Hm|Hm].
    + apply andb_prop in Hm as [_ Hm].
      destruct (Str.match_literal prev w (String c s)) as [[l r]|] eqn:E;
        [|discriminate].
      rewrite (match_literal_starts _ _ _ _ E). reflexivity.
    + rewrite (IH _ Hm). apply orb_true_r.
Qed.

(** On a lower-cased question, a column without surrounding blanks that the
    whole-word extractor finds is also found by the substring extractor of
    the general fallback. *)
Theorem strict_extractor_within_permissive (user_input : string)
    (columns : list string) (col : string) :
  Str.lower user_input = user_input ->
  Str.strip (Str.lower col) = Str.lower col ->
  In col (mentioned_columns user_input columns) ->
  In col (fallback_mentioned user_input columns).
Proof.
  intros Hq Hc Hin.
  pose proof (mentioned_columns_in _ _ _ Hin) as Hcol.
  pose proof (mentioned_columns_word _ _ columns Hin) as Hw.
  unfold fallback_mentioned. apply filter_In. split; [exact Hcol|].
  rewrite Hq, <- Hc. apply word_search_contains, Hw.
Qed.

Lemma strict_extractor_within_permissive_witness :
  In "Status" (fallback_mentioned "count by status" ["ID"; "Status"]).
Proof.
  apply strict_extractor_within_permissive.
  - reflexivity.
  - reflexivity.
  - vm_compute. tauto.
Defined.

(** ** Search terms *)

Lemma chars_of_list (l : list ascii) :
  list_ascii_of_string (string_of_list_ascii l) = l.
Proof. induction l as [|c l IH]; simpl; [reflexivity|]. rewrite IH. reflexivity. Qed.

(** The tokens are made of the word characters of the text. *)
Lemma words_aux_chars (P : ascii -> Prop) (acc : list ascii) (s : string) :
  Forall (fun c => Str.is_word_char c = true /\ P c) acc ->
  Forall P (list_ascii_of_string s) ->
  forall t, In t (Str.words_aux acc s) ->
            t <> "" /\
            Forall (fun c => Str.is_word_char c = true /\ P c)
                   (list_ascii_of_string t).
Proof.
  revert acc. induction s as [|c s IH]; intros acc Hacc Hs t Ht.
  - simpl in Ht. destruct acc as [|a acc]; [destruct Ht|].
    destruct Ht as [<-|[]]. split.
    + intros E. apply (f_equal list_ascii_of_string) in E.
      rewrite chars_of_list in E. simpl in E.
      destruct (rev acc); discriminate.
    + rewrite chars_of_list. apply List.Forall_rev. exact Hacc.
  - simpl in Hs. inversion Hs as [|? ? Hc Hs']; subst. simpl in Ht.
    destruct (Str.is_word_char c) eqn:Hw.
    + apply (IH (c :: acc)); [constructor; [split|]; assumption | exact Hs' | exact Ht].
    + apply in_app_or in Ht as [Ht|Ht].
      * destruct acc as [|a acc]; [destruct Ht|].
        destruct Ht as [<-|[]]. split.
        -- intros E. apply (f_equal list_ascii_of_string) in E.
           rewrite chars_of_list in E. simpl in E.
           destruct (rev acc); discriminate.
        -- rewrite chars_of_list. apply List.Forall_rev. exact Hacc.
      * apply (IH []); [constructor | exact Hs' | exact Ht].
Qed.

Lemma lower_chars (s : string) :
  Forall (fun c => Str.lower_char c = c) (list_ascii_of_string (Str.lower s)).
Proof.
  induction s as [|c s IH]; simpl; constructor; [|exact IH].
  apply lower_char_idempotent.
Qed.

Lemma lower_fixed (t : string) :
  Forall (fun c => Str.lower_char c = c) (list_ascii_of_string t) ->
  Str.lower t = t.
Proof.
  induction t as [|c t IH]; simpl; intros Ht; [reflexivity|].
  inversion Ht as [|? ? Hc Ht']; subst. rewrite Hc, (IH Ht'). reflexivity.
Qed.

(** Every search term is a lower-case run of word characters, longer than
    two characters and not a stop word: joined with "|" the terms form a
    pattern without special characters. *)
Theorem search_terms_shape (user_input term : string) :
  In term (search_terms user_input) ->
  (2 < String.length term)%nat /\
  ~ In term stop_words /\
  forallb Str.is_word_char (list_ascii_of_string term) = true /\
  Str.lower term = term.
Proof.
  unfold search_terms. intros Hin. apply filter_In in Hin as [Hin Hf].
  apply andb_prop in Hf as [Hstop Hlen].
  split; [apply Nat.ltb_lt, Hlen|]. split.
  - intros Hs. apply negb_true_iff in Hstop.
    assert (existsb (String.eqb term) stop_words = true); [|congruence].
    apply existsb_exists. exists term. split; [exact Hs|].
    apply String.eqb_refl.
  - destruct (words_aux_chars (fun c => Str.lower_char c = c) []
                (Str.lower user_input) ltac:(constructor)
                (lower_chars user_input) term Hin) as [_ Hchars].
    split.
    + apply forallb_forall. intros c Hc.
      rewrite Forall_forall in Hchars.
      apply (Hchars c). apply list_elem_of_In, Hc.
    + apply lower_fixed. eapply Forall_impl; [exact Hchars|].
      intros c [_ Hc]. exact Hc.
Qed.

Lemma search_terms_shape_witness :
  (2 < String.length "phishing")%nat /\
  ~ In "phishing" stop_words /\
  forallb Str.is_word_char (list_ascii_of_string "phishing") = true /\
  Str.lower "phishing" = "phishing".
Proof.
  apply (search_terms_shape "Find the PHISHING incidents, or so").
  vm_compute. tauto.
Defined.

(** ** What a search finds *)

Lemma in_combine_nth {A B} (a : A) (b : B) (la : list A) (lb : list B) :
  In (a, b) (combine la lb) <->
  exists i, nth_error la i = Some a /\ nth_error lb i = Some b.
Proof.
  revert lb. induction la as [|x la IH]; intros lb.
  - simpl. split; [intros [] | intros ([|i] & E & _); discriminate].
  - destruct lb as [|y lb].
    + simpl. split; [intros [] | intros ([|i] & _ & E); discriminate].
    + simpl. rewrite IH. split.
      * intros [E|(i & E1 & E2)].
        -- injection E as -> ->. exists 0%nat. split; reflexivity.
        -- exists (S i). split; assumption.
      * intros ([|i] & E1 & E2); simpl in *.
        -- left. congruence.
        -- right. eauto.
Qed.

Lemma rows_where_spec (df : DataFrame) (mask : list bool) (r : row) :
  In r (rows_where df mask) <->
  exists i, nth_error mask i = Some true /\ nth_error (Pd.rows df) i = Some r.
Proof.
  unfold rows_where. rewrite in_map_iff. split.
  - intros ([b r'] & E & Hin). simpl in E. subst r'.
    apply filter_In in Hin as [Hin Hb]. simpl in Hb. subst b.
    apply in_combine_nth. exact Hin.
  - intros Hi. exists (true, r). split; [reflexivity|].
    apply filter_In. split; [|reflexivity]. apply in_combine_nth. exact Hi.
Qed.

Lemma relabel_cells (l : list (list cell)) : map snd (relabel l) = l.
Proof.
  unfold relabel.
  assert (G : forall (f : nat -> list cell -> row) l,
             (forall i x, snd (f i x) = x) -> map snd (imap f l) = l).
  { intros f l0. revert f. induction l0 as [|x l0 IH]; intros f Hf; simpl.
    - reflexivity.
    - rewrite Hf, IH; [reflexivity|]. intros i y. apply Hf. }
  apply G. reflexivity.
Qed.

Lemma cell_eqb_refl (c : cell) : Pd.cell_eqb c c = true.
Proof.
  destruct c; simpl; [reflexivity | | apply String.eqb_refl | apply Z.eqb_refl].
  apply Qeq_bool_iff. reflexivity.
Qed.

Lemma cell_eqb_trans (a b c : cell) :
  Pd.cell_eqb a b = true -> Pd.cell_eqb b c = true -> Pd.cell_eqb a c = true.
Proof.
  destruct a, b; simpl; try discriminate; destruct c; simpl;
    try discriminate; try reflexivity.
  - rewrite !Qeq_bool_iff. intros -> ->. reflexivity.
  - rewrite !String.eqb_eq. congruence.
  - rewrite !Z.eqb_eq. congruence.
Qed.

Lemma row_eqb_refl (a : list cell) : row_eqb a a = true.
Proof.
  unfold row_eqb. rewrite Nat.eqb_refl. simpl.
  induction a as [|c a IH]; simpl; [reflexivity|].
  rewrite cell_eqb_refl, IH. reflexivity.
Qed.

Lemma row_eqb_trans (a b c : list cell) :
  row_eqb a b = true -> row_eqb b c = true -> row_eqb a c = true.
Proof.
  unfold row_eqb. revert b c. induction a as [|x a IH]; intros b c.
  - destruct b; [|discriminate]. auto.
  - destruct b as [|y b]; [discriminate|].
    destruct c as [|z c]; [simpl; intros _ H; discriminate|].
    simpl. intros Hab Hbc.
    apply andb_prop in Hab as [Lab Hab]. apply andb_prop in Hab as [Hxy Hab].
    apply andb_prop in Hbc as [Lbc Hbc]. apply andb_prop in Hbc as [Hyz Hbc].
    rewrite (cell_eqb_trans _ _ _ Hxy Hyz). simpl.
    specialize (IH b c). rewrite Lab, Hab, Lbc, Hbc in IH.
    specialize (IH eq_refl eq_refl). apply andb_prop in IH as [L F].
    rewrite L, F. reflexivity.
Qed.

Lemma drop_duplicates_in (l : list row) (r : row) :
  In r (drop_duplicates l) -> In r l.
Proof.
  induction l as [|r0 l IH]; simpl; [auto|].
  intros [E|Hin]; [left; exact E|]. right. apply IH.
  apply filter_In in Hin. tauto.
Qed.

Lemma drop_duplicates_keeps_one (l : list row) (r : row) :
  In r l ->
  exists r', In r' (drop_duplicates l) /\ row_eqb (snd r') (snd r) = true.
Proof.
  induction l as [|r0 l IH]; simpl; [intros []|].
  intros [<-|Hin].
  - exists r0. split; [left; reflexivity | apply row_eqb_refl].
  - destruct (IH Hin) as (r' & Hr' & E).
    destruct (row_eqb (snd r0) (snd r')) eqn:E0.
    + exists r0. split; [left; reflexivity|].
      eapply row_eqb_trans; eassumption.
    + exists r'. split; [|exact E]. right. apply filter_In.
      split; [exact Hr'|]. rewrite E0. reflexivity.
Qed.

Lemma filter_ordpairs {A} (R : A -> A -> Prop) (f : A -> bool) (l : list A) :
  ForallOrdPairs R l -> ForallOrdPairs R (List.filter f l).
Proof.
  induction 1 as [|a l Ha Hl IH]; simpl; [constructor|].
  destruct (f a); [|exact IH]. constructor; [|exact IH].
  apply List.Forall_forall. intros x Hx. apply filter_In in Hx as [Hx _].
  rewrite List.Forall_forall in Ha. apply Ha, Hx.
Qed.

Lemma drop_duplicates_distinct (l : list row) :
  ForallOrdPairs (fun a b : row => row_eqb (snd a) (snd b) = false)
                 (drop_duplicates l).
Proof.
  induction l as [|r0 l IH]; simpl; constructor.
  - apply List.Forall_forall. intros x Hx. apply filter_In in Hx as [_ Hx].
    apply negb_true_iff. exact Hx.
  - apply filter_ordpairs, IH.
Qed.

Section SearchFacts.
Context `{PandasText}.

Lemma search_candidates (terms : list string) (df : DataFrame)
    (columns : list string) (cells : list cell) :
  In cells
     (flat_map
        (fun col => map snd (rows_where df (map (cell_matches terms)
                                                (Pd.values df col))))
        (List.filter (fun col => match Pd.dtype_of df col with
                                 | DObject => true | _ => false end)
                     columns))
  <-> hit terms df columns cells.
Proof.
  rewrite in_flat_map. split.
  - intros (col & Hcol & Hin). apply filter_In in Hcol as [Hcol Hd].
    apply in_map_iff in Hin as ([label cells'] & E & Hin). simpl in E.
    subst cells'. apply rows_where_spec in Hin as (i & Hm & Hr).
    rewrite nth_error_map in Hm.
    destruct (nth_error (Pd.values df col) i) as [c|] eqn:Hc; [|discriminate].
    simpl in Hm. injection Hm as Hm.
    exists col, i, label, c. repeat split; try assumption.
    destruct (Pd.dtype_of df col); try discriminate. reflexivity.
  - intros (col & i & label & c & Hcol & Hd & Hr & Hc & Hm).
    exists col. split.
    + apply filter_In. split; [exact Hcol|]. rewrite Hd. reflexivity.
    + apply in_map_iff. exists (label, cells). split; [reflexivity|].
      apply rows_where_spec. exists i. split; [|exact Hr].
      rewrite nth_error_map, Hc. simpl. rewrite Hm. reflexivity.
Qed.

(** The search reports hits only, and a row as good as every hit: a row of
    the table is equal, cell by cell, to a reported row exactly when it is
    a hit in some text column.  No two reported rows are equal: a row that
    matches in several columns, or that the table repeats, is reported
    once. *)
Theorem search_finds_the_hits (terms : list string) (df : DataFrame)
    (columns : list string) :
  (forall r, In r (search_matches terms df columns) ->
             hit terms df columns (snd r)) /\
  (forall cells, hit terms df columns cells ->
                 exists r, In r (search_matches terms df columns) /\
                           row_eqb (snd r) cells = true) /\
  ForallOrdPairs (fun a b : row => row_eqb (snd a) (snd b) = false)
                 (search_matches terms df columns).
Proof.
  unfold search_matches. split; [|split].
  - intros r Hr. apply drop_duplicates_in in Hr.
    apply search_candidates. rewrite <- (relabel_cells (flat_map _ _)).
    apply in_map. exact Hr.
  - intros cells Hhit. apply search_candidates in Hhit.
    rewrite <- (relabel_cells (flat_map _ _)) in Hhit.
    apply in_map_iff in Hhit as (r0 & E & Hin). subst cells.
    apply drop_duplicates_keeps_one. exact Hin.
  - apply drop_duplicates_distinct.
Qed.

End SearchFacts.

(** ** Value counts are exact and ordered *)

Lemma cell_eqb_sym (a b : cell) : Pd.cell_eqb a b = Pd.cell_eqb b a.
Proof.
  destruct a, b; simpl; try reflexivity.
  - destruct (Qeq_bool q q0) eqn:E1, (Qeq_bool q0 q) eqn:E2; try reflexivity.
    + apply Qeq_bool_iff in E1. symmetry in E1. apply Qeq_bool_iff in E1.
      congruence.
    + apply Qeq_bool_iff in E2. symmetry in E2. apply Qeq_bool_iff in E2.
      congruence.
  - apply String.eqb_sym.
  - apply Z.eqb_sym.
Qed.

Lemma ordpairs_app {A} (R : A -> A -> Prop) (l1 l2 : list A) :
  ForallOrdPairs R (l1 ++ l2) <->
  ForallOrdPairs R l1 /\ ForallOrdPairs R l2 /\
  (forall x y, In x l1 -> In y l2 -> R x y).
Proof.
  induction l1 as [|a l1 IH]; simpl.
  - split; [intros H; repeat split; [constructor | exact H | intros x y []]
           | intros (_ & H & _); exact H].
  - split.
    + intros H. inversion H as [|? ? Ha Hl]; subst.
      apply IH in Hl as (H1 & H2 & H12).
      rewrite List.Forall_forall in Ha.
      split; [|split; [exact H2|]].
      * constructor; [|exact H1]. apply List.Forall_forall.
        intros x Hx. apply Ha, in_or_app. left. exact Hx.
      * intros x y [<-|Hx] Hy; [apply Ha, in_or_app; right; exact Hy|].
        apply H12; assumption.
    + intros (H1 & H2 & H12). inversion H1 as [|? ? Ha Hl]; subst.
      constructor.
      * rewrite List.Forall_forall in *. intros x Hx.
        apply in_app_or in Hx as [Hx|Hx]; [apply Ha, Hx|].
        apply H12; [left; reflexivity | exact Hx].
      * apply IH. repeat split; [exact Hl | exact H2 |].
        intros x y Hx Hy. apply H12; [right; exact Hx | exact Hy].
Qed.

(** [bump] either appends a new key or raises the count of the first key
    equal to the cell. *)
Lemma bump_cases (v : cell) (acc : list (cell * nat)) :
  (Pd.bump v acc = (acc ++ [(v, 1%nat)])%list /\
   forall k n, In (k, n) acc -> Pd.cell_eqb k v = false) \/
  (exists pre k n post,
      acc = (pre ++ (k, n) :: post)%list /\ Pd.cell_eqb k v = true /\
      Pd.bump v acc = (pre ++ (k, S n) :: post)%list).
Proof.
  induction acc as [|[k0 n0] acc IH]; simpl.
  - left. split; [reflexivity | intros k n []].
  - destruct (Pd.cell_eqb k0 v) eqn:E0.
    + right. exists [], k0, n0, acc. repeat split. exact E0.
    + destruct IH as [[Hb Hno]|(pre & k & n & post & -> & Ek & Hb)].
      * left. rewrite Hb. split; [reflexivity|].
        intros k n [E|Hin]; [congruence | eapply Hno, Hin].
      * right. exists ((k0, n0) :: pre), k, n, post.
        rewrite Hb. repeat split. exact Ek.
Qed.

Lemma filter_snoc_length (f : cell -> bool) (l : list cell) (v : cell) :
  length (List.filter f (l ++ [v]))
  = (length (List.filter f l) + if f v then 1 else 0)%nat.
Proof.
  rewrite List.filter_app, length_app. simpl. destruct (f v); reflexivity.
Qed.

Lemma tally_of_bump (acc : list (cell * nat)) (seen : list cell) (v : cell) :
  tally_of acc seen -> tally_of (Pd.bump v acc) (seen ++ [v]).
Proof.
  intros (Hcount & Hdist & Hcover).
  destruct (bump_cases v acc)
    as [[Hb Hno]|(pre & k & n & post & Hacc & Ek & Hb)]; rewrite Hb.
  - (* a new key *)
    split; [|split].
    + intros k n Hin. apply in_app_or in Hin as [Hin|[E|[]]].
      * destruct (Hcount k n Hin) as [Hk Hn]. split.
        -- apply in_or_app. left. exact Hk.
        -- rewrite filter_snoc_length, (Hno k n Hin). lia.
      * injection E as <- <-. split; [apply in_or_app; right; left; reflexivity|].
        rewrite filter_snoc_length, cell_eqb_refl.
        assert (Hz : List.filter (Pd.cell_eqb v) seen = []).
        { destruct (List.filter (Pd.cell_eqb v) seen) as [|c rest] eqn:Ef;
            [reflexivity|exfalso].
          assert (Hc : In c (List.filter (Pd.cell_eqb v) seen))
            by (rewrite Ef; left; reflexivity).
          apply filter_In in Hc as [Hc Hvc].
          destruct (Hcover c Hc) as (k & n & Hin & Hkc).
          rewrite cell_eqb_sym in Hvc.
          pose proof (cell_eqb_trans _ _ _ Hkc Hvc) as Hkv.
          rewrite (Hno k n Hin) in Hkv. discriminate. }
        rewrite Hz. reflexivity.
    + apply ordpairs_app. split; [exact Hdist|].
      split; [constructor; constructor|].
      intros [k n] y Hin [<-|[]]. simpl. eapply Hno, Hin.
    + intros c Hc. apply in_app_or in Hc as [Hc|[<-|[]]].
      * destruct (Hcover c Hc) as (k & n & Hin & Hkc).
        exists k, n. split; [apply in_or_app; left; exact Hin | exact Hkc].
      * exists v, 1%nat. split; [apply in_or_app; right; left; reflexivity|].
        apply cell_eqb_refl.
  - (* the count of [k] is raised *)
    subst acc. apply ordpairs_app in Hdist as (Dpre & Dk & Dcross).
    inversion Dk as [|? ? Dkpost Dpost]; subst.
    rewrite List.Forall_forall in Dkpost.
    assert (Hother : forall k' n', In (k', n') (pre ++ post)%list ->
                                    Pd.cell_eqb k' v = false).
    { intros k' n' Hin.
      destruct (Pd.cell_eqb k' v) eqn:E; [exfalso|reflexivity].
      assert (Hk'k : Pd.cell_eqb k' k = true).
      { eapply cell_eqb_trans; [exact E|]. rewrite cell_eqb_sym. exact Ek. }
      apply in_app_or in Hin as [Hin|Hin].
      - specialize (Dcross (k', n') (k, n) Hin ltac:(left; reflexivity)).
        simpl in Dcross. congruence.
      - specialize (Dkpost _ Hin). simpl in Dkpost.
        rewrite cell_eqb_sym in Dkpost. congruence. }
    split; [|split].
    + intros k' n' Hin. apply in_app_or in Hin as [Hin|[E|Hin]].
      * destruct (Hcount k' n' ltac:(apply in_or_app; left; exact Hin))
          as [Hk Hn].
        split; [apply in_or_app; left; exact Hk|].
        rewrite filter_snoc_length,
          (Hother k' n' ltac:(apply in_or_app; left; exact Hin)). lia.
      * injection E as <- <-.
        destruct (Hcount k n ltac:(apply in_or_app; right; left; reflexivity))
          as [Hk Hn].
        split; [apply in_or_app; left; exact Hk|].
        rewrite filter_snoc_length, Ek. lia.
      * destruct (Hcount k' n' ltac:(apply in_or_app; right; right; exact Hin))
          as [Hk Hn].
        split; [apply in_or_app; left; exact Hk|].
        rewrite filter_snoc_length,
          (Hother k' n' ltac:(apply in_or_app; right; exact Hin)). lia.
    + apply ordpairs_app. split; [exact Dpre|]. split.
      * constructor; [|exact Dpost]. apply List.Forall_forall. exact Dkpost.
      * intros x y Hx [<-|Hy].
        -- apply (Dcross x (k, n) Hx). left. reflexivity.
        -- apply (Dcross x y Hx). right. exact Hy.
    + intros c Hc. apply in_app_or in Hc as [Hc|[<-|[]]].
      * destruct (Hcover c Hc) as (k' & n' & Hin & Hkc).
        apply in_app_or in Hin as [Hin|[E|Hin]].
        -- exists k', n'. split; [apply in_or_app; left; exact Hin | exact Hkc].
        -- injection E as <- <-. exists k, (S n).
           split; [apply in_or_app; right; left; reflexivity | exact Hkc].
        -- exists k', n'.
           split; [apply in_or_app; right; right; exact Hin | exact Hkc].
      * exists k, (S n).
        split; [apply in_or_app; right; left; reflexivity | exact Ek].
Qed.

Lemma tally_of_tally (l : list cell) : tally_of (Pd.tally l) l.
Proof.
  unfold Pd.tally.
  assert (G : forall acc seen,
             tally_of acc seen ->
             tally_of (fold_left (fun acc v => Pd.bump v acc) l acc)
                      (seen ++ l)).
  { induction l as [|v l IH]; intros acc seen Hinv; simpl.
    - rewrite app_nil_r. exact Hinv.
    - replace (seen ++ v :: l)%list with ((seen ++ [v]) ++ l)%list
        by (rewrite <- app_assoc; reflexivity).
      apply IH, tally_of_bump, Hinv. }
  apply (G [] []). split; [intros k n []|]. split; [constructor | intros c []].
Qed.

Lemma insert_desc_in (x y : cell * nat) (l : list (cell * nat)) :
  In y (Pd.insert_desc x l) <-> y = x \/ In y l.
Proof.
  induction l as [|z l IH]; simpl; [intuition congruence|].
  destruct (snd z <=? snd x)%nat; simpl; [intuition congruence|].
  rewrite IH. intuition congruence.
Qed.

Lemma sort_desc_in (y : cell * nat) (l : list (cell * nat)) :
  In y (Pd.sort_desc l) <-> In y l.
Proof.
  unfold Pd.sort_desc. induction l as [|x l IH]; simpl; [tauto|].
  rewrite insert_desc_in, IH. intuition congruence.
Qed.

Lemma insert_desc_sorted (x : cell * nat) (l : list (cell * nat)) :
  ForallOrdPairs (fun a b : cell * nat => (snd b <= snd a)%nat) l ->
  ForallOrdPairs (fun a b : cell * nat => (snd b <= snd a)%nat)
                 (Pd.insert_desc x l).
Proof.
  induction 1 as [|z l Hz Hl IH]; simpl.
  - constructor; constructor.
  - destruct (Nat.leb_spec (snd z) (snd x)) as [Hle|Hgt].
    + constructor; [|constructor; assumption].
      constructor; [exact Hle|].
      rewrite List.Forall_forall in *. intros y Hy.
      specialize (Hz y Hy). lia.
    + constructor; [|exact IH].
      rewrite List.Forall_forall in *. intros y Hy.
      apply (proj1 (insert_desc_in _ _ _)) in Hy as [->|Hy]; [lia | apply Hz, Hy].
Qed.

Lemma sort_desc_sorted (l : list (cell * nat)) :
  ForallOrdPairs (fun a b : cell * nat => (snd b <= snd a)%nat)
                 (Pd.sort_desc l).
Proof.
  unfold Pd.sort_desc. induction l as [|x l IH]; simpl; [constructor|].
  apply insert_desc_sorted, IH.
Qed.

(** [value_counts] is exact: an entry holds a value of the column that is
    not missing, with the number of entries of the column equal to it;
    every value that is not missing has an entry, and only one; and the
    entries come most frequent first. *)
Theorem value_counts_exact (l : list cell) :
  (forall v n, In (v, n) (Pd.value_counts l) ->
               In v l /\ Pd.notna v = true /\ (1 <= n)%nat /\
               n = length (List.filter (Pd.cell_eqb v) (Pd.dropna l))) /\
  (forall c, In c l -> Pd.notna c = true ->
             exists v n, In (v, n) (Pd.value_counts l) /\
                         Pd.cell_eqb v c = true) /\
  (forall v n v' n', In (v, n) (Pd.value_counts l) ->
                     In (v', n') (Pd.value_counts l) ->
                     Pd.cell_eqb v v' = true -> v = v' /\ n = n') /\
  ForallOrdPairs (fun a b : cell * nat => (snd b <= snd a)%nat)
                 (Pd.value_counts l).
Proof.
  unfold Pd.value_counts.
  destruct (tally_of_tally (Pd.dropna l)) as (Hcount & Hdist & Hcover).
  split; [|split; [|split]].
  - intros v n Hin. apply (proj1 (sort_desc_in _ _)) in Hin.
    destruct (Hcount v n Hin) as [Hv Hn].
    unfold Pd.dropna in Hv. apply filter_In in Hv as [Hv Hna].
    split; [exact Hv|]. split; [exact Hna|]. split; [|exact Hn].
    rewrite Hn.
    assert (Hin' : In v (List.filter (Pd.cell_eqb v) (Pd.dropna l))).
    { apply filter_In. split; [|apply cell_eqb_refl].
      unfold Pd.dropna. apply filter_In. split; assumption. }
    destruct (List.filter (Pd.cell_eqb v) (Pd.dropna l));
      [destruct Hin' | simpl; lia].
  - intros c Hc Hna.
    destruct (Hcover c) as (k & n & Hin & Hkc).
    { unfold Pd.dropna. apply filter_In. split; assumption. }
    exists k, n. split; [apply (proj2 (sort_desc_in _ _)), Hin | exact Hkc].
  - intros v n v' n' Hin Hin' E.
    apply (proj1 (sort_desc_in _ _)) in Hin. apply (proj1 (sort_desc_in _ _)) in Hin'.
    destruct (ForallOrdPairs_In Hdist _ _ Hin Hin') as [Eq|[D|D]].
    + injection Eq as -> ->. split; reflexivity.
    + simpl in D. congruence.
    + simpl in D. rewrite cell_eqb_sym in D. congruence.
  - apply sort_desc_sorted.
Qed.

(** ** Percentages stay between 0 and 100 *)

Lemma pct_range (n total : nat) :
  (1 <= n <= total)%nat -> (0 < pct n total)%Q /\ (pct n total <= 100)%Q.
Proof.
  intros [Hn Ht].
  assert (HT : (0 < inject_Z (Z.of_nat total))%Q).
  { change 0%Q with (inject_Z 0). rewrite <- Zlt_Qlt. lia. }
  assert (HN : (0 < inject_Z (Z.of_nat n))%Q).
  { change 0%Q with (inject_Z 0). rewrite <- Zlt_Qlt. lia. }
  assert (HNT : (inject_Z (Z.of_nat n) <= inject_Z (Z.of_nat total))%Q).
  { rewrite <- Zle_Qle. lia. }
  unfold pct. split.
  - apply Qmult_lt_0_compat; [|reflexivity].
    apply Qlt_shift_div_l; [exact HT|]. lra.
  - assert (H1 : (inject_Z (Z.of_nat n) / inject_Z (Z.of_nat total) <= 1)%Q).
    { apply Qle_shift_div_r; [exact HT|]. lra. }
    lra.
Qed.

Lemma filter_length_le {A} (f : A -> bool) (l : list A) :
  (length (List.filter f l) <= length l)%nat.
Proof.
  induction l as [|x l IH]; simpl; [lia|]. destruct (f x); simpl; lia.
Qed.

(** In a well-formed table every percentage of a breakdown is above 0 and
    at most 100. *)
Theorem percentages_in_range (df : DataFrame) (col : string) (p : Q) :
  well_formed df ->
  In p (percentages df col) ->
  (0 < p)%Q /\ (p <= 100)%Q.
Proof.
  intros Hwf Hp. unfold percentages, breakdown in Hp.
  rewrite map_map in Hp. apply in_map_iff in Hp as ([v n] & <- & Hin).
  simpl. apply pct_range.
  destruct (value_counts_exact (Pd.dropna (Pd.values df col)))
    as (Hexact & _).
  destruct (Hexact v n Hin) as (_ & _ & H1 & Hn). split; [exact H1|].
  rewrite Hn, dropna_idempotent.
  eapply Nat.le_trans; [apply filter_length_le|].
  eapply Nat.le_trans; [apply filter_length_le|].
  apply values_length, Hwf.
Qed.

Lemma percentages_in_range_witness :
  (0 < pct 1 2)%Q /\ (pct 1 2 <= 100)%Q.
Proof.
  apply (percentages_in_range half_missing "status").
  - repeat constructor.
  - left. reflexivity.
Defined.

(** ** Only the most frequent values are shown *)

(** Where a handler shows the first [n] entries of a column's value counts
    (ten in the general count, five in the statistics fallback and the
    general fallback, three in the summary), no value left out is more
    frequent than a value shown. *)
Theorem shown_values_are_most_frequent (n : nat) (l : list cell)
    (shown hidden : cell * nat) :
  In shown (Pd.head n (Pd.value_counts l)) ->
  In hidden (skipn n (Pd.value_counts l)) ->
  (snd hidden <= snd shown)%nat.
Proof.
  intros Hs Hh.
  destruct (value_counts_exact l) as (_ & _ & _ & Hord).
  rewrite <- (firstn_skipn n (Pd.value_counts l)) in Hord.
  apply ordpairs_app in Hord as (_ & _ & Hcross).
  apply (Hcross shown hidden); assumption.
Qed.

Lemma shown_values_are_most_frequent_witness :
  (snd (Str "b", 1%nat) <= snd (Str "a", 2%nat))%nat.
Proof.
  apply (shown_values_are_most_frequent 1 [Str "b"; Str "a"; Str "a"]).
  - left. reflexivity.
  - left. reflexivity.
Defined.

(** ** The count handler always answers with a block *)

Lemma begins_app (p a b : string) :
  (exists rest, a = p +:+ rest) -> exists rest, a +:+ b = p +:+ rest.
Proof.
  intros [rest ->]. exists (rest +:+ b). apply string_app_assoc.
Qed.

Lemma cat_begins (p : string) (l : list string) :
  Forall (fun b => b = "" \/ exists rest, b = p +:+ rest) l ->
  Str.cat l = "" \/ exists rest, Str.cat l = p +:+ rest.
Proof.
  induction 1 as [|b l Hb Hl IH]; simpl; [left; reflexivity|].
  destruct Hb as [->|Hb]; [exact IH|].
  right. apply begins_app, Hb.
Qed.

Section CountFacts.
Context `{PandasText}.

Lemma count_mentioned_begins user_input df col :
  count_mentioned user_input df col = "" \/
  exists rest, count_mentioned user_input df col = "📊 **" +:+ rest.
Proof.
  unfold count_mentioned.
  destruct (negb _); [left; reflexivity|].
  destruct (_ || _); [right; eexists; reflexivity|].
  destruct (0 <? _)%nat; [|left; reflexivity].
  destruct (_ <=? 20)%nat; [|left; reflexivity].
  right. eexists. reflexivity.
Qed.

Lemma count_column_value_begins user_input df col :
  count_column_value user_input df col = "" \/
  exists rest, count_column_value user_input df col = "📊 **" +:+ rest.
Proof.
  unfold count_column_value.
  destruct (Str.word_search _ _); [|left; reflexivity].
  destruct (List.find _ _); [|left; reflexivity].
  right. eexists. reflexivity.
Qed.

(** Whatever the question and the table, the answer of the count handler
    opens with a "📊 **" block: when nothing specific was found it falls
    back to the total, so its last resort "Found N records in total." is
    never the answer. *)
Theorem count_response_begins (user_input : string) (df : DataFrame)
    (columns mentioned_cols data_sources : list string) :
  (exists rest,
      count_response user_input df columns mentioned_cols data_sources
      = "📊 **" +:+ rest) /\
  count_response user_input df columns mentioned_cols data_sources
  <> "Found " +:+ Fmt.of_nat (Pd.len df) +:+ " records in total.".
Proof.
  assert (Hb : exists rest,
             count_response user_input df columns mentioned_cols data_sources
             = "📊 **" +:+ rest).
  { unfold count_response.
    set (specific := Str.cat (map (count_mentioned user_input df)
                                  mentioned_cols) +:+
                     Str.cat (map (count_column_value user_input df) columns)).
    assert (Hs : specific = "" \/ exists rest, specific = "📊 **" +:+ rest).
    { unfold specific.
      destruct (cat_begins "📊 **"
                  (map (count_mentioned user_input df) mentioned_cols))
        as [->|Hm].
      - apply List.Forall_forall. intros b Hin.
        apply in_map_iff in Hin as (c & <- & _).
        apply count_mentioned_begins.
      - apply cat_begins. apply List.Forall_forall. intros b Hin.
        apply in_map_iff in Hin as (c & <- & _).
        apply count_column_value_begins.
      - right. apply begins_app, Hm. }
    cbv zeta.
    set (general := "📊 **Total Records:** " +:+ Fmt.of_nat (Pd.len df) +:+
                    Str.nl +:+ Str.nl +:+ _).
    assert (Hr : exists rest,
               (if String.eqb specific "" then general else specific)
               = "📊 **" +:+ rest).
    { destruct Hs as [->|[rest Hrest]].
      - simpl. eexists. reflexivity.
      - destruct (String.eqb_spec specific "") as [E|_]; [|eauto].
        rewrite E in Hrest. discriminate. }
    destruct Hr as [rest Hrest]. rewrite Hrest.
    destruct (1 <? length data_sources)%nat.
    - eexists. unfold String.eqb at 1. cbn. reflexivity.
    - eexists. reflexivity. }
  split; [exact Hb|].
  destruct Hb as [rest ->]. intros E. discriminate E.
Qed.

End CountFacts.

(** ** Which columns the statistics handler analyses *)

Lemma firstn_in {A} (n : nat) (l : list A) (x : A) :
  In x (firstn n l) -> In x l.
Proof.
  revert l. induction n as [|n IH]; intros [|y l]; simpl; try tauto.
  intros [E|Hin]; [left; exact E | right; apply IH, Hin].
Qed.

(** The statistics handler analyses numeric columns only, a mentioned
    column that is not numeric being passed over; it has nothing to analyse
    exactly when the table has no numeric column; and when no mentioned
    column is numeric it takes the first five numeric columns. *)
Theorem analyzed_cols_numeric (df : DataFrame) (mentioned_cols : list string) :
  (forall col, In col (analyzed_cols df mentioned_cols) ->
               In col (Pd.numeric_cols df)) /\
  (analyzed_cols df mentioned_cols = [] <-> Pd.numeric_cols df = []) /\
  ((forall col, In col mentioned_cols -> ~ In col (Pd.numeric_cols df)) ->
   analyzed_cols df mentioned_cols = firstn 5 (Pd.numeric_cols df)).
Proof.
  unfold analyzed_cols.
  set (numeric := Pd.numeric_cols df).
  set (picked := List.filter (fun col => existsb (String.eqb col) numeric)
                             mentioned_cols).
  assert (Hpicked : forall col, In col picked -> In col numeric).
  { intros col Hcol. apply filter_In in Hcol as [_ Hex].
    apply existsb_exists in Hex as (x & Hx & E).
    apply String.eqb_eq in E. subst x. exact Hx. }
  split; [|split].
  - destruct picked as [|c picked'] eqn:E.
    + intros col Hcol. unfold Pd.head in Hcol.
      eapply firstn_in, Hcol.
    + intros col Hcol. apply Hpicked. exact Hcol.
  - destruct picked as [|c picked'] eqn:E.
    + unfold Pd.head. destruct numeric; simpl; split; congruence.
    + split; [discriminate|]. intros Hn.
      specialize (Hpicked c ltac:(left; reflexivity)).
      rewrite Hn in Hpicked. destruct Hpicked.
  - intros Hnone. destruct picked as [|c picked'] eqn:E; [reflexivity|].
    exfalso. pose proof (Hpicked c ltac:(left; reflexivity)) as Hn.
    assert (Hc : In c (List.filter
                         (fun col => existsb (String.eqb col) numeric)
                         mentioned_cols)).
    { fold picked. rewrite E. left. reflexivity. }
    apply filter_In in Hc as [Hc _]. exact (Hnone c Hc Hn).
Qed.

(** ** The text of a number depends on its value only *)

Lemma rounded_Qeq (digits : nat) (p q : Q) :
  (p == q)%Q -> Fmt.rounded digits p = Fmt.rounded digits q.
Proof.
  intros E. unfold Fmt.rounded.
  pose proof (pow10_pos digits) as HS.
  set (S := (10 ^ Z.of_nat digits)%Z) in *.
  unfold Qeq in E.
  apply Z.le_antisymm; apply round_half_even_mono; try lia; nia.
Qed.

Lemma negative_Qeq (p q : Q) :
  (p == q)%Q -> (Qnum p <? 0)%Z = (Qnum q <? 0)%Z.
Proof.
  unfold Qeq. intros E.
  destruct (Z.ltb_spec (Qnum p) 0), (Z.ltb_spec (Qnum q) 0);
    try reflexivity; exfalso; nia.
Qed.

(** Two fractions of the same value are written alike. *)
Lemma fixed_Qeq (digits : nat) (p q : Q) :
  (p == q)%Q -> Fmt.fixed digits p = Fmt.fixed digits q.
Proof.
  intros E. unfold Fmt.fixed.
  rewrite (rounded_Qeq digits p q E), (negative_Qeq p q E). reflexivity.
Qed.

(** ** A column with a single value *)

Lemma add_zero_l (x : Q) : F64.add 0 (F64.round x) = F64.round x.
Proof.
  unfold F64.add. rewrite (round_Qeq (0 + F64.round x) (F64.round x)) by ring.
  apply round_round.
Qed.

Lemma div_one (x : Q) :
  F64.div (F64.round x) (inject_Z (Z.of_nat 1)) = F64.round x.
Proof.
  unfold F64.div.
  rewrite (round_Qeq (F64.round x / inject_Z (Z.of_nat 1)) (F64.round x))
    by (simpl; field).
  apply round_round.
Qed.

(** For a column whose only entry that is not missing is the number [q],
    the statistics block gives a count of 1, gives the float64 value
    nearest to [q] as mean, median, minimum and maximum, and has no
    standard deviation line. *)
Theorem single_value_statistics `{NumpySum} (df : DataFrame) (col : string)
    (q : Q) :
  Pd.dropna (Pd.values df col) = [Num q] ->
  stats_block df col =
    "**" +:+ col +:+ " Statistics:**" +:+ Str.nl +:+
    "- Count: 1" +:+ Str.nl +:+
    "- Mean: " +:+ Fmt.fixed 2 (F64.round q) +:+ Str.nl +:+
    "- Median: " +:+ Fmt.fixed 2 (F64.round q) +:+ Str.nl +:+
    "- Min: " +:+ Fmt.fixed 2 (F64.round q) +:+ Str.nl +:+
    "- Max: " +:+ Fmt.fixed 2 (F64.round q) +:+ Str.nl +:+ Str.nl.
Proof.
  intros Hv. unfold stats_block. rewrite Hv.
  unfold Pd.describe, Pd.mean_of, Pd.std_of, Pd.median_of.
  cbn [Pd.dropna Pd.count_notna Pd.addends Pd.floats Pd.nums map List.filter
       Pd.notna length Nat.ltb Nat.leb Pd.d_count Pd.d_mean Pd.d_median
       Pd.d_min Pd.d_max Pd.d_std Pd.min_of Pd.max_of fold_left
       Pd.sort_asc fold_right Pd.insert_asc Nat.even Nat.div Nat.sub nth
       Fmt.fixed_opt].
  rewrite (np_sum_short [F64.round q]) by (simpl; lia).
  cbn [fold_left]. rewrite add_zero_l, div_one. reflexivity.
Qed.

(** The int64 entry [2 ^ 53 + 1] is reported as [2 ^ 53]. *)
Lemma single_value_statistics_witness :
  @stats_block in_order
    {| df_index := [0];
       df_columns :=
         [("id", {| col_dtype := DInt64;
                    col_values := [Num 9007199254740993] |})] |}
    "id" =
    "**id Statistics:**" +:+ Str.nl +:+
    "- Count: 1" +:+ Str.nl +:+
    "- Mean: 9007199254740992.00" +:+ Str.nl +:+
    "- Median: 9007199254740992.00" +:+ Str.nl +:+
    "- Min: 9007199254740992.00" +:+ Str.nl +:+
    "- Max: 9007199254740992.00" +:+ Str.nl +:+ Str.nl.
Proof.
  refine (eq_trans (@single_value_statistics in_order _ "id"
                      9007199254740993 _) _).
  - reflexivity.
  - vm_compute. reflexivity.
Defined.

(** ** Numeric thresholds *)

(** A question without a digit holds no number. *)
Lemma first_number_none (s : string) :
  forallb (fun c => negb (Str.is_digit c)) (list_ascii_of_string s) = true ->
  Fmt.first_number s = None.
Proof.
  induction s as [|c s IH]; simpl; [reflexivity|].
  intros Hs. apply andb_prop in Hs as [Hc Hs].
  apply negb_true_iff in Hc. rewrite Hc. apply IH, Hs.
Qed.

Lemma first_number_some (s : string) :
  existsb Str.is_digit (list_ascii_of_string s) = true ->
  exists q, Fmt.first_number s = Some q.
Proof.
  induction s as [|c s IH]; simpl; [discriminate|].
  destruct (Str.is_digit c) eqn:Hc.
  - intros _. destruct (Str.span Str.is_digit s) as [w r]. eauto.
  - simpl. exact IH.
Qed.

Section ThresholdFacts.
Context `{PandasText}.

Lemma numeric_filter_shape user_input df col a :
  numeric_filter user_input df col = Some a ->
  match a with
  | IsValue _ _ => False
  | Above c t =>
      c = col /\ Fmt.first_number user_input = Some t /\
      Str.contains "greater than" user_input
      || Str.contains "more than" user_input
      || Str.contains ">" user_input = true
  | Below c t =>
      c = col /\ Fmt.first_number user_input = Some t /\
      Str.contains "greater than" user_input
      || Str.contains "more than" user_input
      || Str.contains ">" user_input = false
  end.
Proof.
  unfold numeric_filter. destruct (Str.word_search _ _); [|discriminate].
  destruct (_ || _ || _) eqn:Hgt.
  - destruct (Fmt.first_number _) as [threshold|]; [|discriminate].
    destruct (any _); [|discriminate]. intros E. inversion E. subst a. auto.
  - destruct (Str.contains "less than" user_input || _ || _);
      [|discriminate].
    destruct (Fmt.first_number _) as [threshold|]; [|discriminate].
    destruct (any _); [|discriminate]. intros E. inversion E. subst a. auto.
Qed.

(** The loop over the numeric columns stops at the first filter it
    applies, so a question gets at most one threshold filter, however many
    numeric columns it names; the threshold is the first number of the
    question; "greater than", "more than" and ">" win over the words for
    less; and a question without a digit gets no threshold filter. *)
Theorem one_threshold_filter (user_input : string) (df : DataFrame)
    (numeric_cols : list string) :
  (length (numeric_filters user_input df numeric_cols) <= 1)%nat /\
  (forall a, In a (numeric_filters user_input df numeric_cols) ->
             match a with
             | IsValue _ _ => False
             | Above col t =>
                 In col numeric_cols /\
                 Fmt.first_number user_input = Some t /\
                 Str.contains "greater than" user_input
                 || Str.contains "more than" user_input
                 || Str.contains ">" user_input = true
             | Below col t =>
                 In col numeric_cols /\
                 Fmt.first_number user_input = Some t /\
                 Str.contains "greater than" user_input
                 || Str.contains "more than" user_input
                 || Str.contains ">" user_input = false
             end) /\
  (forallb (fun c => negb (Str.is_digit c)) (list_ascii_of_string user_input)
   = true ->
   numeric_filters user_input df numeric_cols = []).
Proof.
  split; [|split].
  - induction numeric_cols as [|col cols IH]; simpl; [lia|].
    destruct (numeric_filter user_input df col); [simpl; lia | exact IH].
  - induction numeric_cols as [|col cols IH]; simpl; [intros a []|].
    destruct (numeric_filter user_input df col) as [b|] eqn:E.
    + intros a [<-|[]]. apply numeric_filter_shape in E.
      destruct b; [exact E | |]; destruct E as (-> & E1 & E2); auto.
    + intros a Ha. specialize (IH a Ha).
      destruct a; [exact IH | |]; destruct IH as (I1 & I2 & I3); auto.
  - intros Hno. apply first_number_none in Hno.
    induction numeric_cols as [|col cols IH]; simpl; [reflexivity|].
    destruct (numeric_filter user_input df col) as [b|] eqn:E; [|exact IH].
    apply numeric_filter_shape in E.
    destruct b; [destruct E | |]; destruct E as (_ & E1 & _); congruence.
Qed.

End ThresholdFacts.

(** ** Concatenating two tables *)

Lemma assoc_in {A} (k : string) (l : list (string * A)) (v : A) :
  Pd.assoc k l = Some v -> In (k, v) l.
Proof.
  induction l as [|[k' v'] l IH]; simpl; [discriminate|].
  destruct (String.eqb_spec k' k) as [->|Hne].
  - intros [= ->]. left. reflexivity.
  - intros Hv. right. apply IH, Hv.
Qed.

Lemma assoc_none {A} (k : string) (l : list (string * A)) :
  Pd.assoc k l = None <-> ~ In k (map fst l).
Proof.
  induction l as [|[k' v'] l IH]; simpl; [tauto|].
  destruct (String.eqb_spec k' k) as [->|Hne].
  - split; [discriminate | tauto].
  - rewrite IH. tauto.
Qed.

Lemma has_column_in (df : DataFrame) (col : string) :
  Pd.has_column df col = true <-> In col (Pd.columns df).
Proof.
  unfold Pd.has_column, Pd.columns.
  destruct (Pd.assoc col (df_columns df)) eqn:E.
  - split; [intros _|reflexivity].
    apply assoc_in in E. apply in_map_iff. exists (col, c). auto.
  - apply assoc_none in E. split; [discriminate | tauto].
Qed.

Lemma assoc_map_names {A} (f : string -> string * A) (names : list string)
    (n : string) :
  (forall k, fst (f k) = k) ->
  Pd.assoc n (map f names)
  = if existsb (String.eqb n) names then Some (snd (f n)) else None.
Proof.
  intros Hf. induction names as [|k names IH]; simpl; [reflexivity|].
  destruct (f k) as [k' v] eqn:E.
  assert (Hk : k' = k) by (rewrite <- (Hf k), E; reflexivity). subst k'.
  rewrite (String.eqb_sym n k).
  destruct (String.eqb_spec k n) as [->|Hne]; simpl; [|exact IH].
  rewrite E. reflexivity.
Qed.

Lemma existsb_eqb_in (n : string) (names : list string) :
  existsb (String.eqb n) names = true <-> In n names.
Proof.
  rewrite existsb_exists. split.
  - intros (x & Hx & E). apply String.eqb_eq in E. subst x. exact Hx.
  - intros Hn. exists n. split; [exact Hn | apply String.eqb_refl].
Qed.

(** The column that [pd_concat] builds for the name [n]. *)
Lemma pd_concat_assoc (a b : DataFrame) (n : string) :
  Pd.assoc n (df_columns (pd_concat a b)) =
  match Pd.assoc n (df_columns a), Pd.assoc n (df_columns b) with
  | Some ca, Some cb =>
      Some {| col_dtype := join_dtype (col_dtype ca) (col_dtype cb);
              col_values :=
                map (astype (col_dtype ca)
                            (join_dtype (col_dtype ca) (col_dtype cb)))
                    (col_values ca) ++
                map (astype (col_dtype cb)
                            (join_dtype (col_dtype ca) (col_dtype cb)))
                    (col_values cb) |}
  | Some ca, None =>
      Some {| col_dtype := widen_dtype (col_dtype ca);
              col_values :=
                map (astype (col_dtype ca) (widen_dtype (col_dtype ca)))
                    (col_values ca) ++
                repeat (fill_of (col_dtype ca)) (Pd.len b) |}
  | None, Some cb =>
      Some {| col_dtype := widen_dtype (col_dtype cb);
              col_values :=
                repeat (fill_of (col_dtype cb)) (Pd.len a) ++
                map (astype (col_dtype cb) (widen_dtype (col_dtype cb)))
                    (col_values cb) |}
  | None, None => None
  end.
Proof.
  unfold pd_concat. cbn [df_columns].
  rewrite assoc_map_names.
  2:{ intros k. destruct (Pd.assoc k (df_columns a)),
                         (Pd.assoc k (df_columns b)); reflexivity. }
  destruct (existsb (String.eqb n) _) eqn:Hex.
  - destruct (Pd.assoc n (df_columns a)) eqn:Ea,
             (Pd.assoc n (df_columns b)) eqn:Eb; try reflexivity.
    exfalso. apply existsb_eqb_in in Hex.
    apply assoc_none in Ea. apply assoc_none in Eb.
    apply in_app_or in Hex as [Hin|Hin]; [exact (Ea Hin)|].
    apply filter_In in Hin as [Hin _]. exact (Eb Hin).
  - assert (Hnot : ~ In n (Pd.columns a ++
                            List.filter (fun n => negb (Pd.has_column a n))
                                        (Pd.columns b))%list).
    { intros Hin. apply existsb_eqb_in in Hin. congruence. }
    destruct (Pd.assoc n (df_columns a)) eqn:Ea.
    + exfalso. apply Hnot, in_or_app. left.
      apply has_column_in. unfold Pd.has_column. rewrite Ea. reflexivity.
    + destruct (Pd.assoc n (df_columns b)) eqn:Eb; [|reflexivity].
      exfalso. apply Hnot, in_or_app. right. apply filter_In. split.
      * apply has_column_in. unfold Pd.has_column. rewrite Eb. reflexivity.
      * unfold Pd.has_column. rewrite Ea. reflexivity.
Qed.

Lemma wf_column (df : DataFrame) (n : string) (c : column) :
  well_formed df -> Pd.assoc n (df_columns df) = Some c ->
  length (col_values c) = Pd.len df.
Proof.
  intros Hwf Hc. apply assoc_in in Hc. unfold well_formed in Hwf.
  rewrite List.Forall_forall in Hwf. apply (Hwf _ Hc).
Qed.

Lemma firstn_map_app {A B} (f : A -> B) (l : list A) (rest : list B) :
  firstn (length l) (map f l ++ rest) = map f l.
Proof. induction l as [|x l IH]; simpl; [reflexivity|]. rewrite IH. reflexivity. Qed.

Lemma skipn_map_app {A B} (f : A -> B) (l : list A) (rest : list B) :
  skipn (length l) (map f l ++ rest) = rest.
Proof. induction l as [|x l IH]; simpl; [reflexivity|]. exact IH. Qed.

(** The conversion of a cell changes an integer of an int64 column that
    becomes part of a float64 column, and nothing else. *)
Lemma astype_cases (from to : dtype) (c : cell) :
  astype from to c = c \/
  (from = DInt64 /\ to = DFloat64 /\
   exists q, c = Num q /\ astype from to c = Num (F64.round q)).
Proof.
  destruct from, to, c; simpl; auto.
  right. repeat split. eauto.
Qed.

(** Concatenation keeps the rows and the columns: the result is a
    well-formed table with the rows of the first table followed by those of
    the second; it has a column exactly for each name that one of the two
    has; and under each name the first rows hold the column of the first
    table and the rest the column of the second, each converted to the
    dtype of the whole column.  The conversion changes a cell only where an
    int64 column becomes part of a float64 column: an integer then becomes
    the nearest float64 value, which is the integer itself up to
    [2 ^ 53]. *)
Theorem pd_concat_keeps_everything (a b : DataFrame) :
  well_formed a -> well_formed b ->
  well_formed (pd_concat a b) /\
  Pd.len (pd_concat a b) = (Pd.len a + Pd.len b)%nat /\
  (forall col, Pd.has_column (pd_concat a b) col
               = Pd.has_column a col || Pd.has_column b col) /\
  (forall col, Pd.has_column a col = true ->
               firstn (Pd.len a) (Pd.values (pd_concat a b) col)
               = map (astype (Pd.dtype_of a col)
                             (Pd.dtype_of (pd_concat a b) col))
                     (Pd.values a col)) /\
  (forall col, Pd.has_column b col = true ->
               skipn (Pd.len a) (Pd.values (pd_concat a b) col)
               = map (astype (Pd.dtype_of b col)
                             (Pd.dtype_of (pd_concat a b) col))
                     (Pd.values b col)) /\
  (forall from to c,
      astype from to c = c \/
      (from = DInt64 /\ to = DFloat64 /\
       exists q, c = Num q /\ astype from to c = Num (F64.round q))) /\
  (forall z : Z, (Z.abs z <= 2 ^ 53)%Z ->
                 (F64.round (inject_Z z) == inject_Z z)%Q).
Proof.
  intros Ha Hb.
  assert (Hlen : Pd.len (pd_concat a b) = (Pd.len a + Pd.len b)%nat).
  { unfold Pd.len, pd_concat. cbn [df_index]. apply length_seq. }
  split; [|split; [exact Hlen|split; [|split; [|split; [|split]]]]].
  - unfold well_formed. apply List.Forall_forall. intros [n c] Hin.
    fold (Pd.len (pd_concat a b)). rewrite Hlen. cbn [snd].
    unfold pd_concat in Hin. cbn [df_columns] in Hin.
    apply in_map_iff in Hin as (k & E & Hk).
    destruct (Pd.assoc k (df_columns a)) as [ca|] eqn:Ea,
             (Pd.assoc k (df_columns b)) as [cb|] eqn:Eb;
      injection E as <- <-; cbn [col_values].
    + rewrite length_app, !length_map, (wf_column a k ca Ha Ea),
        (wf_column b k cb Hb Eb).
      reflexivity.
    + rewrite length_app, length_map, repeat_length, (wf_column a k ca Ha Ea).
      reflexivity.
    + rewrite length_app, length_map, repeat_length, (wf_column b k cb Hb Eb).
      reflexivity.
    + exfalso. apply assoc_none in Ea. apply assoc_none in Eb.
      apply in_app_or in Hk as [Hk|Hk]; [exact (Ea Hk)|].
      apply filter_In in Hk as [Hk _]. exact (Eb Hk).
  - intros col. unfold Pd.has_column at 1. rewrite pd_concat_assoc.
    unfold Pd.has_column.
    destruct (Pd.assoc col (df_columns a)), (Pd.assoc col (df_columns b));
      reflexivity.
  - intros col Hcol. unfold Pd.values, Pd.dtype_of, Pd.get.
    rewrite pd_concat_assoc. unfold Pd.has_column in Hcol.
    destruct (Pd.assoc col (df_columns a)) as [ca|] eqn:Ea; [|discriminate].
    pose proof (wf_column a col ca Ha Ea) as Hca.
    destruct (Pd.assoc col (df_columns b)); cbn [col_values col_dtype];
      rewrite <- Hca; apply firstn_map_app.
  - intros col Hcol. unfold Pd.values, Pd.dtype_of, Pd.get.
    rewrite pd_concat_assoc. unfold Pd.has_column in Hcol.
    destruct (Pd.assoc col (df_columns b)) as [cb|] eqn:Eb; [|discriminate].
    destruct (Pd.assoc col (df_columns a)) as [ca|] eqn:Ea;
      cbn [col_values col_dtype].
    + rewrite <- (wf_column a col ca Ha Ea). apply skipn_map_app.
    + rewrite skipn_app, repeat_length, Nat.sub_diag.
      rewrite skipn_all2 by (rewrite repeat_length; lia). reflexivity.
  - apply astype_cases.
  - apply finite_whole.
Qed.

(** The int64 column "id" of the second table becomes a float64 column. *)
Lemma pd_concat_keeps_everything_witness :
  Pd.values (pd_concat tickets amounts) "id"
  = [Null NaN; Null NaN; Num 1; Num 2; Num 3] /\
  Pd.dtype_of (pd_concat tickets amounts) "id" = DFloat64.
Proof.
  destruct (pd_concat_keeps_everything tickets amounts)
    as (_ & _ & _ & _ & Hb & _ & _);
    [repeat constructor | repeat constructor |].
  specialize (Hb "id" eq_refl).
  split; [|reflexivity].
  rewrite <- (firstn_skipn (Pd.len tickets)
                (Pd.values (pd_concat tickets amounts) "id")).
  rewrite Hb. vm_compute. reflexivity.
Defined.

(** ** Combining two sources *)

Lemma get_set_other (t : DataFrame) (k k' : string) (c : column) :
  k' <> k -> Pd.get (Pd.set_column t k c) k' = Pd.get t k'.
Proof.
  intros Hk. unfold Pd.get, Pd.set_column. simpl.
  rewrite assoc_set_other by exact Hk. reflexivity.
Qed.

Lemma assoc_set_names {A} (k : string) (v : A) (l : list (string * A)) :
  In k (map fst l) -> map fst (Pd.assoc_set k v l) = map fst l.
Proof.
  induction l as [|[k' v'] l IH]; simpl; [intros []|].
  destruct (String.eqb_spec k' k) as [->|Hne]; simpl; [reflexivity|].
  intros [E|Hin]; [congruence|]. rewrite (IH Hin). reflexivity.
Qed.

Lemma fillna_empty_idempotent (c : column) :
  fillna_empty (fillna_empty c) = fillna_empty c.
Proof.
  unfold fillna_empty. simpl. f_equal. rewrite map_map.
  apply map_ext. intros v. destruct v; reflexivity.
Qed.

Lemma fillna_empty_notna (c : column) :
  Forall (fun v => Pd.notna v = true) (col_values (fillna_empty c)).
Proof.
  unfold fillna_empty. simpl. apply List.Forall_forall. intros v Hv.
  apply in_map_iff in Hv as (x & <- & _). destruct x; reflexivity.
Qed.

(** The frame the loop leaves in the combined object: every object column
    among [cols] has its missing values replaced, and nothing else is
    changed. *)
Lemma fill_object_columns_result (cols : list string) (combined_df : ref)
    (t : DataFrame) (s : store) :
  s !! combined_df = Some t ->
  (forall col, In col cols -> In col (Pd.columns t)) ->
  exists t',
    fill_object_columns combined_df cols s
    = (Returns tt, <[combined_df := t']> s) /\
    df_index t' = df_index t /\
    Pd.columns t' = Pd.columns t /\
    (forall col,
        Pd.get t' col =
        match Pd.dtype_of t col with
        | DObject => if existsb (String.eqb col) cols
                     then fillna_empty (Pd.get t col) else Pd.get t col
        | _ => Pd.get t col
        end).
Proof.
  revert t s. induction cols as [|c cols IH]; intros t s Ht Hcols.
  - exists t. simpl. unfold ret. rewrite insert_id by exact Ht.
    repeat split. intros col. destruct (Pd.dtype_of t col); reflexivity.
  - simpl. unfold bind, read. rewrite (deref_at _ _ _ Ht).
    set (t1 := match Pd.dtype_of t c with
               | DObject => Pd.set_column t c (fillna_empty (Pd.get t c))
               | _ => t
               end).
    assert (Hstep :
              (match Pd.dtype_of t c with
               | DObject =>
                   write combined_df
                         (Pd.set_column t c (fillna_empty (Pd.get t c)))
               | _ => ret tt
               end) s = (Returns tt, <[combined_df := t1]> s)).
    { unfold t1. destruct (Pd.dtype_of t c); unfold ret, write;
        rewrite ?(insert_id s combined_df t Ht); reflexivity. }
    unfold id. rewrite Hstep.
    assert (Hidx : df_index t1 = df_index t)
      by (unfold t1; destruct (Pd.dtype_of t c); reflexivity).
    assert (Hnames : Pd.columns t1 = Pd.columns t).
    { unfold t1. destruct (Pd.dtype_of t c); try reflexivity.
      unfold Pd.columns, Pd.set_column. simpl.
      apply assoc_set_names. apply (Hcols c). left. reflexivity. }
    assert (Hget : forall col,
               Pd.get t1 col =
               match Pd.dtype_of t col with
               | DObject => if String.eqb col c
                            then fillna_empty (Pd.get t col) else Pd.get t col
               | _ => Pd.get t col
               end).
    { intros col. unfold t1.
      destruct (String.eqb_spec col c) as [->|Hne].
      - destruct (Pd.dtype_of t c); try reflexivity. apply get_set_same.
      - destruct (Pd.dtype_of t c);
          rewrite ?(get_set_other _ _ _ _ Hne);
          destruct (Pd.dtype_of t col); reflexivity. }
    assert (Hdt : forall col, Pd.dtype_of t1 col = Pd.dtype_of t col).
    { intros col. unfold Pd.dtype_of at 1. rewrite Hget.
      unfold Pd.dtype_of.
      destruct (col_dtype (Pd.get t col)) eqn:E; try exact E.
      destruct (String.eqb col c); [|exact E]. simpl. exact E. }
    destruct (IH t1 (<[combined_df := t1]> s)) as (t' & Hrun & Hi & Hn & Hg).
    { apply lookup_insert_eq. }
    { intros col Hcol. rewrite Hnames. apply Hcols. right. exact Hcol. }
    exists t'. rewrite Hrun, insert_insert_eq.
    split; [reflexivity|]. split; [congruence|]. split; [congruence|].
    intros col. rewrite Hg, Hdt, Hget. simpl.
    rewrite (String.eqb_sym col c).
    destruct (Pd.dtype_of t col); try reflexivity.
    destruct (String.eqb c col); simpl.
    + destruct (existsb _ cols); [apply fillna_empty_idempotent|reflexivity].
    + reflexivity.
Qed.

(** A table that holds, under each name, the column of [t] with its missing
    values replaced when it is a text column of [t], has no missing value in
    a text column. *)
Lemma filled_text_columns (t t' : DataFrame) :
  Pd.columns t' = Pd.columns t ->
  (forall col,
      Pd.get t' col =
      match Pd.dtype_of t col with
      | DObject => if Pd.has_column t col
                   then fillna_empty (Pd.get t col) else Pd.get t col
      | _ => Pd.get t col
      end) ->
  forall col, In col (Pd.columns t') ->
              Pd.dtype_of t' col = DObject ->
              Forall (fun v => Pd.notna v = true) (Pd.values t' col).
Proof.
  intros Hn Hget col Hcol Hd. unfold Pd.values. unfold Pd.dtype_of in Hd.
  rewrite Hget in *. rewrite Hn in Hcol. apply has_column_in in Hcol.
  rewrite Hcol in *.
  destruct (Pd.dtype_of t col) eqn:Ed;
    try (unfold Pd.dtype_of in Ed; congruence).
  apply fillna_empty_notna.
Qed.

(** The run of the combiner on two usable sources: three allocations (a copy
    of each source and their concatenation) and the loop over the columns of
    the concatenation. *)
Lemma combine_sources_both (s : store) (primary secondary : ref)
    (t1 t2 : DataFrame) :
  s !! primary = Some t1 -> s !! secondary = Some t2 ->
  Pd.empty t1 = false -> Pd.empty t2 = false ->
  exists combined_df s' t',
    combine_sources (Some primary) (Some secondary) s
    = (Returns (Some (combined_df,
                      ["main database"; "unmatching uploaded data"])), s')
    /\ s !! combined_df = None
    /\ s' !! combined_df = Some t'
    /\ df_index t' = df_index (pd_concat t1 t2)
    /\ Pd.columns t' = Pd.columns (pd_concat t1 t2)
    /\ (forall col,
           Pd.get t' col =
           match Pd.dtype_of (pd_concat t1 t2) col with
           | DObject =>
               if existsb (String.eqb col) (Pd.columns (pd_concat t1 t2))
               then fillna_empty (Pd.get (pd_concat t1 t2) col)
               else Pd.get (pd_concat t1 t2) col
           | _ => Pd.get (pd_concat t1 t2) col
           end).
Proof.
  intros H1 H2 E1 E2.
  set (c1 := fresh (dom s)). set (s1 := <[c1 := t1]> s).
  set (c2 := fresh (dom s1)). set (s2 := <[c2 := t2]> s1).
  set (c3 := fresh (dom s2)). set (s3 := <[c3 := pd_concat t1 t2]> s2).
  assert (K1 : s1 !! secondary = Some t2) by (apply alloc_keeps; exact H2).
  assert (R1 : s2 !! c1 = Some t1).
  { apply alloc_keeps. apply lookup_insert_eq. }
  assert (R2 : s2 !! c2 = Some t2) by apply lookup_insert_eq.
  assert (N3 : s !! c3 = None).
  { destruct (s !! c3) as [t|] eqn:E; [|reflexivity].
    assert (s2 !! c3 = Some t) by (do 2 apply alloc_keeps; exact E).
    pose proof (fresh_is_new s2) as Hf. fold c3 in Hf. congruence. }
  destruct (fill_object_columns_result (Pd.columns (pd_concat t1 t2)) c3
              (pd_concat t1 t2) s3)
    as (t' & Hrun & Hi & Hn & Hg).
  { apply lookup_insert_eq. }
  { auto. }
  exists c3, (<[c3 := t']> s3), t'.
  split; [|split; [exact N3|split; [apply lookup_insert_eq|
           split; [exact Hi|split; [exact Hn|exact Hg]]]]].
  unfold combine_sources. unfold bind at 1.
  rewrite (take_source_usable s primary t1 _ H1 E1). fold c1 s1.
  unfold bind at 1.
  rewrite (take_source_usable s1 secondary t2 _ K1 E2). fold c2 s2.
  cbn [fst snd app]. unfold bind at 1. unfold read at 1.
  rewrite (deref_at _ _ _ R1).
  unfold bind at 1. unfold read at 1. rewrite (deref_at _ _ _ R2).
  unfold bind at 1. unfold alloc at 1.
  cbv zeta. fold c3 s3. unfold bind at 1. unfold read at 1.
  rewrite (deref_at s3 c3 (pd_concat t1 t2)) by apply lookup_insert_eq.
  unfold bind. rewrite Hrun. reflexivity.
Qed.

(** The loop visits every column of the concatenation: the test on the
    visited names is the test on the columns of the table. *)
Lemma visited_is_has_column (t : DataFrame) (col : string) :
  existsb (String.eqb col) (Pd.columns t) = Pd.has_column t col.
Proof.
  destruct (existsb (String.eqb col) (Pd.columns t)) eqn:Ex,
           (Pd.has_column t col) eqn:Eh; try reflexivity.
  - apply existsb_eqb_in, has_column_in in Ex. congruence.
  - apply has_column_in, existsb_eqb_in in Eh. congruence.
Qed.

(** With two usable sources the combined table is a new object holding the
    concatenation of the two, in which every object column has its missing
    values replaced by the empty text, numeric and date columns being left
    as they are; both labels are reported. *)
Theorem combine_two_sources (s : store) (primary secondary : ref)
    (t1 t2 : DataFrame) :
  s !! primary = Some t1 -> s !! secondary = Some t2 ->
  Pd.empty t1 = false -> Pd.empty t2 = false ->
  exists combined_df s' t',
    combine_sources (Some primary) (Some secondary) s
    = (Returns (Some (combined_df,
                      ["main database"; "unmatching uploaded data"])), s')
    /\ s !! combined_df = None
    /\ s' !! combined_df = Some t'
    /\ df_index t' = df_index (pd_concat t1 t2)
    /\ Pd.columns t' = Pd.columns (pd_concat t1 t2)
    /\ (forall col,
           Pd.get t' col =
           match Pd.dtype_of (pd_concat t1 t2) col with
           | DObject =>
               if Pd.has_column (pd_concat t1 t2) col
               then fillna_empty (Pd.get (pd_concat t1 t2) col)
               else Pd.get (pd_concat t1 t2) col
           | _ => Pd.get (pd_concat t1 t2) col
           end)
    /\ (forall col, In col (Pd.columns t') ->
                    Pd.dtype_of t' col = DObject ->
                    Forall (fun v => Pd.notna v = true) (Pd.values t' col)).
Proof.
  intros H1 H2 E1 E2.
  destruct (combine_sources_both s primary secondary t1 t2 H1 H2 E1 E2)
    as (c & s' & t' & Hrun & Hnew & Hat & Hi & Hn & Hg).
  assert (Hget : forall col,
             Pd.get t' col =
             match Pd.dtype_of (pd_concat t1 t2) col with
             | DObject =>
                 if Pd.has_column (pd_concat t1 t2) col
                 then fillna_empty (Pd.get (pd_concat t1 t2) col)
                 else Pd.get (pd_concat t1 t2) col
             | _ => Pd.get (pd_concat t1 t2) col
             end).
  { intros col. rewrite Hg, visited_is_has_column. reflexivity. }
  exists c, s', t'.
  split; [exact Hrun|]. split; [exact Hnew|]. split; [exact Hat|].
  split; [exact Hi|]. split; [exact Hn|]. split; [exact Hget|].
  apply (filled_text_columns (pd_concat t1 t2)); assumption.
Qed.

Lemma combine_two_sources_witness :
  exists combined_df s' t',
    combine_sources (Some 0) (Some 1) {[0 := tickets; 1 := half_missing]}
    = (Returns (Some (combined_df,
                      ["main database"; "unmatching uploaded data"])), s')
    /\ ({[0 := tickets; 1 := half_missing]} : store) !! combined_df = None
    /\ s' !! combined_df = Some t'
    /\ df_index t' = df_index (pd_concat tickets half_missing)
    /\ Pd.columns t' = Pd.columns (pd_concat tickets half_missing)
    /\ (forall col,
           Pd.get t' col =
           match Pd.dtype_of (pd_concat tickets half_missing) col with
           | DObject =>
               if Pd.has_column (pd_concat tickets half_missing) col
               then fillna_empty (Pd.get (pd_concat tickets half_missing) col)
               else Pd.get (pd_concat tickets half_missing) col
           | _ => Pd.get (pd_concat tickets half_missing) col
           end)
    /\ (forall col, In col (Pd.columns t') ->
                    Pd.dtype_of t' col = DObject ->
                    Forall (fun v => Pd.notna v = true) (Pd.values t' col)).
Proof.
  apply (combine_two_sources {[0 := tickets; 1 := half_missing]} 0 1
                             tickets half_missing); reflexivity.
Defined.

(** ** The summary of a combined table *)

Lemma notna_nothing_missing (l : list cell) :
  Forall (fun v => Pd.notna v = true) l ->
  List.filter Pd.isna l = [] /\ Pd.count_notna l = length l.
Proof.
  unfold Pd.count_notna, Pd.dropna.
  induction 1 as [|v l Hv _ [IH1 IH2]]; [split; reflexivity|].
  simpl. unfold Pd.isna at 1. rewrite Hv. simpl. split; [exact IH1|].
  f_equal. exact IH2.
Qed.

Lemma pct_of_none (total : nat) : Qle_bool (pct 0 total) 50 = true.
Proof.
  apply Qle_bool_iff. unfold pct.
  change (inject_Z (Z.of_nat 0)) with 0%Q.
  unfold Qdiv. rewrite !Qmult_0_l. unfold Qle. simpl. lia.
Qed.

(** The summary marks a column as "mostly from unmatching data" when more
    than half of its entries are missing and there are two sources.  On the
    table combined from two sources this never applies to a text column:
    the combiner has replaced its missing values by the empty text, so the
    column is reported with every record non-null and without the mark,
    also when it comes from the unmatching data only. *)
Theorem summary_never_marks_text_columns (s s' : store)
    (primary secondary combined_df : ref) (t1 t2 t' : DataFrame)
    (data_sources : list string) (col : string) :
  s !! primary = Some t1 -> s !! secondary = Some t2 ->
  Pd.empty t1 = false -> Pd.empty t2 = false ->
  combine_sources (Some primary) (Some secondary) s
  = (Returns (Some (combined_df, data_sources)), s') ->
  s' !! combined_df = Some t' ->
  In col (Pd.columns t') ->
  Pd.dtype_of t' col = DObject ->
  summary_column t' data_sources col
  = "- **" +:+ col +:+ ":** object, " +:+
    Fmt.of_nat (length (Pd.values t' col)) +:+ " non-null, " +:+
    Fmt.of_nat (Pd.nunique (Pd.values t' col)) +:+ " unique values" +:+ Str.nl.
Proof.
  intros H1 H2 E1 E2 Hrun Hat Hcol Hd.
  destruct (combine_sources_both s primary secondary t1 t2 H1 H2 E1 E2)
    as (c & s0 & t0 & Hrun0 & _ & Hat0 & _ & Hn & Hg).
  rewrite Hrun0 in Hrun. injection Hrun as -> _ ->.
  rewrite Hat0 in Hat. injection Hat as ->.
  assert (Hfull : Forall (fun v => Pd.notna v = true) (Pd.values t' col)).
  { apply (filled_text_columns (pd_concat t1 t2)); try assumption.
    intros x. rewrite Hg, visited_is_has_column. reflexivity. }
  destruct (notna_nothing_missing _ Hfull) as [Hnone Hall].
  unfold summary_column. rewrite Hnone, Hall, Hd. simpl length at 1.
  rewrite pct_of_none. reflexivity.
Qed.

Lemma summary_never_marks_text_columns_witness :
  exists t',
    snd (combine_sources (Some 0%nat) (Some 1%nat)
           {[0%nat := tickets; 1%nat := dated]}) !! 4%nat = Some t' /\
    summary_column t' ["main database"; "unmatching uploaded data"] "date"
    = "- **date:** object, 3 non-null, 2 unique values" +:+ Str.nl.
Proof.
  eexists. split; [vm_compute; reflexivity|].
  refine (eq_trans
            (summary_never_marks_text_columns
               {[0%nat := tickets; 1%nat := dated]}
               (snd (combine_sources (Some 0%nat) (Some 1%nat)
                       {[0%nat := tickets; 1%nat := dated]}))
               0%nat 1%nat 4%nat
               tickets dated _ _ "date" _ _ _ _ _ _ _ _) _);
    try (vm_compute; reflexivity).
  vm_compute. tauto.
Defined.

(** ** Only the secondary source *)

(** When the primary table is absent or empty and the secondary one is
    not, the combined table is a new object holding exactly the secondary
    table, under the label of the uploaded data. *)
Theorem combiner_identity_secondary (s : store) (context_df : option ref)
    (secondary : ref) (t : DataFrame) :
  unusable s context_df ->
  s !! secondary = Some t ->
  Pd.empty t = false ->
  exists combined_df s',
    combine_sources context_df (Some secondary) s
    = (Returns (Some (combined_df, ["unmatching uploaded data"])), s') /\
    s !! combined_df = None /\
    s' !! combined_df = Some t /\
    s' !! secondary = Some t.
Proof.
  intros Hu Ht He. exists (fresh (dom s)), (<[fresh (dom s) := t]> s).
  split; [|split; [|split]].
  - unfold combine_sources, bind.
    rewrite (take_source_unusable _ _ _ Hu).
    rewrite (take_source_usable _ _ _ _ Ht He). reflexivity.
  - apply fresh_is_new.
  - apply lookup_insert_eq.
  - apply alloc_keeps. exact Ht.
Qed.

Lemma combiner_identity_secondary_witness :
  exists combined_df s',
    combine_sources (Some 0) (Some 1) {[0 := no_rows; 1 := tickets]}
    = (Returns (Some (combined_df, ["unmatching uploaded data"])), s') /\
    ({[0 := no_rows; 1 := tickets]} : store) !! combined_df = None /\
    s' !! combined_df = Some tickets /\
    s' !! 1 = Some tickets.
Proof.
  apply (combiner_identity_secondary {[0 := no_rows; 1 := tickets]}
                                     (Some 0) 1 tickets).
  - exists no_rows. split; reflexivity.
  - reflexivity.
  - reflexivity.
Defined.

(** ** Where a column comes from *)

Lemma main_labels (context_cols : list string) (info : gmap string string)
    (col : string) :
  fold_left (fun info c => <[c := "main database"]> info) context_cols info
  !! col
  = if existsb (String.eqb col) context_cols then Some "main database"
    else info !! col.
Proof.
  revert info. induction context_cols as [|c cols IH]; intros info; simpl.
  - reflexivity.
  - rewrite IH. destruct (existsb (String.eqb col) cols).
    + rewrite orb_true_r. reflexivity.
    + rewrite orb_false_r. destruct (String.eqb_spec col c) as [->|Hne].
      * apply lookup_insert_eq.
      * apply lookup_insert_ne. congruence.
Qed.

Lemma other_labels (unmatching_cols : list string)
    (info : gmap string string) (col : string) :
  List.NoDup unmatching_cols ->
  fold_left
    (fun info c =>
       match info !! c with
       | None => <[c := "unmatching uploaded data"]> info
       | Some _ => <[c := "both sources"]> info
       end)
    unmatching_cols info !! col
  = if existsb (String.eqb col) unmatching_cols
    then match info !! col with
         | None => Some "unmatching uploaded data"
         | Some _ => Some "both sources"
         end
    else info !! col.
Proof.
  intros Hnd. revert info.
  induction Hnd as [|c cols Hc Hnd IH]; intros info; simpl; [reflexivity|].
  rewrite IH. destruct (String.eqb_spec col c) as [->|Hne]; simpl.
  - assert (Hex : existsb (String.eqb c) cols = false).
    { destruct (existsb (String.eqb c) cols) eqn:E; [|reflexivity].
      apply existsb_eqb_in in E. contradiction. }
    rewrite Hex. destruct (info !! c); apply lookup_insert_eq.
  - assert (Hsame : match info !! c with
                    | None => <[c := "unmatching uploaded data"]> info
                    | Some _ => <[c := "both sources"]> info
                    end !! col = info !! col).
    { destruct (info !! c); apply lookup_insert_ne; congruence. }
    rewrite Hsame. reflexivity.
Qed.

Lemma tracked_has (source : option DataFrame) (col : string) :
  existsb (String.eqb col) (tracked source)
  = match source with
    | Some t => negb (Pd.empty t) && Pd.has_column t col
    | None => false
    end.
Proof.
  destruct source as [t|]; [|reflexivity]. unfold tracked.
  destruct (Pd.empty t); [reflexivity|]. apply visited_is_has_column.
Qed.

(** The provenance of a column.  A table counts when it is given and is
    not empty.  The column is recorded under "both sources" when both
    tables count and have it, else under the label of the one table that
    counts and has it, and it has no entry otherwise: a column of an empty
    table is not recorded. *)
Theorem column_info_provenance (context_df unmatching_df : option DataFrame)
    (col : string) :
  (forall t, unmatching_df = Some t -> List.NoDup (Pd.columns t)) ->
  let recorded (source : option DataFrame) :=
    match source with
    | Some t => negb (Pd.empty t) && Pd.has_column t col
    | None => false
    end in
  column_info context_df unmatching_df !! col =
  match recorded context_df, recorded unmatching_df with
  | true, true => Some "both sources"
  | true, false => Some "main database"
  | false, true => Some "unmatching uploaded data"
  | false, false => None
  end.
Proof.
  intros Hnd. cbv zeta. unfold column_info.
  assert (Hnd' : List.NoDup (tracked unmatching_df)).
  { destruct unmatching_df as [t|]; simpl; [|constructor].
    destruct (Pd.empty t); [constructor | apply Hnd; reflexivity]. }
  rewrite (other_labels _ _ _ Hnd'), main_labels, lookup_empty.
  rewrite !tracked_has.
  destruct (match context_df with
            | Some t => negb (Pd.empty t) && Pd.has_column t col
            | None => false
            end),
           (match unmatching_df with
            | Some t => negb (Pd.empty t) && Pd.has_column t col
            | None => false
            end); reflexivity.
Qed.

(** An empty primary table that has the column does not count. *)
Lemma column_info_provenance_witness :
  column_info (Some no_rows) (Some amounts) !! "id"
  = Some "unmatching uploaded data".
Proof.
  refine (eq_trans (column_info_provenance (Some no_rows) (Some amounts)
                      "id" _) _).
  - intros t [= <-]. repeat constructor; simpl; intuition discriminate.
  - reflexivity.
Defined.

(** ** The question is normalised *)

Lemma is_space_lower (c : ascii) : Str.is_space (Str.lower_char c) = Str.is_space c.
Proof.
  destruct c as [[] [] [] [] [] [] [] []]; vm_compute; reflexivity.
Qed.

Lemma lstrip_lower (s : string) :
  Str.lstrip (Str.lower s) = Str.lower (Str.lstrip s).
Proof.
  induction s as [|c s IH]; simpl; [reflexivity|].
  rewrite is_space_lower. destruct (Str.is_space c); [exact IH | reflexivity].
Qed.

Lemma rstrip_lower (s : string) :
  Str.rstrip (Str.lower s) = Str.lower (Str.rstrip s).
Proof.
  induction s as [|c s IH]; simpl; [reflexivity|].
  rewrite IH, is_space_lower.
  destruct (Str.rstrip s); simpl; [destruct (Str.is_space c)|]; reflexivity.
Qed.

Lemma rstrip_idempotent (s : string) :
  Str.rstrip (Str.rstrip s) = Str.rstrip s.
Proof.
  induction s as [|c s IH]; simpl; [reflexivity|].
  destruct (Str.rstrip s) as [|d r] eqn:E.
  - destruct (Str.is_space c) eqn:Hc; simpl; rewrite ?Hc; reflexivity.
  - simpl. simpl in IH. rewrite IH. reflexivity.
Qed.

Lemma lstrip_head (s : string) :
  match Str.lstrip s with
  | EmptyString => True
  | String c _ => Str.is_space c = false
  end.
Proof.
  induction s as [|c s IH]; simpl; [exact I|].
  destruct (Str.is_space c) eqn:Hc; [exact IH | exact Hc].
Qed.

Lemma rstrip_head (c : ascii) (s : string) :
  Str.is_space c = false ->
  exists r, Str.rstrip (String c s) = String c r.
Proof.
  intros Hc. simpl. destruct (Str.rstrip s); rewrite ?Hc; eauto.
Qed.

Lemma strip_idempotent (s : string) : Str.strip (Str.strip s) = Str.strip s.
Proof.
  unfold Str.strip.
  assert (H : Str.lstrip (Str.rstrip (Str.lstrip s))
              = Str.rstrip (Str.lstrip s)).
  { pose proof (lstrip_head s) as Hh.
    destruct (Str.lstrip s) as [|c x]; [reflexivity|].
    destruct (rstrip_head c x Hh) as [r ->]. simpl. rewrite Hh. reflexivity. }
  rewrite H. apply rstrip_idempotent.
Qed.

(** Normalising a question twice is normalising it once. *)
Lemma normalise_idempotent (s : string) :
  Str.strip (Str.lower (Str.strip (Str.lower s))) = Str.strip (Str.lower s).
Proof.
  unfold Str.strip at 2.
  rewrite <- rstrip_lower, <- lstrip_lower, lower_idempotent.
  apply strip_idempotent.
Qed.

(** The answer does not depend on the case of the letters of the question
    nor on blanks around it: a question and its lower-cased, stripped form
    get the same answer and leave the same store. *)
Theorem question_is_normalised `{PandasText} `{NumpySum}
    (user_input : string)
    (context_df unmatching_df : option ref) (role_hint : option string)
    (s : store) :
  generate_response (Str.strip (Str.lower user_input)) context_df role_hint
                    unmatching_df s
  = generate_response user_input context_df role_hint unmatching_df s.
Proof.
  unfold generate_response. rewrite normalise_idempotent. reflexivity.
Qed.

(** ** The trend handler *)

Section TrendFacts.
Context `{PandasText}.

(** A converted cell is a timestamp or [NaT], and converts to itself. *)
Lemma coerce_cell_fixed (v : cell) :
  to_datetime (default (Null NaT) (to_datetime v))
  = Some (default (Null NaT) (to_datetime v)).
Proof.
  destruct v as [k|q|str|t]; simpl; try reflexivity.
  - destruct (num_date q); reflexivity.
  - destruct (parse_date str) as [[t|]|]; reflexivity.
Qed.

Lemma to_datetime_coerce_idempotent (c : column) :
  to_datetime_coerce (to_datetime_coerce c) = to_datetime_coerce c.
Proof.
  unfold to_datetime_coerce. simpl. f_equal. rewrite map_map.
  apply map_ext. intros v. rewrite coerce_cell_fixed. reflexivity.
Qed.

Lemma coerced_converts (c : column) (n : nat) :
  forallb (fun v => bool_decide (is_Some (to_datetime v)))
          (Pd.head n (col_values (to_datetime_coerce c))) = true.
Proof.
  apply forallb_forall. intros v Hv. unfold Pd.head in Hv.
  apply firstn_in in Hv. unfold to_datetime_coerce in Hv. simpl in Hv.
  apply in_map_iff in Hv as (x & <- & _).
  rewrite coerce_cell_fixed. apply bool_decide_eq_true. eauto.
Qed.

(** Converting the first date column does not change which columns are
    taken for dates. *)
Lemma date_cols_after_write (t : DataFrame) (columns : list string)
    (date_col : string) (rest : list string) :
  date_cols t columns = date_col :: rest ->
  date_cols (Pd.set_column t date_col
               (to_datetime_coerce (Pd.get t date_col))) columns
  = date_col :: rest.
Proof.
  unfold date_cols.
  destruct (List.filter _ columns) as [|n by_name] eqn:Hname; [|auto].
  intros Hcontent. rewrite <- Hcontent. apply filter_ext_in.
  intros col Hcol. unfold Pd.values.
  destruct (String.eqb_spec col date_col) as [->|Hne].
  - rewrite get_set_same, coerced_converts.
    assert (Hin : In date_col
                     (List.filter
                        (fun col =>
                           forallb (fun v => bool_decide
                                               (is_Some (to_datetime v)))
                                   (Pd.head 10 (Pd.values t col)))
                        columns)).
    { rewrite Hcontent. left. reflexivity. }
    apply filter_In in Hin as [_ Hp]. symmetry. exact Hp.
  - rewrite get_set_other by exact Hne. reflexivity.
Qed.

Lemma set_column_twice (t : DataFrame) (k : string) (c : column) :
  Pd.set_column (Pd.set_column t k c) k c = Pd.set_column t k c.
Proof.
  unfold Pd.set_column. simpl. f_equal.
  induction (df_columns t) as [|[k' v'] l IH]; simpl.
  - rewrite String.eqb_refl. reflexivity.
  - destruct (String.eqb k' k) eqn:E; simpl; rewrite E; [reflexivity|].
    rewrite IH. reflexivity.
Qed.

(** The write of the trend handler is idempotent: a second trend question
    on the same table, whatever its wording, leaves the table as the first
    one left it. *)
Theorem trend_write_is_idempotent (first second : string) (df : ref)
    (columns mentioned_cols mentioned_cols' : list string)
    (role_hint role_hint' : option string) (s : store) (t : DataFrame) :
  s !! df = Some t ->
  let s1 := snd (handle_comprehensive_trend first df columns mentioned_cols
                                            role_hint s) in
  snd (handle_comprehensive_trend second df columns mentioned_cols'
                                  role_hint' s1) = s1.
Proof.
  intros Ht. cbv zeta.
  pose proof (@handler_store _ in_order Trend first df columns mentioned_cols
                role_hint [] s) as H1.
  cbn [handler] in H1. rewrite H1. cbv zeta.
  rewrite (deref_at _ _ _ Ht).
  destruct (date_cols t columns) as [|date_col rest] eqn:Hd.
  - pose proof (@handler_store _ in_order Trend second df columns
                  mentioned_cols' role_hint' [] s) as H2.
    cbn [handler] in H2. rewrite H2. cbv zeta.
    rewrite (deref_at _ _ _ Ht), Hd. reflexivity.
  - set (t1 := Pd.set_column t date_col
                 (to_datetime_coerce (Pd.get t date_col))).
    pose proof (@handler_store _ in_order Trend second df columns
                  mentioned_cols' role_hint' [] (<[df := t1]> s)) as H2.
    cbn [handler] in H2. rewrite H2. cbv zeta.
    rewrite (deref_at _ _ t1) by apply lookup_insert_eq.
    unfold t1 at 1.
    rewrite (date_cols_after_write t columns date_col rest Hd).
    fold t1. unfold t1 at 2. rewrite get_set_same.
    rewrite to_datetime_coerce_idempotent. unfold t1.
    rewrite set_column_twice, insert_insert_eq. reflexivity.
Qed.

End TrendFacts.

Lemma trend_write_is_idempotent_witness :
  let s1 := snd (@handle_comprehensive_trend sample_text "latest" 0 ["date"]
                   [] None {[0 := dated]}) in
  snd (@handle_comprehensive_trend sample_text "oldest" 0 ["date"] [] None s1)
  = s1.
Proof.
  apply (@trend_write_is_idempotent sample_text "latest" "oldest" 0 ["date"]
           [] [] None None {[0 := dated]} dated).
  reflexivity.
Defined.

(** ** Sorting by date *)

Lemma key_le_total (a b : option Z) : key_le a b = false -> key_le b a = true.
Proof.
  destruct a, b; simpl; try discriminate; try reflexivity.
  intros Hab. apply Z.leb_gt in Hab. apply Z.leb_le. lia.
Qed.

Lemma key_le_trans (a b c : option Z) :
  key_le a b = true -> key_le b c = true -> key_le a c = true.
Proof.
  destruct a, b, c; simpl; try discriminate; try reflexivity.
  rewrite !Z.leb_le. lia.
Qed.

Lemma insert_by_key_perm (key : row -> option Z) (x : row) (l : list row) :
  Permutation (insert_by_key key x l) (x :: l).
Proof.
  induction l as [|y l IH]; simpl; [reflexivity|].
  destruct (key_le (key x) (key y)); [reflexivity|].
  rewrite IH. apply perm_swap.
Qed.

Lemma insert_by_key_sorted (key : row -> option Z) (x : row) (l : list row) :
  ForallOrdPairs (fun a b => key_le (key a) (key b) = true) l ->
  ForallOrdPairs (fun a b => key_le (key a) (key b) = true)
                 (insert_by_key key x l).
Proof.
  induction 1 as [|y l Hy Hl IH]; simpl.
  - constructor; constructor.
  - destruct (key_le (key x) (key y)) eqn:E.
    + constructor; [|constructor; assumption].
      constructor; [exact E|].
      rewrite List.Forall_forall in *. intros z Hz.
      eapply key_le_trans; [exact E | apply Hy, Hz].
    + constructor; [|exact IH].
      rewrite List.Forall_forall in *. intros z Hz.
      apply (Permutation_in _ (insert_by_key_perm key x l)) in Hz.
      destruct Hz as [<-|Hz]; [apply key_le_total, E | apply Hy, Hz].
Qed.

(** [sort_values] rearranges the rows of the table, none lost and none
    added, so that dates ascend and the rows without a date come last. *)
Theorem sort_values_ordered (df : DataFrame) (date_col : string) :
  Permutation (sort_values df date_col) (Pd.rows df) /\
  ForallOrdPairs
    (fun a b : row =>
       key_le (time_of (Pd.row_get (Pd.columns df) (snd a) date_col))
              (time_of (Pd.row_get (Pd.columns df) (snd b) date_col)) = true)
    (sort_values df date_col).
Proof.
  unfold sort_values. split.
  - induction (Pd.rows df) as [|r l IH]; simpl; [reflexivity|].
    rewrite insert_by_key_perm, IH. reflexivity.
  - induction (Pd.rows df) as [|r l IH]; simpl; [constructor|].
    apply (insert_by_key_sorted
             (fun r => time_of (Pd.row_get (Pd.columns df) (snd r) date_col))).
    exact IH.
Qed.

(** The rows without a date are sorted last, and "most recent" takes the
    last rows: as soon as one row of the table has no date, the row listed
    as the most recent of all is one without a date. *)
Theorem most_recent_is_undated (df : DataFrame) (date_col : string)
    (earlier : list row) (latest undated : row) :
  sort_values df date_col = (earlier ++ [latest])%list ->
  In undated (Pd.rows df) ->
  time_of (Pd.row_get (Pd.columns df) (snd undated) date_col) = None ->
  time_of (Pd.row_get (Pd.columns df) (snd latest) date_col) = None /\
  Pd.tail 10 (sort_values df date_col)
  = (Pd.tail 9 earlier ++ [latest])%list.
Proof.
  intros Hsorted Hin Hnone.
  destruct (sort_values_ordered df date_col) as [Hperm Hord].
  split.
  - rewrite Hsorted in Hperm, Hord.
    apply (Permutation_in _ (Permutation_sym Hperm)) in Hin.
    apply in_app_or in Hin as [Hin|[<-|[]]]; [|exact Hnone].
    apply ordpairs_app in Hord as (_ & _ & Hcross).
    specialize (Hcross undated latest Hin ltac:(left; reflexivity)).
    simpl in Hcross. rewrite Hnone in Hcross.
    destruct (time_of (Pd.row_get (Pd.columns df) (snd latest) date_col));
      [discriminate | reflexivity].
  - rewrite Hsorted. unfold Pd.tail. rewrite length_app. simpl.
    rewrite skipn_app.
    replace (length earlier + 1 - 10 - length earlier)%nat with 0%nat by lia.
    replace (length earlier + 1 - 10)%nat with (length earlier - 9)%nat by lia.
    reflexivity.
Qed.

(** In [events] the row without a date stands second; sorted by date it
    comes after the two dated rows and is the last of the most recent. *)
Lemma most_recent_is_undated_witness :
  time_of (Pd.row_get (Pd.columns events)
                      (snd (1%nat, [Null NaT; Str "c"])) "date")
  = None /\
  Pd.tail 10 (sort_values events "date")
  = (Pd.tail 9 [(2%nat, [Time 3; Str "a"]); (0%nat, [Time 5; Str "b"])] ++
     [(1%nat, [Null NaT; Str "c"])])%list.
Proof.
  apply (most_recent_is_undated events "date"
           [(2%nat, [Time 3; Str "a"]); (0%nat, [Time 5; Str "b"])]
           (1%nat, [Null NaT; Str "c"]) (1%nat, [Null NaT; Str "c"])).
  - reflexivity.
  - right. left. reflexivity.
  - reflexivity.
Defined.

(** ** When the value handler turns to the search *)

Lemma count_char_app (c : ascii) (a b : string) :
  Str.count_char c (a +:+ b) = (Str.count_char c a + Str.count_char c b)%nat.
Proof.
  induction a as [|x a IH]; [reflexivity|].
  change (String x a +:+ b) with (String x (a +:+ b)). simpl.
  rewrite IH. lia.
Qed.

Lemma string_app_nil_r (a : string) : a +:+ "" = a.
Proof.
  induction a as [|x a IH]; [reflexivity|].
  change (String x a +:+ "") with (String x (a +:+ "")). rewrite IH.
  reflexivity.
Qed.

Lemma cat_count (c : ascii) (n : nat) (l : list string) :
  Forall (fun b => b = "" \/ (n <= Str.count_char c b)%nat) l ->
  Str.cat l = "" \/ (n <= Str.count_char c (Str.cat l))%nat.
Proof.
  induction 1 as [|b l Hb Hl IH]; simpl; [left; reflexivity|].
  destruct Hb as [->|Hb]; [exact IH|].
  right. rewrite count_char_app. lia.
Qed.

Lemma lower_app (a b : string) :
  Str.lower (a +:+ b) = Str.lower a +:+ Str.lower b.
Proof.
  induction a as [|x a IH]; [reflexivity|].
  change (String x a +:+ b) with (String x (a +:+ b)). simpl.
  rewrite IH. reflexivity.
Qed.

Lemma contains_app_l (w a b : string) :
  Str.contains w a = true -> Str.contains w (a +:+ b) = true.
Proof.
  intros Hc. apply contains_occurs_in in Hc as (p & q & ->).
  apply contains_occurs_in. exists p, (q +:+ b).
  rewrite !string_app_assoc. reflexivity.
Qed.

Section ValueFacts.
Context `{PandasText}.

(** A block of the listing is empty or holds at least three line feeds. *)
Lemma value_block_lines (user_input : string) (df : DataFrame) (col : string) :
  value_block user_input df col = "" \/
  (3 <= Str.count_char (ascii_of_nat 10) (value_block user_input df col))%nat.
Proof.
  unfold value_block.
  destruct (Str.word_search _ _); [|left; reflexivity].
  set (unique_vals := Pd.unique (Pd.dropna (Pd.values df col))).
  destruct (Nat.ltb_spec 0 (length unique_vals)) as [Hpos|_];
    [|left; reflexivity].
  right. destruct (length unique_vals <=? 20)%nat.
  - destruct unique_vals as [|v rest]; [simpl in Hpos; lia|].
    unfold Pd.head. simpl firstn. simpl map. simpl Str.cat.
    rewrite !count_char_app.
    change (Str.count_char (ascii_of_nat 10) Str.nl) with 1%nat. lia.
  - rewrite !count_char_app.
    change (Str.count_char (ascii_of_nat 10) Str.nl) with 1%nat. lia.
Qed.

(** The value handler answers with its listing exactly when the listing
    has a block, that is, when some column named in the question as a
    whole word has a value; otherwise, in particular when the question
    names no column, its answer is that of the search handler. *)
Theorem value_query_fallback (user_input : string) (df : DataFrame)
    (columns : list string) :
  value_response user_input df columns =
  (if String.eqb (Str.cat (map (value_block user_input df) columns)) ""
   then search_response user_input df columns
   else "📋 **Value Query Results:**" +:+ Str.nl +:+ Str.nl +:+
        Str.cat (map (value_block user_input df) columns)) /\
  ((forall col, In col columns ->
                Str.word_search (Str.lower col) user_input = false \/
                Pd.dropna (Pd.values df col) = []) ->
   value_response user_input df columns
   = search_response user_input df columns).
Proof.
  assert (Hmain :
            value_response user_input df columns =
            (if String.eqb (Str.cat (map (value_block user_input df) columns))
                           ""
             then search_response user_input df columns
             else "📋 **Value Query Results:**" +:+ Str.nl +:+ Str.nl +:+
                  Str.cat (map (value_block user_input df) columns))).
  { unfold value_response.
    set (blocks := Str.cat (map (value_block user_input df) columns)).
    assert (Hb : blocks = "" \/
                 (3 <= Str.count_char (ascii_of_nat 10) blocks)%nat).
    { apply cat_count. apply List.Forall_forall. intros b Hin.
      apply in_map_iff in Hin as (c & <- & _). apply value_block_lines. }
    cbv zeta. destruct Hb as [->|Hb].
    - reflexivity.
    - destruct (String.eqb_spec blocks "") as [E|_].
      + rewrite E in Hb. simpl in Hb. lia.
      + assert (Hlen : (Str.split_len (ascii_of_nat 10)
                          ("📋 **Value Query Results:**" +:+ Str.nl +:+
                           Str.nl +:+ blocks) <? 5)%nat = false).
        { apply Nat.ltb_ge. unfold Str.split_len.
          rewrite !count_char_app.
          change (Str.count_char (ascii_of_nat 10) Str.nl) with 1%nat. lia. }
        rewrite Hlen, andb_false_r. reflexivity. }
  split; [exact Hmain|].
  intros Hnone. rewrite Hmain.
  assert (Hempty : Str.cat (map (value_block user_input df) columns) = "").
  { clear Hmain. induction columns as [|c cols IH]; [reflexivity|].
    simpl.
    assert (Hc : value_block user_input df c = "").
    { unfold value_block.
      destruct (Hnone c ltac:(left; reflexivity)) as [-> | ->];
        [reflexivity|].
      destruct (Str.word_search _ _); reflexivity. }
    rewrite Hc. apply IH. intros col Hcol. apply Hnone. right. exact Hcol. }
  rewrite Hempty. reflexivity.
Qed.

End ValueFacts.

(** ** What a whole-word match is *)

(** Matching a literal made of word characters: the text starts with it,
    and the character before the end of the match is a word character. *)
Lemma match_literal_spec (prev : option ascii) (w s : string)
    (last : option ascii) (rest : string) :
  forallb Str.is_word_char (list_ascii_of_string w) = true ->
  Str.is_word prev = true \/ w <> "" ->
  Str.match_literal prev w s = Some (last, rest) ->
  s = w +:+ rest /\ Str.is_word last = true.
Proof.
  revert prev s. induction w as [|a w IH]; intros prev s Hw Hp; simpl.
  - intros [= <- <-]. split; [reflexivity|].
    destruct Hp as [Hp|Hp]; [exact Hp | congruence].
  - destruct s as [|b s]; [discriminate|].
    destruct (Ascii.eqb_spec a b) as [<-|]; [|discriminate].
    simpl in Hw. apply andb_prop in Hw as [Ha Hw].
    intros Hm. destruct (IH (Some a) s Hw (or_introl Ha) Hm) as [-> Hl].
    split; [reflexivity | exact Hl].
Qed.

Lemma match_literal_app (prev : option ascii) (w rest : string) :
  exists last,
    Str.match_literal prev w (w +:+ rest) = Some (last, rest) /\
    (w <> "" -> forallb Str.is_word_char (list_ascii_of_string w) = true ->
     Str.is_word last = true) /\
    (w = "" -> last = prev).
Proof.
  revert prev. induction w as [|a w IH]; intros prev.
  - exists prev. repeat split; auto; congruence.
  - change (String a w +:+ rest) with (String a (w +:+ rest)). simpl.
    rewrite Ascii.eqb_refl.
    destruct (IH (Some a)) as (last & Hm & Hword & Hnil).
    exists last. split; [exact Hm|]. split; [|discriminate].
    intros _ Hw. simpl in Hw. apply andb_prop in Hw as [Ha Hw].
    destruct w as [|b w'].
    + rewrite (Hnil eq_refl). exact Ha.
    + apply Hword; [discriminate | exact Hw].
Qed.

Lemma word_search_from_spec (prev : option ascii) (w s : string) :
  w <> "" ->
  forallb Str.is_word_char (list_ascii_of_string w) = true ->
  Str.word_search_from prev w s = true <->
  exists before after,
    s = before +:+ w +:+ after /\
    Str.is_word (char_before prev before) = false /\
    Str.is_word (Str.head_char after) = false.
Proof.
  intros Hne Hw.
  assert (Hhead : forall rest, exists a,
             Str.head_char (w +:+ rest) = Some a /\
             Str.is_word_char a = true).
  { intros rest. destruct w as [|a w']; [congruence|].
    exists a. split; [reflexivity|]. simpl in Hw.
    apply andb_prop in Hw. tauto. }
  assert (Hhere : forall prev s,
             Str.word_match_here prev w s = true <->
             exists after, s = w +:+ after /\ Str.is_word prev = false /\
                           Str.is_word (Str.head_char after) = false).
  { intros p x. unfold Str.word_match_here, Str.boundary. split.
    - intros Hm. apply andb_prop in Hm as [Hb Hm].
      destruct (Str.match_literal p w x) as [[last rest]|] eqn:E;
        [|discriminate].
      destruct (match_literal_spec p w x last rest Hw (or_intror Hne) E)
        as [-> Hl].
      exists rest. split; [reflexivity|].
      destruct (Hhead rest) as (a & Ha & Hwa). rewrite Ha in Hb.
      simpl in Hb. rewrite Hwa in Hb. rewrite Hl in Hm.
      destruct (Str.is_word p), (Str.is_word (Str.head_char rest));
        simpl in *; try discriminate; auto.
    - intros (after & -> & Hp & Ha).
      destruct (match_literal_app p w after) as (last & Hm & Hword & _).
      rewrite Hm, (Hword Hne Hw), Ha, Hp.
      destruct (Hhead after) as (a & Hh & Hwa). rewrite Hh. simpl.
      rewrite Hwa. reflexivity. }
  revert prev. induction s as [|c s IH]; intros prev.
  - simpl. rewrite orb_false_r, Hhere. split.
    + intros (after & E & Hp & Ha). exists "", after. auto.
    + intros (before & after & E & Hp & Ha).
      destruct before as [|b before']; [|discriminate E].
      exists after. auto.
  - simpl. rewrite orb_true_iff, Hhere, IH. split.
    + intros [(after & E & Hp & Ha)|(before & after & E & Hp & Ha)].
      * exists "", after. auto.
      * exists (String c before), after. rewrite E. auto.
    + intros (before & after & E & Hp & Ha).
      destruct before as [|b before'].
      * left. exists after. auto.
      * right. injection E as -> E. exists before', after. auto.
Qed.

(** A column name made of word characters is found by the whole-word
    search exactly when the question holds it with no word character
    directly before it and none directly after: never inside a longer
    word. *)
Theorem word_search_is_whole_word (w s : string) :
  w <> "" ->
  forallb Str.is_word_char (list_ascii_of_string w) = true ->
  Str.word_search w s = true <-> occurs_as_word w s.
Proof.
  intros Hne Hw. unfold Str.word_search, occurs_as_word.
  apply word_search_from_spec; assumption.
Qed.

Lemma word_search_is_whole_word_witness :
  Str.word_search "status" "open status, please" = true <->
  occurs_as_word "status" "open status, please".
Proof.
  apply word_search_is_whole_word; [discriminate | reflexivity].
Defined.

(** ** Median and standard deviation *)











(** ** The standard deviation line *)



